(** * LinkedIn research agent: a shallow embedding of the research pipeline

    The development models three Python modules:
    - [simple_linkedin_agent.py]: [ResearchStep] and [LinkedInResearchAgent]
      (the staged pipeline [research] and its three LLM helpers);
    - [linkedin_rapidapi_client.py]: [LinkedInRapidAPIClient]
      ([get_company_info], [search_people], [_get_fallback_company_info]);
    - [app.py]: [run_research_task], the adapter writing a run back to the
      database, first on a session whose calls do not raise, then on one
      whose calls may ([Session]).

    Python values are dynamically typed, so the data the program receives
    from its services is a [value]; every operation that Python checks at
    run time returns an [outcome], whose [Raise] case is a Python exception.
    The agent mutates itself and talks to two services: that is a state
    monad [M] over the agent's attributes, a clock and a log of the calls
    made; the services, the clock and the runtime library functions the
    code calls ([json.loads], [json.dumps], [repr]) are the fields of a
    [World]. A Python [str] is held as its UTF-8 bytes, and counted,
    iterated and indexed by character. *)

From Stdlib Require Import ZArith QArith String Ascii List Bool Lia DecimalString.
From stdpp Require Import base option list gmap.
Import ListNotations.

Local Open Scope string_scope.
Local Open Scope list_scope.

(** ** Strings as the code uses them *)

Module PyStr.

Definition nl : string := String (ascii_of_nat 10) EmptyString.
Definition dquote : string := String (ascii_of_nat 34) EmptyString.

Definition string_of_nat (n : nat) : string :=
  NilZero.string_of_uint (Nat.to_uint n).

Definition string_of_Z (z : Z) : string :=
  NilZero.string_of_int (Z.to_int z).

(** [sep.join(parts)] *)
Fixpoint join (sep : string) (parts : list string) : string :=
  match parts with
  | [] => ""
  | [p] => p
  | p :: rest => p ++ sep ++ join sep rest
  end.

(** [needle in hay] on two strings: substring search. *)
Fixpoint contains (needle hay : string) : bool :=
  String.prefix needle hay
  || match hay with
     | EmptyString => false
     | String _ hay' => contains needle hay'
     end.

(** A Python [str] is a sequence of code points; here it is the [string]
    of its UTF-8 bytes (a lone surrogate, which a [str] may hold, encoded
    like any other code point). Equality, concatenation and the search for
    a substring are the same on the code points and on the bytes; length,
    iteration and indexing are not, and go by character below. *)

(** A byte 10xxxxxx: it continues the character begun before it. *)
Definition is_continuation (c : ascii) : bool :=
  let n := nat_of_ascii c in (128 <=? n)%nat && (n <? 192)%nat.

(** The bytes of a string by character, from the right: the continuation
    bytes met before their first byte, then the characters completed. *)
Fixpoint groups (s : string) : string * list string :=
  match s with
  | EmptyString => (EmptyString, [])
  | String c s' =>
      let '(open, done) := groups s' in
      if is_continuation c then (String c open, done)
      else (EmptyString, String c open :: done)
  end.

(** The characters of a string, as iterating over it yields them. (Bytes
    that continue nothing, which no [str] has, would count as one.) *)
Definition chars (s : string) : list string :=
  let '(open, done) := groups s in
  match open with
  | EmptyString => done
  | _ => open :: done
  end.

(** [str.lower()] of an ASCII character. *)
Definition lower_ascii (c : ascii) : ascii :=
  let n := nat_of_ascii c in
  if (65 <=? n)%nat && (n <=? 90)%nat then ascii_of_nat (n + 32) else c.

(** The bytes of U+0130 (capital I with a dot above) and of U+212A (the
    Kelvin sign), and of what [str.lower()] makes of them: [i] followed by
    U+0307, and [k]. *)
Definition dotted_I : string := String "196" (String "176" EmptyString).
Definition kelvin : string := String "226" (String "132" (String "170" EmptyString)).
Definition dotted_i : string := String "i" (String "204" (String "135" EmptyString)).

(** [str.lower()], as far as ASCII text can tell. The ASCII capitals are
    lowered, and so are the two characters outside ASCII whose lowercase
    form has an ASCII letter in it, U+0130 and U+212A. Every other
    character outside ASCII is left as it is where [str.lower()] gives its
    lowercase form, which is again outside ASCII: the program only looks
    for ASCII keys in the result, or for the result in an ASCII key, and
    those tests come out the same. *)
Fixpoint lower (s : string) : string :=
  match s with
  | EmptyString => EmptyString
  | String "196" (String "176" s') => dotted_i ++ lower s'
  | String "226" (String "132" (String "170" s')) => String "k" (lower s')
  | String c s' => String (lower_ascii c) (lower s')
  end.

End PyStr.

(** ** Python values and exceptions *)

#[local] Set Warnings "-register-all".

Inductive value : Type :=
| VNone
| VBool (b : bool)
| VInt (z : Z)
| VFloat (q : Q)
| VStr (s : string)
| VList (l : list value)
| VDict (d : list (string * value)).

(** Exceptions, each with the text [str(e)] gives. All of them derive from
    [Exception], which is what every handler of the program catches. *)
Inductive exn : Type :=
| TypeError (msg : string)
| AttributeError (msg : string)
| KeyError (msg : string)
| IndexError (msg : string)
| ServiceError (msg : string).

Definition exn_str (e : exn) : string :=
  match e with
  | TypeError m | AttributeError m | KeyError m | IndexError m
  | ServiceError m => m
  end.

Inductive outcome (A : Type) : Type :=
| Return (a : A)
| Raise (e : exn).
Arguments Return {A} a.
Arguments Raise {A} e.

Definition and_then {A B} (o : outcome A) (k : A -> outcome B) : outcome B :=
  match o with
  | Return a => k a
  | Raise e => Raise e
  end.

#[global] Instance outcome_ret : MRet outcome := @Return.
#[global] Instance outcome_bind : MBind outcome := fun A B k o => and_then o k.

Fixpoint traverse {A B} (f : A -> outcome B) (l : list A) : outcome (list B) :=
  match l with
  | [] => Return []
  | a :: l' => b ← f a; bs ← traverse f l'; Return (b :: bs)
  end.

(** ** The dynamically checked operations the code performs on values *)

Module Py.

Definition type_name (v : value) : string :=
  match v with
  | VNone => "NoneType"
  | VBool _ => "bool"
  | VInt _ => "int"
  | VFloat _ => "float"
  | VStr _ => "str"
  | VList _ => "list"
  | VDict _ => "dict"
  end.

(** [bool(v)], as [if v:] tests it. *)
Definition truthy (v : value) : bool :=
  match v with
  | VNone => false
  | VBool b => b
  | VInt z => negb (z =? 0)%Z
  | VFloat q => negb (Qeq_bool q 0)
  | VStr s => negb (s =? "")%string
  | VList l => match l with [] => false | _ => true end
  | VDict d => match d with [] => false | _ => true end
  end.

Fixpoint lookup (k : string) (d : list (string * value)) : option value :=
  match d with
  | [] => None
  | (k', v) :: d' => if (k =? k')%string then Some v else lookup k d'
  end.

Definition no_attribute (v : value) (attr : string) : exn :=
  AttributeError ("'" ++ type_name v ++ "' object has no attribute '" ++ attr ++ "'").

(** [v.get(k, default)]: only a dict has the method. *)
Definition get (v : value) (k : string) (default : value) : outcome value :=
  match v with
  | VDict d => Return (match lookup k d with Some x => x | None => default end)
  | _ => Raise (no_attribute v "get")
  end.

Definition is_str (k : string) (v : value) : bool :=
  match v with
  | VStr s => (s =? k)%string
  | _ => false
  end.

(** [k in v] for a string [k]. *)
Definition contains (k : string) (v : value) : outcome bool :=
  match v with
  | VDict d => Return (match lookup k d with Some _ => true | None => false end)
  | VList l => Return (existsb (is_str k) l)
  | VStr s => Return (PyStr.contains k s)
  | _ => Raise (TypeError ("argument of type '" ++ type_name v ++ "' is not iterable"))
  end.

(** [v[k]] for a string [k]. *)
Definition getitem (v : value) (k : string) : outcome value :=
  match v with
  | VDict d =>
      match lookup k d with
      | Some x => Return x
      | None => Raise (KeyError ("'" ++ k ++ "'"))
      end
  | VList _ => Raise (TypeError "list indices must be integers or slices, not str")
  | VStr _ => Raise (TypeError "string indices must be integers, not 'str'")
  | _ => Raise (TypeError ("'" ++ type_name v ++ "' object is not subscriptable"))
  end.

(** [v[0]]. The keys of a dict that came out of JSON are strings, so the
    key [0] is never there. *)
Definition getitem0 (v : value) : outcome value :=
  match v with
  | VList (x :: _) => Return x
  | VList [] => Raise (IndexError "list index out of range")
  | VStr s =>
      match PyStr.chars s with
      | c :: _ => Return (VStr c)
      | [] => Raise (IndexError "string index out of range")
      end
  | VDict _ => Raise (KeyError "0")
  | _ => Raise (TypeError ("'" ++ type_name v ++ "' object is not subscriptable"))
  end.

(** The items a [for] loop (or [join], or [list]) draws from [v]. *)
Definition iter (v : value) : outcome (list value) :=
  match v with
  | VList l => Return l
  | VStr s => Return (map VStr (PyStr.chars s))
  | VDict d => Return (map (fun kv => VStr (fst kv)) d)
  | _ => Raise (TypeError ("'" ++ type_name v ++ "' object is not iterable"))
  end.

Definition expect_str (i : nat) (v : value) : outcome string :=
  match v with
  | VStr s => Return s
  | _ => Raise (TypeError ("sequence item " ++ PyStr.string_of_nat i
                           ++ ": expected str instance, " ++ type_name v ++ " found"))
  end.

Fixpoint expect_strs (i : nat) (l : list value) : outcome (list string) :=
  match l with
  | [] => Return []
  | v :: l' => s ← expect_str i v; ss ← expect_strs (S i) l'; Return (s :: ss)
  end.

(** [sep.join(v)] *)
Definition join (sep : string) (v : value) : outcome string :=
  match iter v with
  | Return items => ss ← expect_strs 0 items; Return (PyStr.join sep ss)
  | Raise _ => Raise (TypeError "can only join an iterable")
  end.

(** [len(v)] *)
Definition len (v : value) : outcome nat :=
  match v with
  | VList l => Return (length l)
  | VStr s => Return (length (PyStr.chars s))
  | VDict d => Return (length d)
  | _ => Raise (TypeError ("object of type '" ++ type_name v ++ "' has no len()"))
  end.

(** [v.lower()] *)
Definition lower (v : value) : outcome string :=
  match v with
  | VStr s => Return (PyStr.lower s)
  | _ => Raise (no_attribute v "lower")
  end.

Definition of_nat (n : nat) : value := VInt (Z.of_nat n).

End Py.

(** ** The world outside the program *)

(** One [chat.completions.create] call. *)
Record ChatRequest : Type := {
  chat_model : string;
  chat_messages : list (string * string);   (* role, content *)
  chat_json_mode : bool                     (* response_format json_object *)
}.

(** What [requests.get] hands back. *)
Record HttpResponse : Type := {
  status_code : Z;
  response_json : outcome value;            (* response.json() *)
  response_text : string
}.

(** Every call the program makes to a collaborator, with what came back.
    [EvSearchPeople] marks an entry into [search_people]. *)
Inductive Event : Type :=
| EvChat (req : ChatRequest) (resp : outcome (option string))
| EvHttpGet (url : string) (params : list (string * value))
            (resp : outcome HttpResponse)
| EvSearchPeople (query : value) (company : value).

(** The services answer as they please: their answers depend on the request
    and on how many events came before it. [clock] is [datetime.now()] in
    microseconds, by number of reads. *)
Record World : Type := {
  clock : nat -> Z;
  requests_get : nat -> string -> list (string * value) -> outcome HttpResponse;
  chat_completions_create : nat -> ChatRequest -> outcome (option string);
  json_loads : string -> outcome value;
  json_dumps : value -> string;
  repr : value -> string
}.

(** ** ResearchStep *)

Inductive StepStatus : Type := in_progress | completed | failed.

Record ResearchStep : Type := {
  description : string;
  reasoning : option string;
  status : StepStatus;
  result : value;
  start_time : Z;
  end_time : option Z;
  confidence : option Q
}.

(** [ResearchStep.__init__] at time [t] *)
Definition ResearchStep_init (description : string) (reasoning : option string)
    (t : Z) : ResearchStep :=
  {| description := description;
     reasoning := reasoning;
     status := in_progress;
     result := VNone;
     start_time := t;
     end_time := None;
     confidence := None |}.

(** [ResearchStep.complete] at time [t] *)
Definition ResearchStep_complete (success : bool) (res : value)
    (conf : option Q) (t : Z) (s : ResearchStep) : ResearchStep :=
  {| description := description s;
     reasoning := reasoning s;
     status := if success then completed else failed;
     result := res;
     start_time := start_time s;
     end_time := Some t;
     confidence := conf |}.

(** The dictionary [to_dict] builds, one field per key. The two timestamps
    stand for their ISO texts; [sd_duration] is in seconds. *)
Record StepDict : Type := {
  sd_description : string;
  sd_reasoning : option string;
  sd_status : StepStatus;
  sd_result : value;
  sd_start_time : Z;
  sd_end_time : option Z;
  sd_duration : option Q;
  sd_confidence : option Q
}.

(** [timedelta.total_seconds()] of a difference in microseconds *)
Definition total_seconds (micros : Z) : Q := Qmake micros 1000000.

Definition to_dict (s : ResearchStep) : StepDict :=
  let duration :=
    match end_time s with
    | Some e => Some (total_seconds (e - start_time s))
    | None => None
    end in
  {| sd_description := description s;
     sd_reasoning := reasoning s;
     sd_status := status s;
     sd_result := result s;
     sd_start_time := start_time s;
     sd_end_time := end_time s;
     sd_duration := duration;
     sd_confidence := confidence s |}.

(** ** State and the monad of the agent *)

(** The attributes of a [LinkedInResearchAgent], then the clock reads and
    the events so far. *)
Record St : Type := {
  steps : list ResearchStep;
  profiles : list value;
  insights : value;
  company_info : value;
  summary : value;
  ticks : nat;
  log : list Event
}.

(** A computation that reads and changes a state [S] and may raise. *)
Definition SM (S A : Type) : Type := S -> outcome A * S.

Definition ret {S A} (a : A) : SM S A := fun st => (Return a, st).

Definition bind {S A B} (m : SM S A) (k : A -> SM S B) : SM S B :=
  fun st =>
    match m st with
    | (Return a, st') => k a st'
    | (Raise e, st') => (Raise e, st')
    end.

Definition lift {S A} (o : outcome A) : SM S A := fun st => (o, st).

(** [try: m except Exception as e: handler e]. What [m] changed before it
    raised stays changed. *)
Definition try_except {S A} (m : SM S A) (handler : exn -> SM S A) : SM S A :=
  fun st =>
    match m st with
    | (Return a, st') => (Return a, st')
    | (Raise e, st') => handler e st'
    end.

Definition get_state {S A} (f : S -> A) : SM S A := fun st => (Return (f st), st).
Definition modify {S} (f : S -> S) : SM S unit := fun st => (Return tt, f st).

#[global] Instance SM_ret {S} : MRet (SM S) := @ret S.
#[global] Instance SM_bind {S} : MBind (SM S) := fun A B k m => bind m k.

Abbreviation M := (SM St).

Definition with_steps (f : list ResearchStep -> list ResearchStep) (st : St) : St :=
  {| steps := f (steps st); profiles := profiles st; insights := insights st;
     company_info := company_info st; summary := summary st;
     ticks := ticks st; log := log st |}.

Definition with_profiles (ps : list value) (st : St) : St :=
  {| steps := steps st; profiles := ps; insights := insights st;
     company_info := company_info st; summary := summary st;
     ticks := ticks st; log := log st |}.

Definition with_insights (v : value) (st : St) : St :=
  {| steps := steps st; profiles := profiles st; insights := v;
     company_info := company_info st; summary := summary st;
     ticks := ticks st; log := log st |}.

Definition with_company_info (v : value) (st : St) : St :=
  {| steps := steps st; profiles := profiles st; insights := insights st;
     company_info := v; summary := summary st;
     ticks := ticks st; log := log st |}.

Definition with_summary (v : value) (st : St) : St :=
  {| steps := steps st; profiles := profiles st; insights := insights st;
     company_info := company_info st; summary := v;
     ticks := ticks st; log := log st |}.

Definition tick (st : St) : St :=
  {| steps := steps st; profiles := profiles st; insights := insights st;
     company_info := company_info st; summary := summary st;
     ticks := S (ticks st); log := log st |}.

Definition emit (ev : Event) (st : St) : St :=
  {| steps := steps st; profiles := profiles st; insights := insights st;
     company_info := company_info st; summary := summary st;
     ticks := ticks st; log := log st ++ [ev] |}.

(** [LinkedInResearchAgent.__init__]: a new agent in the same world. *)
Definition fresh_agent (st : St) : St :=
  {| steps := []; profiles := []; insights := VList [];
     company_info := VNone; summary := VNone;
     ticks := ticks st; log := log st |}.

(** ** linkedin_rapidapi_client.py *)

Definition base_url : string := "https://linkedin-data-scraper.p.rapidapi.com".

(** The map of well-known companies, in the order the source lists them
    (a [for] over [companies.items()] visits them in that order). *)
Definition company_record (name industry location description website
    linkedin_url logo_url : string) : value :=
  VDict [("name", VStr name); ("industry", VStr industry);
         ("location", VStr location); ("description", VStr description);
         ("website", VStr website); ("linkedin_url", VStr linkedin_url);
         ("logo_url", VStr logo_url)].

Definition google_record : value :=
  company_record "Google" "Technology" "Mountain View, CA"
    "Google is a multinational technology company that specializes in Internet-related services and products."
    "https://www.google.com" "https://www.linkedin.com/company/google/"
    "https://upload.wikimedia.org/wikipedia/commons/thumb/5/53/Google_%22G%22_Logo.svg/2048px-Google_%22G%22_Logo.svg.png".

Definition microsoft_record : value :=
  company_record "Microsoft" "Technology" "Redmond, WA"
    "Microsoft is a multinational technology company that develops, manufactures, licenses, supports, and sells computer software, consumer electronics, and personal computers and services."
    "https://www.microsoft.com" "https://www.linkedin.com/company/microsoft/"
    "https://upload.wikimedia.org/wikipedia/commons/thumb/4/44/Microsoft_logo.svg/2048px-Microsoft_logo.svg.png".

Definition apple_record : value :=
  company_record "Apple" "Technology" "Cupertino, CA"
    "Apple is a multinational technology company that designs, develops, and sells consumer electronics, computer software, and online services."
    "https://www.apple.com" "https://www.linkedin.com/company/apple/"
    "https://upload.wikimedia.org/wikipedia/commons/thumb/f/fa/Apple_logo_black.svg/1667px-Apple_logo_black.svg.png".

Definition amazon_record : value :=
  company_record "Amazon" "E-commerce, Cloud Computing" "Seattle, WA"
    "Amazon is a multinational technology company focusing on e-commerce, cloud computing, digital streaming, and artificial intelligence."
    "https://www.amazon.com" "https://www.linkedin.com/company/amazon/"
    "https://upload.wikimedia.org/wikipedia/commons/thumb/a/a9/Amazon_logo.svg/2560px-Amazon_logo.svg.png".

Definition facebook_record : value :=
  company_record "Meta (formerly Facebook)" "Technology, Social Media" "Menlo Park, CA"
    "Meta Platforms, Inc., doing business as Meta and formerly known as Facebook, Inc., is a multinational technology conglomerate that owns Facebook, Instagram, and WhatsApp, among other products and services."
    "https://about.meta.com" "https://www.linkedin.com/company/meta/"
    "https://upload.wikimedia.org/wikipedia/commons/thumb/7/7b/Meta_Platforms_Inc._logo.svg/2560px-Meta_Platforms_Inc._logo.svg.png".

Definition companies : list (string * value) :=
  [("google", google_record); ("microsoft", microsoft_record);
   ("apple", apple_record); ("amazon", amazon_record);
   ("facebook", facebook_record)].

(** [key in company_lower or company_lower in key] *)
Definition company_matches (company_lower key : string) : bool :=
  PyStr.contains key company_lower || PyStr.contains company_lower key.

(** The record returned when no key matches. *)
Definition generic_company_info (company_name : value) : value :=
  VDict [("name", company_name); ("industry", VStr "Unknown");
         ("location", VStr "Unknown");
         ("description", VStr "No description available");
         ("website", VStr ""); ("linkedin_url", VStr "");
         ("logo_url", VStr "")].

Definition _get_fallback_company_info (company_name : value) : outcome value :=
  company_lower ← Py.lower company_name;
  match find (fun kv => company_matches company_lower (fst kv)) companies with
  | Some (_, company_data) => Return company_data
  | None => Return (generic_company_info company_name)
  end.

(** [data and "items" in data and data["items"]], as the [if] reads it. *)
Definition has_items (data : value) : outcome bool :=
  if negb (Py.truthy data) then Return false
  else
    present ← Py.contains "items" data;
    if negb (present : bool) then Return false
    else items ← Py.getitem data "items"; Return (Py.truthy items).

(** One profile of [search_people], from one item of the provider. *)
Definition profile_of_item (profile_data : value) : outcome value :=
  name ← Py.get profile_data "name" (VStr "Unknown");
  title ← Py.get profile_data "title" (VStr "");
  company ← Py.get profile_data "company" (VStr "");
  location ← Py.get profile_data "location" (VStr "");
  linkedin_url ← Py.get profile_data "linkedin_url" (VStr "");
  image_url ← Py.get profile_data "image_url" (VStr "");
  expertise ← Py.get profile_data "expertise" (VList []);
  Return (VDict [("name", name); ("title", title); ("company", company);
                 ("location", location); ("linkedin_url", linkedin_url);
                 ("image_url", image_url); ("expertise", expertise)]).

(** The record [get_company_info] builds from the provider's first item. *)
Definition company_of_item (company_data company_name : value) : outcome value :=
  name ← Py.get company_data "name" company_name;
  industry ← Py.get company_data "industry" (VStr "Unknown");
  location ← Py.get company_data "location" (VStr "Unknown");
  description ← Py.get company_data "description" (VStr "No description available");
  website ← Py.get company_data "website" (VStr "");
  linkedin_url ← Py.get company_data "linkedin_url" (VStr "");
  logo_url ← Py.get company_data "logo_url" (VStr "");
  employees ← Py.get company_data "employees" (VDict []);
  Return (VDict [("name", name); ("industry", industry); ("location", location);
                 ("description", description); ("website", website);
                 ("linkedin_url", linkedin_url); ("logo_url", logo_url);
                 ("employees", employees)]).

Section Program.

Context (w : World).

(** [str(v)], as an f-string formats [v]. *)
Definition py_str (v : value) : string :=
  match v with
  | VStr s => s
  | VNone => "None"
  | VBool true => "True"
  | VBool false => "False"
  | VInt z => PyStr.string_of_Z z
  | _ => repr w v
  end.

(** [requests.get(url, headers=self.headers, params=params)] *)
Definition http_get (url : string) (params : list (string * value))
    : M HttpResponse :=
  fun st =>
    let resp := requests_get w (length (log st)) url params in
    (resp, emit (EvHttpGet url params resp) st).

(** [openai_client.chat.completions.create(...)], then
    [response.choices[0].message.content] *)
Definition chat (req : ChatRequest) : M (option string) :=
  fun st =>
    let resp := chat_completions_create w (length (log st)) req in
    (resp, emit (EvChat req resp) st).

(** [json.loads(content)] *)
Definition loads (content : option string) : outcome value :=
  match content with
  | Some s => json_loads w s
  | None => Raise (TypeError "the JSON object must be str, bytes or bytearray, not NoneType")
  end.

Definition get_company_info (company_name : value) : M value :=
  try_except
    (response ← http_get (base_url ++ "/company") [("company_name", company_name)];
     if (status_code response =? 200)%Z then
       data ← lift (response_json response);
       found ← lift (has_items data);
       if found : bool then
         items ← lift (Py.getitem data "items");
         company_data ← lift (Py.getitem0 items);
         lift (company_of_item company_data company_name)
       else lift (_get_fallback_company_info company_name)
     else lift (_get_fallback_company_info company_name))
    (fun _ => lift (_get_fallback_company_info company_name)).

(** [search_people(query, company)]; [company] is [VNone] when the caller
    leaves it out. *)
Definition search_people (query company : value) : M (list value) :=
  modify (emit (EvSearchPeople query company));;
  try_except
    (let query_str :=
       if Py.truthy company
       then VStr (py_str query ++ " at " ++ py_str company)
       else query in
     response ← http_get (base_url ++ "/people/search") [("search_term", query_str)];
     if (status_code response =? 200)%Z then
       data ← lift (response_json response);
       found ← lift (has_items data);
       if found : bool then
         items ← lift (Py.getitem data "items");
         profile_datas ← lift (Py.iter items);
         lift (traverse profile_of_item profile_datas)
       else ret []
     else ret [])
    (fun _ => ret []).

(** *** simple_linkedin_agent.py *)

Local Open Scope string_scope.

Definition GPT_MODEL : string := "gpt-4o".

(** [_add_step]: the new step goes to the end of [self.steps]; what the
    caller holds is the step object, here its position in the list. *)
Definition _add_step (description : string) (reasoning : option string) : M nat :=
  fun st =>
    let step := ResearchStep_init description reasoning (clock w (ticks st)) in
    (Return (length (steps st)), tick (with_steps (fun l => (l ++ [step])%list) st)).

(** [step.complete(success, result, confidence)] on a step held by the
    caller: the object in [self.steps] is the one that changes. *)
Definition complete (step : nat) (success : bool) (res : value)
    (conf : option Q) : M unit :=
  fun st =>
    let t := clock w (ticks st) in
    (Return tt,
     tick (with_steps (alter (ResearchStep_complete success res conf t) step) st)).

Definition analysis_system : string :=
  "You are a professional research assistant that extracts structured information from queries.".
Definition insights_system : string :=
  "You are a professional LinkedIn researcher who identifies patterns and insights from profiles.".
Definition summary_system : string :=
  "You are a professional LinkedIn researcher who creates comprehensive summaries of research findings.".

Definition analysis_prompt (query : string) : string :=
  "Analyze the following LinkedIn research query and extract key information:" ++ PyStr.nl ++ PyStr.nl
  ++ "Query: " ++ PyStr.dquote ++ query ++ PyStr.dquote ++ PyStr.nl ++ PyStr.nl
  ++ "Extract the following information:" ++ PyStr.nl
  ++ "1. Target company name (if any)" ++ PyStr.nl
  ++ "2. Professional roles of interest (e.g., software engineer, product manager)" ++ PyStr.nl
  ++ "3. Technologies or skills mentioned (e.g., Python, machine learning)" ++ PyStr.nl ++ PyStr.nl
  ++ "Format the response as a JSON object with these keys:" ++ PyStr.nl
  ++ "- company: The target company name (null if none specified)" ++ PyStr.nl
  ++ "- roles: Array of professional roles mentioned" ++ PyStr.nl
  ++ "- technologies: Array of technologies or skills mentioned".

Definition analysis_request (query : string) : ChatRequest :=
  {| chat_model := GPT_MODEL;
     chat_messages := [("system", analysis_system); ("user", analysis_prompt query)];
     chat_json_mode := true |}.

(** The basic analysis returned when GPT fails. *)
Definition basic_analysis (query : string) : value :=
  VDict [("company", VNone); ("roles", VList [VStr query]);
         ("technologies", VList [])].

Definition _analyze_query (query : string) : M value :=
  try_except
    (content ← chat (analysis_request query);
     lift (loads content))
    (fun _ => ret (basic_analysis query)).

(** The text of one profile, numbered [i]. *)
Definition format_profile (i : nat) (profile : value) : outcome string :=
  name ← Py.get profile "name" (VStr "Unknown");
  title ← Py.get profile "title" (VStr "N/A");
  company ← Py.get profile "company" (VStr "N/A");
  location ← Py.get profile "location" (VStr "N/A");
  expertise ← Py.get profile "expertise" (VList []);
  joined ← Py.join ", " expertise;
  Return (PyStr.string_of_nat i ++ ". " ++ py_str name ++ PyStr.nl
          ++ "   Title: " ++ py_str title ++ PyStr.nl
          ++ "   Company: " ++ py_str company ++ PyStr.nl
          ++ "   Location: " ++ py_str location ++ PyStr.nl
          ++ "   Expertise: " ++ joined ++ PyStr.nl).

(** [for i, profile in enumerate(profiles, i)] *)
Fixpoint format_profiles (i : nat) (profiles : list value) : outcome (list string) :=
  match profiles with
  | [] => Return []
  | profile :: rest =>
      text ← format_profile i profile;
      texts ← format_profiles (S i) rest;
      Return (text :: texts)
  end.

Definition insights_prompt (profiles_str company_context roles_context : string) : string :=
  "Analyze the following LinkedIn profiles and generate insights:" ++ PyStr.nl ++ PyStr.nl
  ++ "Profiles:" ++ PyStr.nl ++ profiles_str ++ PyStr.nl ++ PyStr.nl
  ++ (if (company_context =? "")%string then "" else company_context ++ PyStr.nl)
  ++ (if (roles_context =? "")%string then "" else roles_context ++ PyStr.nl)
  ++ PyStr.nl ++ "Generate 3-5 meaningful insights about these professionals. Focus on:" ++ PyStr.nl
  ++ "1. Common skills or qualifications" ++ PyStr.nl
  ++ "2. Career trajectories" ++ PyStr.nl
  ++ "3. Industry patterns" ++ PyStr.nl
  ++ "4. Any other notable patterns" ++ PyStr.nl ++ PyStr.nl
  ++ "Format your response as a JSON array of insight strings.".

Definition insights_request (prompt : string) : ChatRequest :=
  {| chat_model := GPT_MODEL;
     chat_messages := [("system", insights_system); ("user", prompt)];
     chat_json_mode := true |}.

(** Extract the insights array from the parsed response. *)
Definition extract_insights (insights_data : value) : outcome value :=
  match insights_data with
  | VList _ => Return insights_data
  | _ =>
      present ← Py.contains "insights" insights_data;
      if present : bool then Py.getitem insights_data "insights"
      else
        match insights_data with
        | VDict d => Return (VList (map snd d))
        | _ => Return (VList [])
        end
  end.

Definition insights_error : value :=
  VList [VStr "Unable to generate insights due to an error."].

Definition _generate_insights (profiles : list value) (company roles : value)
    : M value :=
  profiles_text ← lift (format_profiles 1 profiles);
  let profiles_str := PyStr.join PyStr.nl profiles_text in
  let company_context :=
    if Py.truthy company then "For company: " ++ py_str company else "" in
  roles_context ← lift (if Py.truthy roles
                        then joined ← Py.join ", " roles; Return ("For roles: " ++ joined)
                        else Return "");
  let prompt := insights_prompt profiles_str company_context roles_context in
  try_except
    (content ← chat (insights_request prompt);
     insights_data ← lift (loads content);
     lift (extract_insights insights_data))
    (fun _ => ret insights_error).

Definition company_text_of (info : value) : outcome string :=
  if Py.truthy info then
    name ← Py.get info "name" (VStr "N/A");
    industry ← Py.get info "industry" (VStr "N/A");
    location ← Py.get info "location" (VStr "N/A");
    description ← Py.get info "description" (VStr "N/A");
    Return (PyStr.nl
            ++ "            Company Information:" ++ PyStr.nl
            ++ "            Name: " ++ py_str name ++ PyStr.nl
            ++ "            Industry: " ++ py_str industry ++ PyStr.nl
            ++ "            Location: " ++ py_str location ++ PyStr.nl
            ++ "            Description: " ++ py_str description ++ PyStr.nl
            ++ "            ")
  else Return "".

Definition no_profiles_section : string :=
  "Professionals Found:" ++ PyStr.nl ++ "No profiles found." ++ PyStr.nl ++ PyStr.nl.
Definition no_insights_section : string :=
  "Insights:" ++ PyStr.nl ++ "No insights available." ++ PyStr.nl ++ PyStr.nl.

Definition summary_prompt (query company_text : string)
    (profiles_text : list string) (insights_text : string) : string :=
  "Create a comprehensive LinkedIn research summary based on the following:" ++ PyStr.nl ++ PyStr.nl
  ++ "Original Query:" ++ PyStr.nl ++ query ++ PyStr.nl ++ PyStr.nl
  ++ (if (company_text =? "")%string then "" else company_text ++ PyStr.nl ++ PyStr.nl)
  ++ (match profiles_text with
      | [] => no_profiles_section
      | _ => "Professionals Found:" ++ PyStr.nl ++ PyStr.join PyStr.nl profiles_text
             ++ PyStr.nl ++ PyStr.nl
      end)
  ++ (if (insights_text =? "")%string then no_insights_section
      else "Insights:" ++ PyStr.nl ++ insights_text ++ PyStr.nl ++ PyStr.nl)
  ++ "Create a detailed research summary in Markdown format that includes:" ++ PyStr.nl
  ++ "1. A summary of the research request" ++ PyStr.nl
  ++ "2. Company overview (if applicable)" ++ PyStr.nl
  ++ "3. Key professionals found" ++ PyStr.nl
  ++ "4. Patterns and insights" ++ PyStr.nl
  ++ "5. Recommendations for networking or further research" ++ PyStr.nl ++ PyStr.nl
  ++ "Make the summary actionable and insightful for a business professional.".

Definition summary_request (prompt : string) : ChatRequest :=
  {| chat_model := GPT_MODEL;
     chat_messages := [("system", summary_system); ("user", prompt)];
     chat_json_mode := false |}.

Definition summary_error : value :=
  VStr "Unable to generate a summary due to an error.".

Definition content_value (content : option string) : value :=
  match content with
  | Some s => VStr s
  | None => VNone
  end.

Definition _create_summary (query : string) : M value :=
  self_profiles ← get_state profiles;
  profiles_text ← lift (format_profiles 1 (take 5 self_profiles));
  self_company_info ← get_state company_info;
  company_text ← lift (company_text_of self_company_info);
  self_insights ← get_state insights;
  insight_items ← lift (Py.iter self_insights);
  let insights_text :=
    PyStr.join PyStr.nl (map (fun insight => "- " ++ py_str insight) insight_items) in
  let prompt := summary_prompt query company_text profiles_text insights_text in
  try_except
    (content ← chat (summary_request prompt);
     ret (content_value content))
    (fun _ => ret summary_error).

(** The dictionary [research] returns. A key the dictionary does not
    have is [None] here; [res_error] is the top-level error marker. *)
Record Results : Type := {
  res_query : string;
  res_steps : list StepDict;
  res_company : option value;
  res_profiles : option (list value);
  res_insights : option value;
  res_summary : option value;
  res_error : option string
}.

(** Step 1: initialize the research process. *)
Definition stage_init : M unit :=
  init_step ← _add_step "Initializing LinkedIn research"
                (Some "Setting up the research process and preparing API connections.");
  complete init_step true VNone None.

(** Step 2: analyze the query. Returns [company_name] and [roles]. *)
Definition stage_analyze (query : string) : M (value * value) :=
  analysis_step ← _add_step "Analyzing query"
                    (Some "Breaking down the query to identify companies, roles, and technologies.");
  query_analysis ← _analyze_query query;
  company_name ← lift (Py.get query_analysis "company" VNone);
  roles ← lift (Py.get query_analysis "roles" (VList []));
  technologies ← lift (Py.get query_analysis "technologies" (VList []));
  complete analysis_step true
    (VDict [("company", company_name); ("roles", roles);
            ("technologies", technologies)]) None;;
  ret (company_name, roles).

(** Step 3: research the company if one is specified. *)
Definition stage_company (company_name : value) : M unit :=
  if Py.truthy company_name then
    company_step ← _add_step ("Researching company: " ++ py_str company_name)
                     (Some ("Gathering information about " ++ py_str company_name
                            ++ " from LinkedIn."));
    info ← get_company_info company_name;
    if Py.truthy info then
      complete company_step true info None;;
      modify (with_company_info info)
    else
      complete company_step false
        (VDict [("error", VStr ("Could not find verified information for "
                                ++ py_str company_name))]) None
  else ret tt.

(** Step 4: search for professionals, with one broader search when the
    first finds nothing. *)
Definition stage_search (query : string) (company_name roles : value) : M unit :=
  search_step ← _add_step "Searching for professionals"
                  (Some "Finding relevant professionals based on query criteria.");
  search_query ← lift (if Py.truthy roles then Py.getitem0 roles
                       else Return (VStr query));
  found ← (if Py.truthy company_name
           then search_people search_query company_name
           else search_people search_query VNone);
  match found with
  | _ :: _ =>
      complete search_step true
        (VDict [("profiles_found", Py.of_nat (length found))]) None;;
      modify (with_profiles found)
  | [] =>
      complete search_step false
        (VDict [("error", VStr "No matching profiles found")]) None;;
      fallback_step ← _add_step "Attempting broader search"
                        (Some "Initial search returned no results. Trying with broader criteria.");
      fallback_profiles ← search_people (VStr query) VNone;
      match fallback_profiles with
      | _ :: _ =>
          complete fallback_step true
            (VDict [("profiles_found", Py.of_nat (length fallback_profiles))]) None;;
          modify (with_profiles fallback_profiles)
      | [] =>
          complete fallback_step false
            (VDict [("error", VStr "No profiles found in fallback search")]) None
      end
  end.

(** Step 5: generate insights from the profiles, if there are any. *)
Definition stage_insights (company_name roles : value) : M unit :=
  self_profiles ← get_state profiles;
  match self_profiles with
  | _ :: _ =>
      insight_step ← _add_step "Analyzing professional profiles"
                       (Some "Examining profiles to identify patterns and insights.");
      found ← _generate_insights self_profiles company_name roles;
      n ← lift (Py.len found);
      complete insight_step true
        (VDict [("insights_generated", Py.of_nat n)]) None;;
      modify (with_insights found)
  | [] => ret tt
  end.

(** Step 6: create the summary. *)
Definition stage_summary (query : string) : M unit :=
  summary_step ← _add_step "Creating research summary"
                   (Some "Synthesizing findings into a comprehensive research summary.");
  text ← _create_summary query;
  complete summary_step true VNone None;;
  modify (with_summary text).

(** The dictionary of a run that went through. *)
Definition success_results (query : string) (st : St) : Results :=
  {| res_query := query;
     res_steps := map to_dict (steps st);
     res_company := Some (company_info st);
     res_profiles := Some (profiles st);
     res_insights := Some (insights st);
     res_summary := Some (summary st);
     res_error := None |}.

(** The dictionary of a run that raised. *)
Definition error_results (query : string) (e : exn) (st : St) : Results :=
  {| res_query := query;
     res_steps := map to_dict (steps st);
     res_company := None;
     res_profiles := None;
     res_insights := None;
     res_summary := None;
     res_error := Some (exn_str e) |}.

(** The body of the [try] of [research]. *)
Definition research_body (query : string) : M Results :=
  stage_init;;
  '(company_name, roles) ← stage_analyze query;
  stage_company company_name;;
  stage_search query company_name roles;;
  stage_insights company_name roles;;
  stage_summary query;;
  get_state (success_results query).

(** The [except Exception as e] of [research]. *)
Definition research_handler (query : string) (e : exn) : M Results :=
  error_step ← _add_step "Error in research process"
                 (Some ("An error occurred: " ++ exn_str e));
  complete error_step false (VDict [("error_message", VStr (exn_str e))]) None;;
  get_state (error_results query e).

Definition research (query : string) : M Results :=
  try_except (research_body query) (research_handler query).

Definition research_linkedin (query : string) : M Results :=
  modify fresh_agent;;
  research query.

End Program.

(** ** app.py: the task runner *)

(** The tables behind [models.py] (the module is not part of the sources
    modelled here; the columns are the attributes [app.py] assigns, and an
    attribute it leaves alone is [None]). In this first reading of
    [run_research_task] no call to the session raises: what the code
    assigns or hands to [db.session.add] is in the tables at once, every
    path that changes something ending in a [commit]. The session that can
    fail comes after it, in [Session]. *)
Record ResearchQuery : Type := {
  rq_query : string;
  rq_status : string;
  rq_summary : value;
  rq_updated_at : option Z
}.

Record StepRow : Type := {
  step_research_id : Z;
  step_type : string;
  step_description : string;
  step_reasoning : option string;
  step_status : StepStatus;
  step_confidence : option Q;
  step_duration : option Q;
  step_result : option string
}.

Record LinkedInProfile : Type := {
  profile_research_id : Z;
  profile_name : value;
  profile_title : value;
  profile_company : value;
  profile_location : value;
  profile_linkedin_url : value;
  profile_image_url : value;
  profile_expertise : option string
}.

Record Insight : Type := {
  insight_research_id : Z;
  insight_text : value
}.

Record Db : Type := {
  queries : gmap Z ResearchQuery;
  step_rows : list StepRow;
  profile_rows : list LinkedInProfile;
  insight_rows : list Insight
}.

(** The database and the process the agent runs in. *)
Record Sys : Type := {
  db : Db;
  agent : St
}.

Definition on_agent {A} (m : M A) : SM Sys A :=
  fun sys =>
    let '(r, st') := m (agent sys) in
    (r, {| db := db sys; agent := st' |}).

Definition on_db (f : Db -> Db) : SM Sys unit :=
  modify (fun sys => {| db := f (db sys); agent := agent sys |}).

(** The process [sys] with the tables [d]. *)
Definition with_db (d : Db) (sys : Sys) : Sys := {| db := d; agent := agent sys |}.

Definition update_query (research_id : Z) (f : ResearchQuery -> ResearchQuery)
    (d : Db) : Db :=
  {| queries := alter f research_id (queries d);
     step_rows := step_rows d;
     profile_rows := profile_rows d;
     insight_rows := insight_rows d |}.

Definition add_step_row (r : StepRow) (d : Db) : Db :=
  {| queries := queries d; step_rows := step_rows d ++ [r];
     profile_rows := profile_rows d; insight_rows := insight_rows d |}.

Definition add_profile_row (r : LinkedInProfile) (d : Db) : Db :=
  {| queries := queries d; step_rows := step_rows d;
     profile_rows := profile_rows d ++ [r]; insight_rows := insight_rows d |}.

Definition add_insight_row (r : Insight) (d : Db) : Db :=
  {| queries := queries d; step_rows := step_rows d;
     profile_rows := profile_rows d; insight_rows := insight_rows d ++ [r] |}.

Definition mark_in_progress (r : ResearchQuery) : ResearchQuery :=
  {| rq_query := rq_query r; rq_status := "in_progress";
     rq_summary := rq_summary r; rq_updated_at := rq_updated_at r |}.

Definition mark_failed (message : string) (r : ResearchQuery) : ResearchQuery :=
  {| rq_query := rq_query r; rq_status := "failed";
     rq_summary := VStr ("Research failed: " ++ message);
     rq_updated_at := rq_updated_at r |}.

Definition mark_completed (text : value) (t : Z) (r : ResearchQuery) : ResearchQuery :=
  {| rq_query := rq_query r; rq_status := "completed";
     rq_summary := text; rq_updated_at := Some t |}.

(** [for x in l: body x] *)
Fixpoint for_each {S A} (body : A -> SM S unit) (l : list A) : SM S unit :=
  match l with
  | [] => ret tt
  | x :: l' => bind (body x) (fun _ => for_each body l')
  end.

Section TaskRunner.

Context (w : World).

(** [datetime.now()] *)
Definition now : M Z :=
  fun st => (Return (clock w (ticks st)), tick st).

(** The text stored for a step's result: nothing for [None], JSON for a
    dict or a list, [str] for anything else. *)
Definition stored_result (res : value) : option string :=
  match res with
  | VNone => None
  | VDict _ | VList _ => Some (json_dumps w res)
  | _ => Some (py_str w res)
  end.

Definition step_row_of (research_id : Z) (step_data : StepDict) : StepRow :=
  {| step_research_id := research_id;
     step_type := "analysis";
     step_description := sd_description step_data;
     step_reasoning := sd_reasoning step_data;
     step_status := sd_status step_data;
     step_confidence := sd_confidence step_data;
     step_duration := sd_duration step_data;
     step_result := stored_result (sd_result step_data) |}.

Definition profile_row_of (research_id : Z) (profile_data : value)
    : outcome LinkedInProfile :=
  name ← Py.get profile_data "name" (VStr "");
  title ← Py.get profile_data "title" (VStr "");
  company ← Py.get profile_data "company" (VStr "");
  location ← Py.get profile_data "location" (VStr "");
  linkedin_url ← Py.get profile_data "linkedin_url" (VStr "");
  image_url ← Py.get profile_data "image_url" (VStr "");
  present ← Py.contains "expertise" profile_data;
  expertise ← (if present : bool then
                 e ← Py.getitem profile_data "expertise";
                 Return (if Py.truthy e then Some (json_dumps w e) else None)
               else Return None);
  Return {| profile_research_id := research_id;
            profile_name := name; profile_title := title;
            profile_company := company; profile_location := location;
            profile_linkedin_url := linkedin_url;
            profile_image_url := image_url;
            profile_expertise := expertise |}.

Definition insight_row_of (research_id : Z) (insight : value) : Insight :=
  {| insight_research_id := research_id; insight_text := insight |}.

Definition save_results (research_id : Z) (results : Results) : SM Sys unit :=
  for_each (fun step_data => on_db (add_step_row (step_row_of research_id step_data)))
           (res_steps results);;
  for_each (fun profile_data =>
              row ← lift (profile_row_of research_id profile_data);
              on_db (add_profile_row row))
           (default [] (res_profiles results));;
  found ← lift (Py.iter (default (VList []) (res_insights results)));
  for_each (fun insight => on_db (add_insight_row (insight_row_of research_id insight)))
           found.

Definition run_research_task (research_id : Z) : SM Sys unit :=
  try_except
    (research ← get_state (fun sys => queries (db sys) !! research_id);
     match research with
     | None => ret tt
     | Some research =>
         on_db (update_query research_id mark_in_progress);;
         results ← on_agent (research_linkedin w (rq_query research));
         match res_error results with
         | Some message =>
             on_db (update_query research_id (mark_failed message))
         | None =>
             t ← on_agent now;
             on_db (update_query research_id
                      (mark_completed (default (VStr "") (res_summary results)) t));;
             save_results research_id results
         end
     end)
    (fun e =>
       research ← get_state (fun sys => queries (db sys) !! research_id);
       match research with
       | Some _ => on_db (update_query research_id (mark_failed (exn_str e)))
       | None => ret tt
       end).

End TaskRunner.

(** ** app.py on a session that can fail *)

Module Session.

(** Modelled from the spec: the session [db.session] is made by db.py,
    which is not among the sources. The spec (4.5 and 7) lets a write to
    the store fail inside the runner, which then tries once to mark the
    record failed and swallows the error of that second write. So every
    call [run_research_task] makes to the session, [get] or [commit], may
    raise, and which of them do is a parameter: one field for each call in
    the source, in the order of its lines (82, 89, 99, 150, 156, 160), with
    the exception the call raises, if it raises. *)
Record Faults : Type := {
  get_fails : option exn;
  commit_in_progress_fails : option exn;
  commit_failed_fails : option exn;
  commit_results_fails : option exn;
  handler_get_fails : option exn;
  handler_commit_fails : option exn
}.

(** No call raises. *)
Definition reliable : Faults :=
  {| get_fails := None; commit_in_progress_fails := None;
     commit_failed_fails := None; commit_results_fails := None;
     handler_get_fails := None; handler_commit_fails := None |}.

(** What is stored, and the process: the tables as the session holds them
    (the stored ones and what was assigned or added since the last commit)
    and the agent. *)
Record State : Type := {
  stored : Db;
  live : Sys
}.

(** A process whose session holds what is stored. *)
Definition start (sys : Sys) : State := {| stored := db sys; live := sys |}.

(** What the code does between two calls to the session: assignments to the
    record, [db.session.add], the pipeline. They change what the session
    holds, not what is stored. *)
Definition in_process {A} (m : SM Sys A) : SM State A :=
  fun s =>
    let '(r, sys') := m (live s) in
    (r, {| stored := stored s; live := sys' |}).

(** [db.session.get(ResearchQuery, research_id)] *)
Definition get (fault : option exn) (research_id : Z)
    : SM State (option ResearchQuery) :=
  match fault with
  | Some e => lift (Raise e)
  | None => get_state (fun s => queries (db (live s)) !! research_id)
  end.

(** Modelled from the spec: [db.session.commit()]. When it returns, what
    the session held is stored. When it raises, nothing of it is stored
    and the transaction is rolled back, so that the session holds what is
    stored again. *)
Definition commit (fault : option exn) : SM State unit :=
  fun s =>
    match fault with
    | Some e => (Raise e, {| stored := stored s; live := with_db (stored s) (live s) |})
    | None => (Return tt, {| stored := db (live s); live := live s |})
    end.

Section Runner.

Context (f : Faults) (w : World).

(** The [except Exception as e] of [run_research_task], with the [try] of
    its own whose handler is [pass]. *)
Definition handler (research_id : Z) (e : exn) : SM State unit :=
  try_except
    (research ← get (handler_get_fails f) research_id;
     match research with
     | Some _ =>
         in_process (on_db (update_query research_id (mark_failed (exn_str e))));;
         commit (handler_commit_fails f)
     | None => ret tt
     end)
    (fun _ => ret tt).

Definition run_research_task (research_id : Z) : SM State unit :=
  try_except
    (research ← get (get_fails f) research_id;
     match research with
     | None => ret tt
     | Some research =>
         in_process (on_db (update_query research_id mark_in_progress));;
         commit (commit_in_progress_fails f);;
         results ← in_process (on_agent (research_linkedin w (rq_query research)));
         match res_error results with
         | Some message =>
             in_process (on_db (update_query research_id (mark_failed message)));;
             commit (commit_failed_fails f)
         | None =>
             t ← in_process (on_agent (now w));
             in_process (on_db (update_query research_id
                                  (mark_completed (default (VStr "") (res_summary results)) t)));;
             in_process (save_results w research_id results);;
             commit (commit_results_fails f)
         end
     end)
    (handler research_id).

End Runner.

End Session.

(** * Vocabulary of the properties *)

(** The first entry of the table that matches a lowercased name, as the
    [for] loop of [_get_fallback_company_info] finds it. *)
Definition first_match (company_lower : string) : option (string * value) :=
  find (fun kv => company_matches company_lower (fst kv)) companies.

(** The call raised (a failure, a timeout), or what it returned does not
    parse. *)
Definition chat_failed (w : World) (resp : outcome (option string)) : bool :=
  match resp with
  | Raise _ => true
  | Return content =>
      match loads w content with
      | Raise _ => true
      | Return _ => false
      end
  end.

(** The provider answered 200 with a body that parses and whose [items] is
    there and not empty. *)
Definition provider_found (resp : outcome HttpResponse) : bool :=
  match resp with
  | Return r =>
      (status_code r =? 200)%Z
      && match response_json r with
         | Return data =>
             match has_items data with
             | Return true => true
             | _ => false
             end
         | Raise _ => false
         end
  | Raise _ => false
  end.

(** The provider's answer to the request [get_company_info] makes in [st]. *)
Definition company_request (w : World) (name : value) (st : St) : outcome HttpResponse :=
  requests_get w (length (log st)) (base_url ++ "/company") [("company_name", name)].

(** A dict with at least one key. *)
Definition is_record (v : value) : Prop :=
  exists d, v = VDict d /\ d <> [].

(** The profiles a provider response yields, as [search_people] reads it. *)
Definition parse_profiles (resp : outcome HttpResponse) : outcome (list value) :=
  response ← resp;
  if (status_code response =? 200)%Z then
    data ← response_json response;
    found ← has_items data;
    if found : bool then
      items ← Py.getitem data "items";
      profile_datas ← Py.iter items;
      traverse profile_of_item profile_datas
    else Return []
  else Return [].

(** The [search_term] parameter of [search_people]. *)
Definition search_term (w : World) (query company : value) : value :=
  if Py.truthy company
  then VStr (py_str w query ++ " at " ++ py_str w company)
  else query.

(** The provider's answer to the request [search_people] makes when it is
    entered in [st]: its own entry event comes first. *)
Definition search_request (w : World) (query company : value) (st : St)
    : outcome HttpResponse :=
  requests_get w (S (length (log st))) (base_url ++ "/people/search")
    [("search_term", search_term w query company)].

(** What [search_people] returns for a provider response. *)
Definition found_profiles (resp : outcome HttpResponse) : list value :=
  match parse_profiles resp with
  | Return found => found
  | Raise _ => []
  end.

(** The events, and the steps, added between two states of a run. *)
Definition events_since (st st' : St) : list Event :=
  drop (length (log st)) (log st').

Definition steps_since (st st' : St) : list ResearchStep :=
  drop (length (steps st)) (steps st').

(** The calls of [search_people] among some events: term and company. *)
Fixpoint search_calls (evs : list Event) : list (value * value) :=
  match evs with
  | [] => []
  | EvSearchPeople query company :: evs' => (query, company) :: search_calls evs'
  | _ :: evs' => search_calls evs'
  end.

(** [m] keeps [I], whether it returns or raises, and what it returns
    satisfies [Q]. *)
Definition inv_spec {A} (I : St -> Prop) (m : M A) (Q : A -> Prop) : Prop :=
  forall st, I st -> I (snd (m st)) /\ forall a, fst (m st) = Return a -> Q a.

Definition any {A} : A -> Prop := fun _ => True.

(** A value with a [get] method. *)
Definition is_dict (v : value) : Prop :=
  match v with
  | VDict _ => True
  | _ => False
  end.

(** A value a [for] loop accepts. *)
Definition iterable (v : value) : Prop :=
  match v with
  | VList _ | VStr _ | VDict _ => True
  | _ => False
  end.

(** [company_text_of] does not raise on [v]. *)
Definition company_ok (v : value) : Prop :=
  Py.truthy v = true -> is_dict v.

(** The requests of [_generate_insights] are the ones with its system
    message. *)
Definition is_insights_request (req : ChatRequest) : bool :=
  match chat_messages req with
  | (_, system) :: _ => String.eqb system insights_system
  | [] => false
  end.

(** What holds all along a run that began with the log [base]: the agent
    holds profiles that are dicts, insights that can be iterated and a
    company record it can format, and every event since is allowed by [p]. *)
Record run_inv (p : Event -> bool) (base : list Event) (st : St) : Prop := {
  inv_profiles : Forall is_dict (profiles st);
  inv_insights : iterable (insights st);
  inv_company : company_ok (company_info st);
  inv_log : exists evs, log st = base ++ evs /\ forallb p evs = true
}.

(** The two context lines of the insights prompt. *)
Definition roles_context_of (roles : value) : outcome string :=
  if Py.truthy roles
  then joined ← Py.join ", " roles; Return ("For roles: " ++ joined)%string
  else Return ""%string.

Definition company_context_of (w : World) (company : value) : string :=
  if Py.truthy company then ("For company: " ++ py_str w company)%string
  else ""%string.

(** What [_generate_insights] makes of the service's answer. *)
Definition insights_reply (w : World) (resp : outcome (option string)) : value :=
  match (content ← resp; insights_data ← loads w content;
         extract_insights insights_data) with
  | Return found => found
  | Raise _ => insights_error
  end.

(** The insights section of the summary prompt. *)
Definition insights_text_of (w : World) (items : list value) : string :=
  PyStr.join PyStr.nl (map (fun insight => ("- " ++ py_str w insight)%string) items).

(** What [_create_summary] makes of the service's answer. *)
Definition summary_reply (resp : outcome (option string)) : value :=
  match resp with
  | Return content => content_value content
  | Raise _ => summary_error
  end.

(** The dictionary returned has profiles that are dicts and insights that
    can be iterated, which is what the task runner relies on. *)
Definition results_ok (res : Results) : Prop :=
  Forall is_dict (default [] (res_profiles res))
  /\ iterable (default (VList []) (res_insights res)).

(** The database with rows added at the end of its three tables. *)
Definition add_rows (ss : list StepRow) (ps : list LinkedInProfile)
    (ins : list Insight) (d : Db) : Db :=
  {| queries := queries d;
     step_rows := step_rows d ++ ss;
     profile_rows := profile_rows d ++ ps;
     insight_rows := insight_rows d ++ ins |}.

(** Steps 1 to 4 of [research], returning what step 5 needs. *)
Definition pre_insight (w : World) (query : string) : M (value * value) :=
  stage_init w;;
  '(company_name, roles) ← stage_analyze w query;
  stage_company w company_name;;
  stage_search w query company_name roles;;
  ret (company_name, roles).

(** An insights request whose call failed. *)
Definition failed_insights_call (w : World) (ev : Event) : bool :=
  match ev with
  | EvChat req resp => is_insights_request req && chat_failed w resp
  | _ => false
  end.

(** Any event but a failed insights call. *)
Definition benign (w : World) (ev : Event) : bool :=
  negb (failed_insights_call w ev).

(** What is left of [research] once the insights stage is over. *)
Definition research_tail (w : World) (query : string) (r : outcome unit)
    : M Results :=
  match r with
  | Return _ =>
      try_except (stage_summary w query;; get_state (success_results query))
                 (research_handler w query)
  | Raise e => research_handler w query e
  end.

(** * Example runs *)

Module Examples.

(** A new process: no step, no event, the clock never read. *)
Definition initial : St :=
  {| steps := []; profiles := []; insights := VList [];
     company_info := VNone; summary := VNone; ticks := 0; log := [] |}.

Definition ada (expertise : value) : value :=
  VDict [("name", VStr "Ada Lovelace"); ("title", VStr "Engineer");
         ("expertise", expertise)].

Definition one_person (expertise : value) : outcome HttpResponse :=
  Return {| status_code := 200;
            response_json := Return (VDict [("items", VList [ada expertise])]);
            response_text := "" |}.

(** Neither service answers. *)
Definition offline : World :=
  {| clock := fun n => (Z.of_nat n * 1000)%Z;
     requests_get := fun _ _ _ => Raise (ServiceError "connection refused");
     chat_completions_create := fun _ _ => Raise (ServiceError "connection refused");
     json_loads := fun _ => Raise (ServiceError "Expecting value");
     json_dumps := fun _ => "{}";
     repr := fun _ => "<value>" |}.

(** The provider finds one person, whose expertise is null; the LLM
    service is down. *)
Definition null_expertise : World :=
  {| clock := fun n => (Z.of_nat n * 1000)%Z;
     requests_get := fun _ _ _ => one_person VNone;
     chat_completions_create := fun _ _ => Raise (ServiceError "connection refused");
     json_loads := fun _ => Raise (ServiceError "Expecting value");
     json_dumps := fun _ => "{}";
     repr := fun _ => "<value>" |}.

(** The provider finds one person; the LLM service is down. *)
Definition llm_down : World :=
  {| clock := fun n => (Z.of_nat n * 1000)%Z;
     requests_get := fun _ _ _ => one_person (VList [VStr "Mathematics"]);
     chat_completions_create := fun _ _ => Raise (ServiceError "connection refused");
     json_loads := fun _ => Raise (ServiceError "Expecting value");
     json_dumps := fun _ => "{}";
     repr := fun _ => "<value>" |}.

Definition is_summary_request (req : ChatRequest) : bool :=
  match chat_messages req with
  | (_, system) :: _ => String.eqb system summary_system
  | [] => false
  end.

(** The provider finds one person; the LLM service fails on every request
    but the summary, which it answers with an empty text. *)
Definition empty_summary : World :=
  {| clock := fun n => (Z.of_nat n * 1000)%Z;
     requests_get := fun _ _ _ => one_person (VList [VStr "Mathematics"]);
     chat_completions_create := fun _ req =>
       if is_summary_request req then Return (Some "")
       else Raise (ServiceError "rate limit exceeded");
     json_loads := fun _ => Raise (ServiceError "Expecting value");
     json_dumps := fun _ => "{}";
     repr := fun _ => "<value>" |}.

Definition pending_query (query : string) : ResearchQuery :=
  {| rq_query := query; rq_status := "pending"; rq_summary := VNone;
     rq_updated_at := None |}.

(** A database with one pending query, number 1. *)
Definition pending (query : string) : Sys :=
  {| db := {| queries := {[ 1%Z := pending_query query ]};
              step_rows := []; profile_rows := []; insight_rows := [] |};
     agent := initial |}.

End Examples.

(** * More vocabulary: the client *)

(** A dict built from [d] by [d.get(key, default)] for each field. *)
Definition pick (d : list (string * value)) (fields : list (string * value)) : value :=
  VDict (map (fun field => (fst field, default (snd field) (Py.lookup (fst field) d)))
             fields).

(** The keys of a profile of [search_people], with their defaults. *)
Definition profile_fields : list (string * value) :=
  [("name", VStr "Unknown"); ("title", VStr ""); ("company", VStr "");
   ("location", VStr ""); ("linkedin_url", VStr ""); ("image_url", VStr "");
   ("expertise", VList [])].

(** The keys of a record [get_company_info] builds from the provider, with
    their defaults. *)
Definition company_fields (company_name : value) : list (string * value) :=
  [("name", company_name); ("industry", VStr "Unknown");
   ("location", VStr "Unknown"); ("description", VStr "No description available");
   ("website", VStr ""); ("linkedin_url", VStr ""); ("logo_url", VStr "");
   ("employees", VDict [])].

Definition normal_profile (item : value) : value :=
  match item with
  | VDict d => pick d profile_fields
  | _ => VNone
  end.

Definition is_dictb (v : value) : bool :=
  match v with
  | VDict _ => true
  | _ => false
  end.

Definition record_keys : list string :=
  ["name"; "industry"; "location"; "description"; "website"; "linkedin_url";
   "logo_url"].

(** An ASCII character: one byte, below 128. *)
Definition is_ascii (c : ascii) : bool := (nat_of_ascii c <? 128)%nat.

Fixpoint all_ascii (s : string) : bool :=
  match s with
  | EmptyString => true
  | String c s' => is_ascii c && all_ascii s'
  end.

(** A byte that stands for a stretch of characters outside ASCII. *)
Definition outside : ascii := "255"%char.

(** The ASCII text of a string: its ASCII characters in their places, and
    one [outside] byte for each stretch of characters outside ASCII, however
    long and whatever they are. Two lowercase forms of one name that differ
    only in what they make of the characters outside ASCII, as that of
    [PyStr.lower] and that of [str.lower()] do, have the same ASCII text. *)
Fixpoint ascii_text (s : string) : string :=
  match s with
  | EmptyString => EmptyString
  | String c s' =>
      if is_ascii c then String c (ascii_text s')
      else match s' with
           | String d _ =>
               if is_ascii d then String outside (ascii_text s') else ascii_text s'
           | EmptyString => String outside EmptyString
           end
  end.

(** * More vocabulary: the agent and the task runner *)

(** A step that [complete] has been called on. *)
Definition finishedb (s : ResearchStep) : bool :=
  match status s, end_time s with
  | in_progress, _ => false
  | _, None => false
  | _, Some _ => true
  end.

Definition is_chat (ev : Event) : bool :=
  match ev with
  | EvChat _ _ => true
  | _ => false
  end.

Definition is_http (ev : Event) : bool :=
  match ev with
  | EvHttpGet _ _ _ => true
  | _ => false
  end.

Definition is_insights_event (ev : Event) : bool :=
  match ev with
  | EvChat req _ => is_insights_request req
  | _ => false
  end.

(** How many events of a kind there are. *)
Definition count_events (kind : Event -> bool) (evs : list Event) : nat :=
  length (List.filter kind evs).

(** app.py, [api_research_status]: the expertise of a profile row as the
    endpoint returns it ([profile.to_dict()] itself belongs to models.py). *)
Definition api_profile_expertise (w : World) (expertise : option string) : value :=
  match expertise with
  | Some text =>
      if (text =? "")%string then VList []
      else match json_loads w text with
           | Return v => v
           | Raise _ => VList []
           end
  | None => VList []
  end.

(** The provider's answers among some events, in order. *)
Fixpoint http_responses (evs : list Event) : list (outcome HttpResponse) :=
  match evs with
  | [] => []
  | EvHttpGet _ _ resp :: evs' => resp :: http_responses evs'
  | _ :: evs' => http_responses evs'
  end.

Definition nonempty {A} (l : list A) : bool :=
  match l with
  | [] => false
  | _ :: _ => true
  end.

(** [st'] is [st] with the step [s] added, finished, under the description
    [d]. *)
Definition step_added (st st' : St) (s : ResearchStep) (d : string) : Prop :=
  steps st' = steps st ++ [s] /\ finishedb s = true /\ description s = d.


Definition is_search (ev : Event) : bool :=
  match ev with
  | EvSearchPeople _ _ => true
  | _ => false
  end.

(** [m] only adds to the log: at most [c] LLM calls, [h] requests to the
    provider and [s] entries into [search_people]. *)
Definition within_budget {A} (c h s : nat) (m : M A) : Prop :=
  forall st, exists evs,
    log (snd (m st)) = log st ++ evs
    /\ count_events is_chat evs <= c
    /\ count_events is_http evs <= h
    /\ count_events is_search evs <= s.

(** The row stored for a profile: one column for each key the loop reads,
    with its default, and the expertise as JSON text when there is one. *)
Definition row_of_profile (w : World) (id : Z) (profile_data : value)
    (row : LinkedInProfile) : Prop :=
  exists d,
    profile_data = VDict d
    /\ row = {| profile_research_id := id;
                profile_name := default (VStr "") (Py.lookup "name" d);
                profile_title := default (VStr "") (Py.lookup "title" d);
                profile_company := default (VStr "") (Py.lookup "company" d);
                profile_location := default (VStr "") (Py.lookup "location" d);
                profile_linkedin_url := default (VStr "") (Py.lookup "linkedin_url" d);
                profile_image_url := default (VStr "") (Py.lookup "image_url" d);
                profile_expertise :=
                  match Py.lookup "expertise" d with
                  | Some e => if Py.truthy e then Some (json_dumps w e) else None
                  | None => None
                  end |}.

(** What the [except] branch of the task runner leaves, entered in [s] with
    the exception [e]. *)
Definition handler_state (f : Session.Faults) (id : Z) (e : exn) (s : Session.State)
    : Session.State :=
  match Session.handler_get_fails f with
  | Some _ => s
  | None =>
      match queries (db (Session.live s)) !! id with
      | None => s
      | Some _ =>
          match Session.handler_commit_fails f with
          | None =>
              Session.start
                (with_db (update_query id (mark_failed (exn_str e)) (db (Session.live s)))
                   (Session.live s))
          | Some _ =>
              {| Session.stored := Session.stored s;
                 Session.live := with_db (Session.stored s) (Session.live s) |}
          end
      end
  end.

(** What the task runner leaves behind when the record is there, for the
    result [res] of the pipeline, which left the agent in [st']. *)
Definition session_end (f : Session.Faults) (w : World) (id : Z) (sys : Sys)
    (res : Results) (st' : St) : Session.State :=
  let sys1 := with_db (update_query id mark_in_progress (db sys)) sys in
  match Session.get_fails f with
  | Some e => handler_state f id e (Session.start sys)
  | None =>
      match Session.commit_in_progress_fails f with
      | Some e => handler_state f id e (Session.start sys)
      | None =>
          match res_error res with
          | Some message =>
              match Session.commit_failed_fails f with
              | None =>
                  Session.start {| db := update_query id (mark_failed message) (db sys1);
                                   agent := st' |}
              | Some e =>
                  handler_state f id e (Session.start {| db := db sys1; agent := st' |})
              end
          | None =>
              match Session.commit_results_fails f with
              | None => Session.start (snd (run_research_task w id sys))
              | Some e =>
                  handler_state f id e
                    (Session.start {| db := db sys1; agent := tick st' |})
              end
          end
      end
  end.

(** ** linkedin_rapidapi_client.py: the people of the fallback *)

Module PyTitle.

Definition is_lower (c : ascii) : bool :=
  let n := nat_of_ascii c in (97 <=? n)%nat && (n <=? 122)%nat.

Definition is_upper (c : ascii) : bool :=
  let n := nat_of_ascii c in (65 <=? n)%nat && (n <=? 90)%nat.

Definition upper_ascii (c : ascii) : ascii :=
  if is_lower c then ascii_of_nat (nat_of_ascii c - 32) else c.

(** [str.title()] on ASCII text, where it needs no table of characters: a
    letter that follows a letter is lowercased, any other letter is
    uppercased. It serves the examples. *)
Fixpoint title_from (previous_is_cased : bool) (s : string) : string :=
  match s with
  | EmptyString => EmptyString
  | String c s' =>
      let c' :=
        if is_lower c then (if previous_is_cased then c else upper_ascii c)
        else if is_upper c then (if previous_is_cased then PyStr.lower_ascii c else c)
        else c in
      String c' (title_from (is_lower c || is_upper c) s')
  end.

Definition title (s : string) : string := title_from false s.

End PyTitle.

(** The map of common roles to their expertise areas, in the order of the
    source. *)
Definition role_expertise : list (string * list string) :=
  [("software engineer",
    ["Programming"; "Software Development"; "Algorithms"; "Problem Solving";
     "System Design"]);
   ("data scientist",
    ["Machine Learning"; "Data Analysis"; "Statistics"; "Python";
     "Data Visualization"]);
   ("product manager",
    ["Product Strategy"; "User Experience"; "Agile"; "Market Research";
     "Roadmapping"]);
   ("marketing",
    ["Digital Marketing"; "Content Strategy"; "Social Media"; "SEO"; "Analytics"]);
   ("sales",
    ["Sales Strategy"; "Negotiation"; "Client Relationships";
     "Business Development"; "CRM"]);
   ("designer",
    ["UI/UX Design"; "Graphic Design"; "Wireframing"; "Prototyping";
     "User Research"]);
   ("hr",
    ["Recruitment"; "Employee Relations"; "Talent Management"; "Compensation";
     "Organizational Development"])].

Definition default_expertise : list string :=
  ["Leadership"; "Communication"; "Problem Solving"; "Strategic Thinking";
   "Innovation"].

(** The first key that matches, then [role_expertise.get(matched_role,
    default)]: the keys are distinct, so that is the entry found. *)
Definition matched_expertise (role_lower : string) : list string :=
  match find (fun kv => company_matches role_lower (fst kv)) role_expertise with
  | Some (_, skills) => skills
  | None => default_expertise
  end.

Definition strs (l : list string) : value := VList (map VStr l).

Definition company_profile (name title : string) (company expertise : value) : value :=
  VDict [("name", VStr name); ("title", VStr title); ("company", company);
         ("location", VStr "United States"); ("linkedin_url", VStr "");
         ("image_url", VStr ""); ("expertise", expertise)].

Definition job (title company duration : string) : value :=
  VDict [("title", VStr title); ("company", VStr company);
         ("duration", VStr duration)].

Definition degree (name school year : string) : value :=
  VDict [("degree", VStr name); ("school", VStr school); ("year", VStr year)].

(** The two generic profiles of the branch without a company. *)
Definition generic_profiles : list value :=
  [VDict [("name", VStr "Product Manager");
          ("title", VStr "Senior Product Manager");
          ("company", VStr "Technology Company");
          ("location", VStr "San Francisco, CA");
          ("expertise", strs ["Product Strategy"; "User Experience"; "Agile";
                              "Market Research"; "Roadmapping"]);
          ("experience",
           VList [job "Senior Product Manager" "Technology Company" "2019-Present";
                  job "Product Manager" "Previous Company" "2016-2019"]);
          ("education", VList [degree "MBA" "UC Berkeley Haas" "2016"])];
   VDict [("name", VStr "Director of Product");
          ("title", VStr "Director of Product");
          ("company", VStr "SaaS Platform");
          ("location", VStr "Austin, TX");
          ("expertise", strs ["Product Leadership"; "Go-to-Market"; "B2B SaaS";
                              "Product-Led Growth"]);
          ("experience",
           VList [job "Director of Product" "SaaS Platform" "2020-Present";
                  job "Product Lead" "Previous SaaS Company" "2017-2020"]);
          ("education",
           VList [degree "BS in Computer Science" "University of Texas" "2012"])]].

Section FallbackPeople.

(** [str.title()]. Its result goes into the profiles as it is, and for a
    letter outside ASCII it depends on the character tables of the
    runtime: it is a parameter. *)
Context (str_title : string -> string).

(** [role.title()] *)
Definition py_title (role : value) : outcome string :=
  match role with
  | VStr s => Return (str_title s)
  | _ => Raise (Py.no_attribute role "title")
  end.

Definition _get_fallback_people (role company : value) : outcome (list value) :=
  role_lower ← Py.lower role;
  let expertise := strs (matched_expertise role_lower) in
  if Py.truthy company then
    role_title ← py_title role;
    Return [company_profile ("Senior " ++ role_title ++ " Professional")
              ("Senior " ++ role_title) company expertise;
            company_profile (role_title ++ " Leader")
              (role_title ++ " Team Lead") company expertise;
            company_profile (role_title ++ " Manager")
              (role_title ++ " Manager") company expertise]
  else Return generic_profiles.

End FallbackPeople.

(** * More example runs *)

Module MoreExamples.

(** The LLM service answers every request with a text that parses to the
    empty JSON array; the provider is down. *)
Definition array_reply : World :=
  {| clock := fun n => (Z.of_nat n * 1000)%Z;
     requests_get := fun _ _ _ => Raise (ServiceError "connection refused");
     chat_completions_create := fun _ _ => Return (Some "[]");
     json_loads := fun _ => Return (VList []);
     json_dumps := fun _ => "[]";
     repr := fun _ => "<value>" |}.

(** The LLM service answers every request with an object whose insights
    are the number 5. *)
Definition number_insights : World :=
  {| clock := fun n => (Z.of_nat n * 1000)%Z;
     requests_get := fun _ _ _ => Examples.one_person (VList [VStr "Mathematics"]);
     chat_completions_create := fun _ _ => Return (Some "{insights: 5}");
     json_loads := fun _ => Return (VDict [("insights", VInt 5)]);
     json_dumps := fun _ => "[]";
     repr := fun _ => "<value>" |}.

(** A JSON library that knows one text. *)
Definition one_text_json : World :=
  {| clock := fun n => (Z.of_nat n * 1000)%Z;
     requests_get := fun _ _ _ => Raise (ServiceError "connection refused");
     chat_completions_create := fun _ _ => Raise (ServiceError "connection refused");
     json_loads := fun _ => Return (VList [VStr "Mathematics"]);
     json_dumps := fun _ => "[Mathematics]";
     repr := fun _ => "<value>" |}.

(** The profile [search_people] makes of the person of [Examples]. *)
Definition ada_profile : value :=
  VDict [("name", VStr "Ada Lovelace"); ("title", VStr "Engineer");
         ("company", VStr ""); ("location", VStr "");
         ("linkedin_url", VStr ""); ("image_url", VStr "");
         ("expertise", VList [VStr "Mathematics"])].

(** An agent that holds one profile. *)
Definition with_ada : St := with_profiles [ada_profile] Examples.initial.

(** The first commit goes through; every later call to the session raises. *)
Definition locked : Session.Faults :=
  {| Session.get_fails := None;
     Session.commit_in_progress_fails := None;
     Session.commit_failed_fails := Some (ServiceError "database is locked");
     Session.commit_results_fails := Some (ServiceError "database is locked");
     Session.handler_get_fails := Some (ServiceError "database is locked");
     Session.handler_commit_fails := Some (ServiceError "database is locked") |}.

(** The commit of the results raises; the calls of the handler go through. *)
Definition results_refused : Session.Faults :=
  {| Session.get_fails := None;
     Session.commit_in_progress_fails := None;
     Session.commit_failed_fails := None;
     Session.commit_results_fails := Some (ServiceError "value too long");
     Session.handler_get_fails := None;
     Session.handler_commit_fails := None |}.

(** [e] with an acute accent, capital and small: two bytes each. *)
Definition E_acute : string := String "195" (String "137" EmptyString).
Definition e_acute : string := String "195" (String "169" EmptyString).

End MoreExamples.

(** * Properties *)

(** ** Substring search *)

Lemma prefix_app (n t : string) : String.prefix n (n ++ t) = true.
Proof.
  induction n as [|c n IH]; simpl.
  - by destruct t.
  - rewrite IH. by destruct (ascii_dec c c).
Qed.

Lemma prefix_app_l (n s t : string) :
  String.prefix n s = true -> String.prefix n (s ++ t) = true.
Proof.
  revert s; induction n as [|c n IH]; intros s H.
  - by destruct (s ++ t)%string.
  - destruct s as [|d s]; simpl in *; [done|].
    destruct (ascii_dec c d); [by apply IH | done].
Qed.

Lemma contains_prefix (n h : string) :
  String.prefix n h = true -> PyStr.contains n h = true.
Proof. intros H. destruct h; cbn [PyStr.contains]; by rewrite H. Qed.

Lemma contains_here (n t : string) : PyStr.contains n (n ++ t) = true.
Proof. apply contains_prefix, prefix_app. Qed.

Lemma contains_app_r (n s t : string) :
  PyStr.contains n t = true -> PyStr.contains n (s ++ t) = true.
Proof.
  intros H. induction s as [|c s IH]; [done|].
  change (String c s ++ t)%string with (String c (s ++ t)).
  cbn [PyStr.contains]. rewrite IH. apply orb_true_r.
Qed.

Lemma contains_app_l (n s t : string) :
  PyStr.contains n s = true -> PyStr.contains n (s ++ t) = true.
Proof.
  induction s as [|c s IH]; cbn [PyStr.contains]; intros H.
  - rewrite orb_false_r in H. apply contains_prefix.
    by apply (prefix_app_l n "" t).
  - apply orb_true_iff in H as [H|H].
    + by apply contains_prefix, prefix_app_l.
    + change (String c s ++ t)%string with (String c (s ++ t)).
      cbn [PyStr.contains]. rewrite IH by done. apply orb_true_r.
Qed.

(** ** ResearchStep *)

(** C9. Serializing a step with [to_dict] keeps its description, reasoning,
    status and confidence; the duration is the difference of the two
    timestamps in seconds when the step has an end time, and null when it
    has none. Times are exact here (microseconds, and seconds as a
    rational), so the rounding of Python's float is not part of it. *)
Theorem to_dict_preserves_step (s : ResearchStep) :
  sd_description (to_dict s) = description s
  /\ sd_reasoning (to_dict s) = reasoning s
  /\ sd_status (to_dict s) = status s
  /\ sd_confidence (to_dict s) = confidence s
  /\ sd_duration (to_dict s)
     = match end_time s with
       | Some e => Some (total_seconds (e - start_time s))
       | None => None
       end
  /\ (forall micros : Z, (total_seconds micros * inject_Z 1000000 == inject_Z micros)%Q)
  /\ (forall d r t, sd_duration (to_dict (ResearchStep_init d r t)) = None)
  /\ (forall ok res c t' d r t,
        sd_duration (to_dict (ResearchStep_complete ok res c t' (ResearchStep_init d r t)))
        = Some (total_seconds (t' - t))).
Proof.
  repeat split; try reflexivity.
  intros micros. unfold total_seconds, Qeq, Qmult, inject_Z; simpl. lia.
Qed.

(** ** The fallback table of companies *)

Lemma fallback_unfold (name : string) :
  _get_fallback_company_info (VStr name)
  = Return (match first_match (PyStr.lower name) with
            | Some (_, company_data) => company_data
            | None => generic_company_info (VStr name)
            end).
Proof.
  unfold _get_fallback_company_info, first_match.
  cbn [Py.lower mbind outcome_bind and_then].
  by destruct (find _ _) as [[? ?]|].
Qed.

Lemma table_record_not_generic (k : string) (rec name : value) :
  In (k, rec) companies -> rec <> generic_company_info name.
Proof.
  unfold companies; simpl.
  intros [H|[H|[H|[H|[H|[]]]]]]; inversion H; subst; discriminate.
Qed.

Lemma find_split {A} (f : A -> bool) (l : list A) (x : A) :
  find f l = Some x ->
  exists before after,
    l = before ++ x :: after /\ forallb (fun y => negb (f y)) before = true.
Proof.
  induction l as [|a l IH]; simpl; [done|].
  destruct (f a) eqn:Ha.
  - intros [= ->]. by exists [], l.
  - intros H. destruct (IH H) as (before & after & -> & Hb).
    exists (a :: before), after. simpl. by rewrite Ha.
Qed.

(** C10. The table is matched in both directions: when the lowercased name
    contains a key of the table, or is contained in one, the fallback lookup
    returns a record of the table and not the generic placeholder; it is the
    record of the first key, in the order of the table, that matches (so the
    record of [key] itself when no other key matches). The empty
    name matches every key and gets the Google record; [soft] gets the
    Microsoft record. *)
Theorem fallback_matches_both_ways (name key : string) :
  In key (map fst companies) ->
  (PyStr.contains key (PyStr.lower name) = true
   \/ PyStr.contains (PyStr.lower name) key = true) ->
  (exists k rec before after,
      _get_fallback_company_info (VStr name) = Return rec
      /\ companies = before ++ (k, rec) :: after
      /\ company_matches (PyStr.lower name) k = true
      /\ forallb (fun kv => negb (company_matches (PyStr.lower name) (fst kv))) before = true
      /\ rec <> generic_company_info (VStr name)
      /\ ((forall k', In k' (map fst companies) ->
                      company_matches (PyStr.lower name) k' = true -> k' = key)
          -> k = key))
  /\ _get_fallback_company_info (VStr "") = Return google_record
  /\ _get_fallback_company_info (VStr "soft") = Return microsoft_record.
Proof.
  intros Hkey Hmatch. split; [|split; reflexivity].
  rewrite fallback_unfold.
  assert (Hm : company_matches (PyStr.lower name) key = true).
  { unfold company_matches. apply orb_true_iff. tauto. }
  destruct (first_match (PyStr.lower name)) as [[k rec]|] eqn:Hfind.
  - unfold first_match in Hfind.
    destruct (find_some _ _ Hfind) as [Hin Hk]. simpl in Hk.
    destruct (find_split _ _ _ Hfind) as (before & after & Heq & Hbefore).
    exists k, rec, before, after. repeat split; try done.
    + by eapply table_record_not_generic.
    + intros Honly. apply Honly; [|done].
      apply in_map_iff. by exists (k, rec).
  - unfold first_match in Hfind.
    apply in_map_iff in Hkey as ([k' v] & Hk' & Hin). simpl in Hk'; subst k'.
    pose proof (find_none _ _ Hfind _ Hin) as Hnone. simpl in Hnone. congruence.
Qed.

(** The first key that matches, with the keys before it, which do not. *)
Lemma fallback_first_key (name key : string) :
  In key (map fst companies) ->
  (PyStr.contains key (PyStr.lower name) || PyStr.contains (PyStr.lower name) key) = true ->
  exists k rec before after,
    companies = (before ++ (k, rec) :: after)%list
    /\ (PyStr.contains k (PyStr.lower name) || PyStr.contains (PyStr.lower name) k) = true
    /\ Forall (fun kv => PyStr.contains (fst kv) (PyStr.lower name) = false
                         /\ PyStr.contains (PyStr.lower name) (fst kv) = false) before
    /\ _get_fallback_company_info (VStr name) = Return rec.
Proof.
  intros Hkey Hmatch. rewrite fallback_unfold.
  destruct (first_match (PyStr.lower name)) as [[k rec]|] eqn:Hfind; unfold first_match in Hfind.
  - destruct (find_some _ _ Hfind) as [_ Hk]. cbn [fst] in Hk.
    destruct (find_split _ _ _ Hfind) as (before & after & Heq & Hbefore).
    exists k, rec, before, after. split; [done|]. split; [exact Hk|]. split; [|done].
    apply Forall_forall. intros kv Hkv.
    rewrite forallb_forall in Hbefore. specialize (Hbefore kv).
    apply negb_true_iff in Hbefore; [|by apply list_elem_of_In].
    unfold company_matches in Hbefore. by apply orb_false_iff in Hbefore.
  - apply in_map_iff in Hkey as ([k' v] & Hk' & Hin). cbn [fst] in Hk'. subst k'.
    pose proof (find_none _ _ Hfind _ Hin) as Hnone. cbn [fst] in Hnone.
    unfold company_matches in Hnone. congruence.
Qed.

Lemma fallback_no_key (name : string) :
  (forall key, In key (map fst companies) ->
     PyStr.contains key (PyStr.lower name) = false
     /\ PyStr.contains (PyStr.lower name) key = false) ->
  _get_fallback_company_info (VStr name) = Return (generic_company_info (VStr name)).
Proof.
  intros Hno. rewrite fallback_unfold.
  destruct (first_match (PyStr.lower name)) as [[k rec]|] eqn:Hfind; [|done].
  unfold first_match in Hfind. destruct (find_some _ _ Hfind) as [Hin Hk].
  cbn [fst] in Hk. unfold company_matches in Hk.
  destruct (Hno k) as [H1 H2]; [apply in_map_iff; by exists (k, rec)|].
  rewrite H1, H2 in Hk. done.
Qed.

Lemma fallback_of_lower (name other : string) :
  PyStr.lower other = PyStr.lower name ->
  first_match (PyStr.lower name) <> None ->
  _get_fallback_company_info (VStr other) = _get_fallback_company_info (VStr name).
Proof.
  intros Hlow Hsome. rewrite !fallback_unfold, Hlow.
  by destruct (first_match (PyStr.lower name)) as [[k rec]|].
Qed.

(** ** Running the monad *)

Ltac unfold_monad :=
  unfold mbind, mret, SM_bind, SM_ret, outcome_bind, outcome_ret,
    bind, ret, lift, try_except, modify, get_state, and_then in *.

Lemma bind_run {S A B} (m : SM S A) (k : A -> SM S B) (st : S) :
  (m ≫= k) st
  = match m st with
    | (Return a, st') => k a st'
    | (Raise e, st') => (Raise e, st')
    end.
Proof. reflexivity. Qed.

Lemma bind_return {S A B} (m : SM S A) (k : A -> SM S B) (st st' : S) (b : B) :
  (m ≫= k) st = (Return b, st') ->
  exists a st1, m st = (Return a, st1) /\ k a st1 = (Return b, st').
Proof.
  rewrite bind_run. destruct (m st) as [[a|e] st1]; [|done].
  intros H. by exists a, st1.
Qed.

(** ** QueryInterpreter *)

Lemma analyze_query_run (w : World) (query : string) (st : St) :
  let resp := chat_completions_create w (length (log st)) (analysis_request query) in
  _analyze_query w query st
  = (Return (match resp with
             | Return content =>
                 match loads w content with
                 | Return analysis => analysis
                 | Raise _ => basic_analysis query
                 end
             | Raise _ => basic_analysis query
             end),
     emit (EvChat (analysis_request query) resp) st).
Proof.
  unfold _analyze_query, chat. unfold_monad.
  destruct (chat_completions_create _ _ _) as [content|e]; [|done].
  by destruct (loads w content).
Qed.

(** C5. When the call the query interpreter makes fails, times out or
    returns something that does not parse, [_analyze_query] returns exactly
    the basic analysis (no company, the query as the only role, no
    technologies) and does not raise. *)
Theorem analyze_query_falls_back (w : World) (query : string) (st : St) :
  chat_failed w (chat_completions_create w (length (log st)) (analysis_request query)) = true ->
  fst (_analyze_query w query st)
  = Return (VDict [("company", VNone); ("roles", VList [VStr query]);
                   ("technologies", VList [])]).
Proof.
  intros H. rewrite analyze_query_run. simpl. unfold chat_failed in H.
  destruct (chat_completions_create _ _ _) as [content|e]; [|done].
  by destruct (loads w content).
Qed.

(** ** ExternalDirectory *)

Lemma table_is_record (k : string) (rec : value) :
  In (k, rec) companies -> is_record rec.
Proof.
  unfold companies; simpl.
  intros [H|[H|[H|[H|[H|[]]]]]]; inversion H; subst; eexists; split;
    try reflexivity; discriminate.
Qed.

Lemma fallback_is_record (name : string) :
  exists rec, _get_fallback_company_info (VStr name) = Return rec /\ is_record rec.
Proof.
  rewrite fallback_unfold. eexists; split; [reflexivity|].
  destruct (first_match _) as [[k rec]|] eqn:Hfind.
  - unfold first_match in Hfind. apply find_some in Hfind as [Hin _].
    by eapply table_is_record.
  - eexists; split; [reflexivity | discriminate].
Qed.

Lemma company_of_item_is_record (item name v : value) :
  company_of_item item name = Return v -> is_record v.
Proof.
  unfold company_of_item. destruct item; try done. simpl.
  intros [= <-]. eexists; split; [reflexivity | discriminate].
Qed.

(** What [get_company_info] returns, and the one event it adds. *)
Lemma get_company_info_run (w : World) (name : value) (st : St) :
  let resp := company_request w name st in
  get_company_info w name st
  = (match (response ← resp;
            if (status_code response =? 200)%Z then
              data ← response_json response;
              found ← has_items data;
              if found : bool then
                items ← Py.getitem data "items";
                company_data ← Py.getitem0 items;
                company_of_item company_data name
              else _get_fallback_company_info name
            else _get_fallback_company_info name) with
     | Return v => Return v
     | Raise _ => _get_fallback_company_info name
     end,
     emit (EvHttpGet (base_url ++ "/company") [("company_name", name)] resp) st).
Proof.
  unfold get_company_info, http_get, company_request. unfold_monad.
  destruct (requests_get _ _ _ _) as [response|e]; [|done].
  destruct (status_code response =? 200)%Z; [|by destruct (_get_fallback_company_info name)].
  destruct (response_json response) as [data|e]; [|done].
  destruct (has_items data) as [[]|e]; [| |done].
  - destruct (Py.getitem data "items") as [items|e]; [|done].
    destruct (Py.getitem0 items) as [item|e]; [|done].
    by destruct (company_of_item item name).
  - by destruct (_get_fallback_company_info name).
Qed.

Lemma get_company_info_falls_back (w : World) (name : value) (st : St) :
  provider_found (company_request w name st) = false ->
  fst (get_company_info w name st) = _get_fallback_company_info name.
Proof.
  intros H. rewrite get_company_info_run. cbv zeta. cbn [fst].
  unfold provider_found in H. unfold_monad.
  destruct (company_request w name st) as [response|e]; [|done].
  destruct (status_code response =? 200)%Z;
    [|by destruct (_get_fallback_company_info name)].
  destruct (response_json response) as [data|e]; [|done].
  destruct (has_items data) as [[]|e]; [done| |done].
  by destruct (_get_fallback_company_info name).
Qed.

Lemma get_company_info_is_record (w : World) (name : string) (st : St) :
  exists rec, fst (get_company_info w (VStr name) st) = Return rec /\ is_record rec.
Proof.
  rewrite get_company_info_run. simpl.
  destruct (fallback_is_record name) as (fb & Hfb_eq & Hfb_rec).
  match goal with |- context [match ?o with Return v => _ | Raise _ => _ end] =>
    destruct o as [v|e] eqn:Hrun end.
  2: { by exists fb. }
  exists v. split; [done|].
  unfold_monad.
  destruct (company_request w (VStr name) st) as [response|e]; [|done].
  destruct (status_code response =? 200)%Z; [|congruence].
  destruct (response_json response) as [data|e]; [|done].
  destruct (has_items data) as [[]|e]; [| congruence |done].
  destruct (Py.getitem data "items") as [items|e]; [|done].
  destruct (Py.getitem0 items) as [item|e]; [|done].
  by eapply company_of_item_is_record.
Qed.

(** C6. For every organization name [get_company_info] returns a record,
    never an absent value. When the provider fails or has nothing, the
    record is that of the fallback lookup. A name whose lowercase form
    contains a key of the table, or is contained in one, gets the record of
    the first such key in the order of the table, and so does every name
    with the same lowercase form: the match does not see the case. A name
    that no key matches gets the generic placeholder, which carries the name
    as it was given, with its [Unknown] and empty fields, and two lookups of
    such a name that both fall back return the same record. The table is
    that of Google, Microsoft, Apple, Amazon and Meta; four names show the
    lookup at work. *)
Theorem get_company_info_returns_record (name : string) :
  (forall w st, exists rec,
      fst (get_company_info w (VStr name) st) = Return rec /\ is_record rec)
  /\ (forall w st,
        provider_found (company_request w (VStr name) st) = false ->
        fst (get_company_info w (VStr name) st)
        = _get_fallback_company_info (VStr name))
  /\ (forall key,
        In key (map fst companies) ->
        (PyStr.contains key (PyStr.lower name)
         || PyStr.contains (PyStr.lower name) key) = true ->
        exists k rec before after,
          companies = (before ++ (k, rec) :: after)%list
          /\ (PyStr.contains k (PyStr.lower name)
              || PyStr.contains (PyStr.lower name) k) = true
          /\ Forall (fun kv => PyStr.contains (fst kv) (PyStr.lower name) = false
                               /\ PyStr.contains (PyStr.lower name) (fst kv) = false)
               before
          /\ _get_fallback_company_info (VStr name) = Return rec
          /\ (forall other,
                PyStr.lower other = PyStr.lower name ->
                _get_fallback_company_info (VStr other) = Return rec))
  /\ ((forall key,
         In key (map fst companies) ->
         PyStr.contains key (PyStr.lower name) = false
         /\ PyStr.contains (PyStr.lower name) key = false) ->
      _get_fallback_company_info (VStr name)
      = Return (VDict [("name", VStr name); ("industry", VStr "Unknown");
                       ("location", VStr "Unknown");
                       ("description", VStr "No description available");
                       ("website", VStr ""); ("linkedin_url", VStr "");
                       ("logo_url", VStr "")])
      /\ forall w1 st1 w2 st2,
           provider_found (company_request w1 (VStr name) st1) = false ->
           provider_found (company_request w2 (VStr name) st2) = false ->
           fst (get_company_info w1 (VStr name) st1)
           = fst (get_company_info w2 (VStr name) st2))
  /\ map (fun kv => Py.get (snd kv) "name" VNone) companies
     = [Return (VStr "Google"); Return (VStr "Microsoft"); Return (VStr "Apple");
        Return (VStr "Amazon"); Return (VStr "Meta (formerly Facebook)")]
  /\ _get_fallback_company_info (VStr "GOOGLE Inc") = Return google_record
  /\ _get_fallback_company_info (VStr "the Apple store") = Return apple_record
  /\ _get_fallback_company_info (VStr ("FACEBOO" ++ PyStr.kelvin))
     = Return facebook_record
  /\ _get_fallback_company_info (VStr "Acme Robotics")
     = Return (VDict [("name", VStr "Acme Robotics"); ("industry", VStr "Unknown");
                      ("location", VStr "Unknown");
                      ("description", VStr "No description available");
                      ("website", VStr ""); ("linkedin_url", VStr "");
                      ("logo_url", VStr "")]).
Proof.
  split; [intros w st; apply get_company_info_is_record|].
  split; [intros w st; apply get_company_info_falls_back|].
  split; [|split; [|repeat split; reflexivity]].
  - intros key Hkey Hmatch.
    destruct (fallback_first_key name key Hkey Hmatch)
      as (k & rec & before & after & Heq & Hk & Hbefore & Hrec).
    exists k, rec, before, after. repeat split; try done.
    intros other Hother. rewrite <- Hrec. apply fallback_of_lower; [done|].
    rewrite fallback_unfold in Hrec.
    destruct (first_match (PyStr.lower name)) as [[k' rec']|] eqn:Hfind; [done|].
    exfalso. unfold first_match in Hfind.
    assert (Hin : In (k, rec) companies).
    { rewrite Heq. apply in_or_app. right. by left. }
    pose proof (find_none _ _ Hfind _ Hin) as Hnone. cbn [fst] in Hnone.
    unfold company_matches in Hnone. congruence.
  - intros Hno. pose proof (fallback_no_key name Hno) as Hgen.
    split; [exact Hgen|].
    intros w1 st1 w2 st2 H1 H2.
    by rewrite !get_company_info_falls_back.
Qed.

(** [search_people] never raises; it adds its two events and nothing else. *)
Lemma search_people_run (w : World) (query company : value) (st : St) :
  let resp := search_request w query company st in
  search_people w query company st
  = (Return (found_profiles resp),
     emit (EvHttpGet (base_url ++ "/people/search")
             [("search_term", search_term w query company)] resp)
       (emit (EvSearchPeople query company) st)).
Proof.
  unfold search_people, http_get, search_request, found_profiles, parse_profiles,
    search_term.
  unfold_monad. cbn [log emit]. rewrite length_app. cbn [length].
  replace (length (log st) + 1) with (S (length (log st))) by lia.
  destruct (requests_get _ _ _ _) as [response|e]; [|done].
  destruct (status_code response =? 200)%Z; [|done].
  destruct (response_json response) as [data|e]; [|done].
  destruct (has_items data) as [[]|e]; [|done|done].
  destruct (Py.getitem data "items") as [items|e]; [|done].
  destruct (Py.iter items) as [pds|e]; [|done].
  by destruct (traverse profile_of_item pds).
Qed.

(** ** The Search stage *)

Lemma alter_last {A} (f : A -> A) (l : list A) (x : A) :
  alter f (length l) (l ++ [x]) = l ++ [f x].
Proof. induction l as [|a l IH]; [done|]. simpl. f_equal. exact IH. Qed.

Lemma complete_last (w : World) (l : list ResearchStep) (s : ResearchStep)
    (ok : bool) (res : value) (conf : option Q) (st : St) :
  steps st = l ++ [s] ->
  complete w (length l) ok res conf st
  = (Return tt,
     tick (with_steps
             (fun _ => l ++ [ResearchStep_complete ok res conf (clock w (ticks st)) s])
             st)).
Proof.
  intros H. unfold complete, with_steps. by rewrite H, alter_last.
Qed.

Lemma stage_search_run (w : World) (query : string)
    (company : value) (roles : list value) (st : St) :
  let term := match roles with r :: _ => r | [] => VStr query end in
  let org := if Py.truthy company then company else VNone in
  let st1 := snd (_add_step w "Searching for professionals"
                    (Some "Finding relevant professionals based on query criteria.") st) in
  let primary := found_profiles (search_request w term org st1) in
  let st' := snd (stage_search w query company (VList roles) st) in
  fst (search_people w term org st1) = Return primary
  /\ fst (stage_search w query company (VList roles) st) = Return tt
  /\ search_calls (events_since st st')
     = (term, org) :: match primary with
                      | [] => [(VStr query, VNone)]
                      | _ :: _ => []
                      end
  /\ map description (steps_since st st')
     = "Searching for professionals"
       :: match primary with
          | [] => ["Attempting broader search"]
          | _ :: _ => []
          end.
Proof.
  intros term org st1 primary st'.
  split; [by rewrite search_people_run|].
  assert (Hrun : stage_search w query company (VList roles) st
                 = (search_step ← _add_step w "Searching for professionals"
                                    (Some "Finding relevant professionals based on query criteria.");
                    found ← search_people w term org;
                    match found with
                    | _ :: _ =>
                        complete w search_step true
                          (VDict [("profiles_found", Py.of_nat (length found))]) None;;
                        modify (with_profiles found)
                    | [] =>
                        complete w search_step false
                          (VDict [("error", VStr "No matching profiles found")]) None;;
                        fallback_step ← _add_step w "Attempting broader search"
                                          (Some "Initial search returned no results. Trying with broader criteria.");
                        fallback_profiles ← search_people w (VStr query) VNone;
                        match fallback_profiles with
                        | _ :: _ =>
                            complete w fallback_step true
                              (VDict [("profiles_found", Py.of_nat (length fallback_profiles))]) None;;
                            modify (with_profiles fallback_profiles)
                        | [] =>
                            complete w fallback_step false
                              (VDict [("error", VStr "No profiles found in fallback search")]) None
                        end
                    end) st).
  { unfold stage_search, term, org. unfold_monad.
    destruct (_add_step w _ _ st) as [[n|e] s1]; [|done].
    destruct roles as [|r roles]; by destruct (Py.truthy company). }
  subst st'. rewrite Hrun. clear Hrun.
  rewrite bind_run.
  change (_add_step w "Searching for professionals"
            (Some "Finding relevant professionals based on query criteria.") st)
    with (Return (length (steps st)), st1).
  cbv beta iota.
  rewrite bind_run, search_people_run. fold primary. cbv beta iota zeta.
  assert (Hst1 : steps st1 = steps st ++ [ResearchStep_init "Searching for professionals"
            (Some "Finding relevant professionals based on query criteria.") (clock w (ticks st))])
    by done.
  assert (Hlog1 : log st1 = log st) by done.
  clearbody st1 primary.
  destruct primary as [|p ps].
  - rewrite !bind_run.
    erewrite complete_last by (cbn [steps emit]; exact Hst1).
    cbv beta iota. unfold _add_step at 1 2 3. cbv beta iota zeta.
    rewrite !bind_run, !search_people_run. cbv beta iota zeta.
    destruct (found_profiles _) as [|q qs];
      rewrite ?bind_run;
      (erewrite complete_last by (cbn [steps emit tick with_steps]; reflexivity));
      unfold events_since, steps_since;
      cbn [fst snd steps log tick with_steps emit with_profiles modify];
      rewrite Hlog1, <- !app_assoc, !drop_app_length; done.
  - rewrite !bind_run.
    erewrite complete_last by (cbn [steps emit]; exact Hst1).
    unfold events_since, steps_since;
      cbn [fst snd steps log tick with_steps emit with_profiles modify];
      rewrite Hlog1, <- !app_assoc, !drop_app_length; done.
Qed.

(** C3. In the Search stage the primary term is the first role when the
    list of roles is not empty and the raw query otherwise, passed with the
    company when there is one; the broader search is made exactly when the
    primary search returns no profile, once, with the unchanged query and no
    company, under a step of its own; nothing else is searched. *)
Theorem search_stage_single_fallback (w : World) (query : string)
    (company : value) (roles : list value) (st : St) :
  let term := match roles with r :: _ => r | [] => VStr query end in
  let org := if Py.truthy company then company else VNone in
  let st1 := snd (_add_step w "Searching for professionals"
                    (Some "Finding relevant professionals based on query criteria.") st) in
  let primary := found_profiles (search_request w term org st1) in
  let st' := snd (stage_search w query company (VList roles) st) in
  fst (search_people w term org st1) = Return primary
  /\ fst (stage_search w query company (VList roles) st) = Return tt
  /\ search_calls (events_since st st')
     = (term, org) :: match primary with
                      | [] => [(VStr query, VNone)]
                      | _ :: _ => []
                      end
  /\ map description (steps_since st st')
     = "Searching for professionals"
       :: match primary with
          | [] => ["Attempting broader search"]
          | _ :: _ => []
          end.
Proof. apply stage_search_run. Qed.

(** ** Invariants of a run *)

Lemma spec_ret {A} (I : St -> Prop) (a : A) (Q : A -> Prop) :
  Q a -> inv_spec I (ret a) Q.
Proof. intros Ha st Hst. split; [done|]. by intros ? [= <-]. Qed.

Lemma spec_bind {A B} (I : St -> Prop) (m : M A) (k : A -> M B)
    (Q : A -> Prop) (R : B -> Prop) :
  inv_spec I m Q -> (forall a, Q a -> inv_spec I (k a) R) ->
  inv_spec I (m ≫= k) R.
Proof.
  intros Hm Hk st Hst. rewrite bind_run.
  destruct (Hm st Hst) as [HI HQ]. destruct (m st) as [[a|e] st1]; simpl in *.
  - by apply Hk; [apply HQ|].
  - done.
Qed.

Lemma spec_lift {A} (I : St -> Prop) (o : outcome A) (Q : A -> Prop) :
  (forall a, o = Return a -> Q a) -> inv_spec I (lift o) Q.
Proof. intros Ho st Hst. by split. Qed.

Lemma spec_try_except {A} (I : St -> Prop) (m : M A) (h : exn -> M A)
    (Q : A -> Prop) :
  inv_spec I m Q -> (forall e, inv_spec I (h e) Q) ->
  inv_spec I (try_except m h) Q.
Proof.
  intros Hm Hh st Hst. unfold try_except.
  destruct (Hm st Hst) as [HI HQ]. destruct (m st) as [[a|e] st1]; simpl in *.
  - done.
  - by apply Hh.
Qed.

Lemma spec_get_state {A} (I : St -> Prop) (f : St -> A) (Q : A -> Prop) :
  (forall st, I st -> Q (f st)) -> inv_spec I (get_state f) Q.
Proof. intros Hf st Hst. split; [done|]. intros ? [= <-]. by apply Hf. Qed.

Lemma spec_modify (I : St -> Prop) (f : St -> St) :
  (forall st, I st -> I (f st)) -> inv_spec I (modify f) any.
Proof. intros Hf st Hst. split; [by apply Hf | done]. Qed.

Lemma spec_weaken {A} (I : St -> Prop) (m : M A) (Q Q' : A -> Prop) :
  inv_spec I m Q -> (forall a, Q a -> Q' a) -> inv_spec I m Q'.
Proof. intros Hm HQ st Hst. destruct (Hm st Hst). split; auto. Qed.

Section RunInvariant.

Context (w : World).

(** [p] says which events are allowed; [base] is the log when the run
    began. *)
Context (p : Event -> bool) (base : list Event).

Hypothesis p_http : forall url params resp, p (EvHttpGet url params resp) = true.
Hypothesis p_search : forall q c, p (EvSearchPeople q c) = true.
Hypothesis p_chat : forall req resp,
    is_insights_request req = false -> p (EvChat req resp) = true.

Lemma inv_emit (ev : Event) (st : St) :
  p ev = true -> run_inv p base st -> run_inv p base (emit ev st).
Proof.
  intros Hev [H1 H2 H3 (evs & Hlog & Hp)]. split; try done.
  exists (evs ++ [ev]). cbn [log emit]. rewrite Hlog, app_assoc. split; [done|].
  rewrite forallb_app, Hp. simpl. by rewrite Hev.
Qed.

Lemma spec_add_step (d : string) (r : option string) :
  inv_spec (run_inv p base) (_add_step w d r) any.
Proof. intros st [? ? ? ?]. by split. Qed.

Lemma spec_complete (h : nat) (ok : bool) (res : value) (c : option Q) :
  inv_spec (run_inv p base) (complete w h ok res c) any.
Proof. intros st [? ? ? ?]. by split. Qed.

Lemma spec_chat (req : ChatRequest) :
  (forall resp, p (EvChat req resp) = true) ->
  inv_spec (run_inv p base) (chat w req) any.
Proof. intros Hreq st Hst. split; [|done]. by apply inv_emit. Qed.

Lemma spec_analyze_query (query : string) :
  inv_spec (run_inv p base) (_analyze_query w query) any.
Proof.
  intros st Hst. rewrite analyze_query_run. split; [|done].
  apply inv_emit; [|done]. by apply p_chat.
Qed.

Lemma spec_get_company_info (name : value) :
  inv_spec (run_inv p base) (get_company_info w name) is_dict.
Proof.
  intros st Hst. rewrite get_company_info_run. cbn [fst snd].
  split; [by apply inv_emit|].
  intros v Hv.
  assert (Hfb : forall v, _get_fallback_company_info name = Return v -> is_dict v).
  { destruct name; try done. intros v'.
    destruct (fallback_is_record s) as (rec & -> & (d & -> & _)).
    by intros [= <-]. }
  unfold_monad.
  destruct (company_request w name st) as [response|e]; [|by apply Hfb].
  destruct (status_code response =? 200)%Z.
  2: { destruct (_get_fallback_company_info name); [|done].
       apply Hfb. congruence. }
  destruct (response_json response) as [data|e]; [|by apply Hfb].
  destruct (has_items data) as [[]|e]; [| |by apply Hfb].
  - destruct (Py.getitem data "items") as [items|e]; [|by apply Hfb].
    destruct (Py.getitem0 items) as [item|e]; [|by apply Hfb].
    destruct (company_of_item item name) as [v'|e] eqn:Hitem; [|by apply Hfb].
    injection Hv as <-.
    by destruct (company_of_item_is_record _ _ _ Hitem) as (d & -> & _).
  - destruct (_get_fallback_company_info name); [|done].
    apply Hfb. congruence.
Qed.

Lemma profile_of_item_is_dict (item v : value) :
  profile_of_item item = Return v -> is_dict v.
Proof.
  unfold profile_of_item. destruct item; try done. simpl. by intros [= <-].
Qed.

Lemma traverse_profiles_dicts (items found : list value) :
  traverse profile_of_item items = Return found -> Forall is_dict found.
Proof.
  revert found. induction items as [|item items IH]; intros found; simpl.
  - by intros [= <-].
  - unfold_monad.
    destruct (profile_of_item item) as [v|e] eqn:Hv; [|done].
    destruct (traverse profile_of_item items) as [vs|e]; [|done].
    intros [= <-]. constructor; [by eapply profile_of_item_is_dict | by apply IH].
Qed.

Lemma found_profiles_dicts (resp : outcome HttpResponse) :
  Forall is_dict (found_profiles resp).
Proof.
  unfold found_profiles, parse_profiles. unfold_monad.
  destruct resp as [response|e]; [|done].
  destruct (status_code response =? 200)%Z; [|done].
  destruct (response_json response) as [data|e]; [|done].
  destruct (has_items data) as [[]|e]; [|done|done].
  destruct (Py.getitem data "items") as [items|e]; [|done].
  destruct (Py.iter items) as [pds|e]; [|done].
  destruct (traverse profile_of_item pds) as [found|e] eqn:Hf; [|done].
  by eapply traverse_profiles_dicts.
Qed.

Lemma spec_search_people (query company : value) :
  inv_spec (run_inv p base) (search_people w query company) (Forall is_dict).
Proof.
  intros st Hst. rewrite search_people_run. cbn [fst snd]. split.
  - apply inv_emit; [apply p_http|]. by apply inv_emit.
  - intros found [= <-]. apply found_profiles_dicts.
Qed.

(** *** The two generation helpers, step by step *)

Lemma generate_insights_run (ps : list value) (company roles : value) (st : St) :
  _generate_insights w ps company roles st
  = match format_profiles w 1 ps with
    | Raise e => (Raise e, st)
    | Return texts =>
        match roles_context_of roles with
        | Raise e => (Raise e, st)
        | Return roles_context =>
            let req := insights_request
                         (insights_prompt (PyStr.join PyStr.nl texts)
                            (company_context_of w company) roles_context) in
            let resp := chat_completions_create w (length (log st)) req in
            (Return (insights_reply w resp), emit (EvChat req resp) st)
        end
    end.
Proof.
  unfold _generate_insights, roles_context_of, company_context_of, insights_reply, chat.
  unfold_monad.
  destruct (format_profiles w 1 ps) as [texts|e]; [|done].
  destruct (Py.truthy roles).
  - destruct (Py.join ", " roles) as [joined|e]; [|done].
    cbv zeta. destruct (chat_completions_create _ _ _) as [content|e]; [|done].
    destruct (loads w content) as [data|e]; [|done].
    by destruct (extract_insights data).
  - cbv zeta. destruct (chat_completions_create _ _ _) as [content|e]; [|done].
    destruct (loads w content) as [data|e]; [|done].
    by destruct (extract_insights data).
Qed.

Lemma create_summary_run (query : string) (st : St) :
  _create_summary w query st
  = match format_profiles w 1 (take 5 (profiles st)) with
    | Raise e => (Raise e, st)
    | Return texts =>
        match company_text_of w (company_info st) with
        | Raise e => (Raise e, st)
        | Return company_text =>
            match Py.iter (insights st) with
            | Raise e => (Raise e, st)
            | Return items =>
                let req := summary_request
                             (summary_prompt query company_text texts
                                (insights_text_of w items)) in
                let resp := chat_completions_create w (length (log st)) req in
                (Return (summary_reply resp), emit (EvChat req resp) st)
            end
        end
    end.
Proof.
  unfold _create_summary, insights_text_of, summary_reply, chat.
  unfold_monad.
  destruct (format_profiles w 1 (take 5 (profiles st))) as [texts|e]; [|done].
  destruct (company_text_of w (company_info st)) as [ct|e]; [|done].
  destruct (Py.iter (insights st)) as [items|e]; [|done].
  cbv zeta. by destruct (chat_completions_create _ _ _).
Qed.

(** *** Every stage keeps the invariant *)

Lemma spec_stage_init : inv_spec (run_inv p base) (stage_init w) any.
Proof.
  unfold stage_init.
  eapply spec_bind; [apply spec_add_step|]. intros; apply spec_complete.
Qed.

Lemma spec_stage_analyze (query : string) :
  inv_spec (run_inv p base) (stage_analyze w query) any.
Proof.
  unfold stage_analyze.
  eapply spec_bind; [apply spec_add_step|]; intros.
  eapply spec_bind; [apply spec_analyze_query|]; intros.
  eapply spec_bind; [by apply (spec_lift _ _ any)|]; intros.
  eapply spec_bind; [by apply (spec_lift _ _ any)|]; intros.
  eapply spec_bind; [by apply (spec_lift _ _ any)|]; intros.
  eapply spec_bind; [apply spec_complete|]; intros.
  by apply spec_ret.
Qed.

Lemma spec_stage_company (company_name : value) :
  inv_spec (run_inv p base) (stage_company w company_name) any.
Proof.
  unfold stage_company. destruct (Py.truthy company_name); [|by apply spec_ret].
  eapply spec_bind; [apply spec_add_step|]; intros.
  eapply spec_bind; [apply spec_get_company_info|]; intros info Hinfo.
  destruct (Py.truthy info); [|apply spec_complete].
  eapply spec_bind; [apply spec_complete|]; intros.
  apply spec_modify. intros st [? ? ? ?]. split; try done. by intros _.
Qed.

Lemma spec_stage_search (query : string) (company_name roles : value) :
  inv_spec (run_inv p base) (stage_search w query company_name roles) any.
Proof.
  unfold stage_search.
  eapply spec_bind; [apply spec_add_step|]; intros.
  eapply spec_bind; [by apply (spec_lift _ _ any)|]; intros.
  eapply spec_bind.
  { instantiate (1 := Forall is_dict).
    destruct (Py.truthy company_name); apply spec_search_people. }
  intros found Hfound. destruct found as [|f fs].
  - eapply spec_bind; [apply spec_complete|]; intros.
    eapply spec_bind; [apply spec_add_step|]; intros.
    eapply spec_bind; [apply spec_search_people|].
    intros found Hfound'. destruct found as [|f fs]; [apply spec_complete|].
    eapply spec_bind; [apply spec_complete|]; intros.
    apply spec_modify. intros st [? ? ? ?]. by split.
  - eapply spec_bind; [apply spec_complete|]; intros.
    apply spec_modify. intros st [? ? ? ?]. by split.
Qed.

Lemma len_iterable (v : value) (n : nat) : Py.len v = Return n -> iterable v.
Proof. by destruct v. Qed.

Lemma spec_generate_insights (ps : list value) (company roles : value) :
  (forall req resp, p (EvChat req resp) = true) ->
  inv_spec (run_inv p base) (_generate_insights w ps company roles) any.
Proof.
  intros Hall st Hst. rewrite generate_insights_run.
  destruct (format_profiles w 1 ps); [|done].
  destruct (roles_context_of roles); [|done].
  split; [|done]. by apply inv_emit.
Qed.

Lemma spec_stage_insights (company_name roles : value) :
  (forall req resp, p (EvChat req resp) = true) ->
  inv_spec (run_inv p base) (stage_insights w company_name roles) any.
Proof.
  intros Hall. unfold stage_insights.
  eapply spec_bind; [by apply (spec_get_state _ _ any)|]; intros ps _.
  destruct ps as [|f fs]; [by apply spec_ret|].
  eapply spec_bind; [apply spec_add_step|]; intros.
  eapply spec_bind; [by apply spec_generate_insights|]; intros found _.
  eapply spec_bind.
  { apply (spec_lift _ _ (fun _ => iterable found)). intros n. apply len_iterable. }
  intros n Hn.
  eapply spec_bind; [apply spec_complete|]; intros.
  apply spec_modify. intros st [? ? ? ?]. by split.
Qed.

Lemma spec_create_summary (query : string) :
  inv_spec (run_inv p base) (_create_summary w query) any.
Proof.
  intros st Hst. rewrite create_summary_run.
  destruct (format_profiles w 1 _); [|done].
  destruct (company_text_of w _); [|done].
  destruct (Py.iter _); [|done].
  split; [|done]. apply inv_emit; [|done]. by apply p_chat.
Qed.

Lemma spec_stage_summary (query : string) :
  inv_spec (run_inv p base) (stage_summary w query) any.
Proof.
  unfold stage_summary.
  eapply spec_bind; [apply spec_add_step|]; intros.
  eapply spec_bind; [apply spec_create_summary|]; intros.
  eapply spec_bind; [apply spec_complete|]; intros.
  apply spec_modify. intros st [? ? ? ?]. by split.
Qed.

Lemma spec_research_handler (query : string) (e : exn) :
  inv_spec (run_inv p base) (research_handler w query e) results_ok.
Proof.
  unfold research_handler.
  eapply spec_bind; [apply spec_add_step|]; intros.
  eapply spec_bind; [apply spec_complete|]; intros.
  apply spec_get_state. intros st _. by split.
Qed.

Lemma spec_research (query : string) :
  (forall req resp, p (EvChat req resp) = true) ->
  inv_spec (run_inv p base) (research w query) results_ok.
Proof.
  intros Hall. unfold research.
  apply spec_try_except; [|apply spec_research_handler].
  unfold research_body.
  eapply spec_bind; [apply spec_stage_init|]; intros.
  eapply spec_bind; [apply spec_stage_analyze|]; intros [company_name roles] _.
  eapply spec_bind; [apply spec_stage_company|]; intros.
  eapply spec_bind; [apply spec_stage_search|]; intros.
  eapply spec_bind; [by apply spec_stage_insights|]; intros.
  eapply spec_bind; [apply spec_stage_summary|]; intros.
  apply spec_get_state. intros st [? ? ? ?]. by split.
Qed.

End RunInvariant.

(** ** The top-level handler of a run *)

Lemma research_run (w : World) (query : string) (st : St) :
  research w query st
  = match research_body w query st with
    | (Return res, st1) => (Return res, st1)
    | (Raise e, st1) => research_handler w query e st1
    end.
Proof. reflexivity. Qed.

Lemma research_handler_run (w : World) (query : string) (e : exn) (st1 : St) :
  let error_step :=
    ResearchStep_complete false (VDict [("error_message", VStr (exn_str e))]) None
      (clock w (S (ticks st1)))
      (ResearchStep_init "Error in research process"
         (Some ("An error occurred: " ++ exn_str e)%string) (clock w (ticks st1))) in
  let st2 := tick (tick (with_steps (fun l => l ++ [error_step]) st1)) in
  research_handler w query e st1 = (Return (error_results query e st2), st2).
Proof.
  cbv zeta. unfold research_handler. rewrite bind_run.
  unfold _add_step. cbv beta iota zeta. rewrite bind_run.
  erewrite complete_last by (cbn [steps tick with_steps]; reflexivity).
  reflexivity.
Qed.

(** C1, as the code has it. When a stage raises an exception that no local
    fallback absorbs, [research] catches it once: it records one more step,
    failed, whose result carries the message of the exception, and returns
    the query, every step recorded so far followed by that step, and the
    message under the top-level error marker. The handler calls no service
    again (the run is not retried). The dictionary returned has no profiles,
    insights, company or summary entry: what the run gathered before the
    failure stays on the agent and is not returned. *)
Theorem research_failure_is_reported (w : World) (query : string)
    (st st1 : St) (e : exn) :
  research_body w query st = (Raise e, st1) ->
  exists error_step st2,
    research w query st
    = (Return {| res_query := query;
                 res_steps := map to_dict (steps st1) ++ [to_dict error_step];
                 res_company := None;
                 res_profiles := None;
                 res_insights := None;
                 res_summary := None;
                 res_error := Some (exn_str e) |}, st2)
    /\ description error_step = "Error in research process"
    /\ status error_step = failed
    /\ result error_step = VDict [("error_message", VStr (exn_str e))]
    /\ steps st2 = steps st1 ++ [error_step]
    /\ log st2 = log st1
    /\ profiles st2 = profiles st1
    /\ insights st2 = insights st1.
Proof.
  intros Hbody. rewrite research_run, Hbody, research_handler_run. cbv zeta.
  eexists _, _. split.
  - unfold error_results. cbn [steps tick with_steps]. by rewrite map_app.
  - by repeat split.
Qed.

Lemma research_returns (w : World) (query : string) (st : St) :
  exists res, fst (research w query st) = Return res.
Proof.
  rewrite research_run. destruct (research_body w query st) as [[res|e] st1].
  - by exists res.
  - rewrite research_handler_run. by eexists.
Qed.

Lemma research_linkedin_run (w : World) (query : string) (st : St) :
  research_linkedin w query st = research w query (fresh_agent st).
Proof. reflexivity. Qed.

Lemma research_linkedin_returns (w : World) (query : string) (st : St) :
  exists res st',
    research_linkedin w query st = (Return res, st') /\ results_ok res.
Proof.
  rewrite research_linkedin_run.
  destruct (research_returns w query (fresh_agent st)) as [res Hres].
  destruct (research w query (fresh_agent st)) as [r st'] eqn:Hrun.
  simpl in Hres; subst r. exists res, st'. split; [done|].
  assert (Hinv : run_inv (fun _ => true) (log st) (fresh_agent st)).
  { split; try done. exists []. by rewrite app_nil_r. }
  destruct (spec_research w (fun _ => true) (log st) ltac:(done) ltac:(done)
              ltac:(done) query ltac:(done) _ Hinv) as [_ Hok].
  apply Hok. by rewrite Hrun.
Qed.

(** ** TaskRunner *)

Lemma add_rows_nil (d : Db) : add_rows [] [] [] d = d.
Proof. destruct d. unfold add_rows; simpl. by rewrite !app_nil_r. Qed.

Lemma for_each_steps (w : World) (id : Z) (sds : list StepDict) (sys : Sys) :
  for_each (fun step_data => on_db (add_step_row (step_row_of w id step_data))) sds sys
  = (Return tt, with_db (add_rows (map (step_row_of w id) sds) [] [] (db sys)) sys).
Proof.
  revert sys. induction sds as [|sd sds IH]; intros sys.
  - simpl. rewrite add_rows_nil. by destruct sys.
  - cbn [for_each]. unfold bind at 1. unfold on_db at 1, modify. rewrite IH.
    unfold with_db, add_rows, add_step_row. cbn. by rewrite <- !app_assoc, !app_nil_r.
Qed.

Lemma for_each_insights (id : Z) (items : list value) (sys : Sys) :
  for_each (fun insight => on_db (add_insight_row (insight_row_of id insight))) items sys
  = (Return tt, with_db (add_rows [] [] (map (insight_row_of id) items) (db sys)) sys).
Proof.
  revert sys. induction items as [|it items IH]; intros sys.
  - simpl. rewrite add_rows_nil. by destruct sys.
  - cbn [for_each]. unfold bind at 1. unfold on_db at 1, modify. rewrite IH.
    unfold with_db, add_rows, add_insight_row. cbn. by rewrite <- !app_assoc, !app_nil_r.
Qed.

Lemma profile_row_of_dict (w : World) (id : Z) (profile_data : value) :
  is_dict profile_data -> exists row, profile_row_of w id profile_data = Return row.
Proof.
  destruct profile_data as [| | | | | |d]; try done. intros _.
  unfold profile_row_of. unfold_monad. cbn [Py.get Py.contains Py.getitem].
  destruct (Py.lookup "expertise" d); by eexists.
Qed.

Lemma profile_rows_exist (w : World) (id : Z) (ps : list value) :
  Forall is_dict ps -> exists rows, traverse (profile_row_of w id) ps = Return rows.
Proof.
  induction 1 as [|pd ps Hpd _ (rows & IH)]; [by exists []|].
  destruct (profile_row_of_dict w id pd Hpd) as [row Hrow].
  exists (row :: rows). cbn [traverse]. unfold_monad. by rewrite Hrow, IH.
Qed.

Lemma for_each_profiles (w : World) (id : Z) (ps : list value)
    (rows : list LinkedInProfile) (sys : Sys) :
  traverse (profile_row_of w id) ps = Return rows ->
  for_each (fun profile_data =>
              row ← lift (profile_row_of w id profile_data);
              on_db (add_profile_row row)) ps sys
  = (Return tt, with_db (add_rows [] rows [] (db sys)) sys).
Proof.
  revert rows sys. induction ps as [|pd ps IH]; intros rows sys.
  - intros [= <-]. simpl. rewrite add_rows_nil. by destruct sys.
  - cbn [traverse]. unfold_monad.
    destruct (profile_row_of w id pd) as [row|e] eqn:Hrow; [|done].
    destruct (traverse (profile_row_of w id) ps) as [rows'|e] eqn:Hrows; [|done].
    intros [= <-]. cbn [for_each]. unfold bind, lift, on_db, modify in *.
    rewrite Hrow. rewrite (IH rows') by done.
    unfold with_db, add_rows, add_profile_row. cbn. by rewrite <- !app_assoc, !app_nil_r.
Qed.

Lemma iterable_iter (v : value) : iterable v -> exists items, Py.iter v = Return items.
Proof. destruct v; try done; by eexists. Qed.

Lemma save_results_run (w : World) (id : Z) (res : Results) (sys : Sys) :
  results_ok res ->
  exists rows items,
    traverse (profile_row_of w id) (default [] (res_profiles res)) = Return rows
    /\ Py.iter (default (VList []) (res_insights res)) = Return items
    /\ save_results w id res sys
       = (Return tt,
          with_db (add_rows (map (step_row_of w id) (res_steps res)) rows
                     (map (insight_row_of id) items) (db sys)) sys).
Proof.
  intros [Hps Hins].
  destruct (profile_rows_exist w id _ Hps) as [rows Hrows].
  destruct (iterable_iter _ Hins) as [items Hitems].
  exists rows, items. split; [done|]. split; [done|].
  unfold save_results. rewrite bind_run, for_each_steps. cbv beta iota.
  rewrite bind_run, (for_each_profiles w id _ rows) by done. cbv beta iota.
  rewrite bind_run. unfold lift at 1. rewrite Hitems. cbv beta iota.
  rewrite for_each_insights.
  unfold with_db, add_rows. cbn. by rewrite !app_nil_r.
Qed.

Lemma run_research_task_run (w : World) (id : Z) (rq : ResearchQuery)
    (sys : Sys) (res : Results) (st' : St) :
  queries (db sys) !! id = Some rq ->
  research_linkedin w (rq_query rq) (agent sys) = (Return res, st') ->
  results_ok res ->
  exists rows items,
    traverse (profile_row_of w id) (default [] (res_profiles res)) = Return rows
    /\ Py.iter (default (VList []) (res_insights res)) = Return items
    /\ run_research_task w id sys
       = (Return tt,
          match res_error res with
          | Some message =>
              {| db := update_query id (mark_failed message)
                         (update_query id mark_in_progress (db sys));
                 agent := st' |}
          | None =>
              {| db := add_rows (map (step_row_of w id) (res_steps res)) rows
                         (map (insight_row_of id) items)
                         (update_query id
                            (mark_completed (default (VStr "") (res_summary res))
                               (clock w (ticks st')))
                            (update_query id mark_in_progress (db sys)));
                 agent := tick st' |}
          end).
Proof.
  intros Hq Hrun Hok.
  set (sys2 := {| db := update_query id
                          (mark_completed (default (VStr "") (res_summary res))
                             (clock w (ticks st')))
                          (update_query id mark_in_progress (db sys));
                  agent := tick st' |}).
  destruct (save_results_run w id res sys2 Hok) as (rows & items & Hrows & Hitems & Hsave).
  exists rows, items. split; [done|]. split; [done|].
  unfold run_research_task, try_except. rewrite bind_run.
  unfold get_state at 1. rewrite Hq. cbv beta iota.
  rewrite bind_run. unfold on_db at 1, modify. cbv beta iota.
  rewrite bind_run. unfold on_agent at 1. cbn [agent db]. rewrite Hrun. cbv beta iota.
  destruct (res_error res) as [message|]; [done|].
  rewrite bind_run. unfold on_agent at 1, now. cbn [agent db]. cbv beta iota.
  rewrite bind_run. unfold on_db at 1, modify. cbv beta iota.
  cbn [db agent]. fold sys2. by rewrite Hsave.
Qed.

(** ** The summary stage *)

Lemma stage_summary_run (w : World) (query : string) (st : St) :
  let st1 := snd (_add_step w "Creating research summary"
                    (Some "Synthesizing findings into a comprehensive research summary.") st) in
  stage_summary w query st
  = match _create_summary w query st1 with
    | (Return text, st2) =>
        (Return tt,
         with_summary text
           (snd (complete w (length (steps st)) true VNone None st2)))
    | (Raise e, st2) => (Raise e, st2)
    end.
Proof.
  cbv zeta. unfold stage_summary. rewrite bind_run.
  unfold _add_step at 1. cbv beta iota zeta. rewrite bind_run.
  destruct (_create_summary w query _) as [[text|e] st2]; [|done].
  rewrite bind_run. by unfold complete, modify.
Qed.

(** What a summary stage that returns has done. *)
Lemma stage_summary_returned (w : World) (query : string) (st st' : St) :
  stage_summary w query st = (Return tt, st') ->
  exists texts company_text items,
    format_profiles w 1 (take 5 (profiles st)) = Return texts
    /\ company_text_of w (company_info st) = Return company_text
    /\ Py.iter (insights st) = Return items
    /\ let req := summary_request
                    (summary_prompt query company_text texts (insights_text_of w items)) in
       let resp := chat_completions_create w (length (log st)) req in
       log st' = log st ++ [EvChat req resp]
       /\ summary st' = summary_reply resp
       /\ profiles st' = profiles st
       /\ insights st' = insights st
       /\ company_info st' = company_info st
       /\ exists s, steps st' = steps st ++ [s]
                    /\ description s = "Creating research summary"
                    /\ status s = completed.
Proof.
  rewrite stage_summary_run. cbv zeta. rewrite create_summary_run.
  unfold _add_step. cbn [snd profiles company_info insights log tick with_steps].
  destruct (format_profiles w 1 _) as [texts|e]; [|done].
  destruct (company_text_of w _) as [ct|e]; [|done].
  destruct (Py.iter _) as [items|e]; [|done].
  cbv zeta. intros [= <-]. exists texts, ct, items.
  repeat (split; [done|]).
  cbn [steps with_summary tick with_steps emit]. rewrite alter_last. by eexists.
Qed.

Lemma stage_summary_returns (w : World) (query : string) (st : St) :
  (exists texts, format_profiles w 1 (take 5 (profiles st)) = Return texts) ->
  company_ok (company_info st) ->
  iterable (insights st) ->
  exists st', stage_summary w query st = (Return tt, st').
Proof.
  intros [texts Htexts] Hco Hins.
  rewrite stage_summary_run. cbv zeta. rewrite create_summary_run.
  unfold _add_step. cbn [snd profiles company_info insights log tick with_steps].
  rewrite Htexts.
  assert (exists ct, company_text_of w (company_info st) = Return ct) as [ct ->].
  { unfold company_text_of. unfold company_ok in Hco.
    destruct (Py.truthy (company_info st)); [|by eexists].
    destruct (company_info st); try (by exfalso; apply Hco). by eexists. }
  destruct (iterable_iter _ Hins) as [items ->].
  cbv zeta. by eexists.
Qed.

(** The placeholders of the summary prompt. *)
Lemma summary_prompt_no_profiles (query company_text insights_text : string) :
  PyStr.contains no_profiles_section
    (summary_prompt query company_text [] insights_text) = true
  /\ PyStr.contains "No profiles found"
       (summary_prompt query company_text [] insights_text) = true.
Proof.
  unfold summary_prompt.
  split; do 9 apply contains_app_r.
  - apply contains_here.
  - by apply contains_app_l.
Qed.

Lemma summary_prompt_no_insights (query company_text : string) (texts : list string) :
  PyStr.contains no_insights_section
    (summary_prompt query company_text texts "") = true
  /\ PyStr.contains "No insights available"
       (summary_prompt query company_text texts "") = true.
Proof.
  unfold summary_prompt. cbn [String.eqb].
  split; do 10 apply contains_app_r.
  - apply contains_here.
  - by apply contains_app_l.
Qed.

(** ** The stages before the insights *)

Lemma research_body_split (w : World) (query : string) (st : St) :
  research_body w query st
  = ('(company_name, roles) ← pre_insight w query;
     stage_insights w company_name roles;;
     stage_summary w query;;
     get_state (success_results query)) st.
Proof.
  unfold research_body, pre_insight. rewrite !bind_run.
  destruct (stage_init w st) as [[[]|e] s1]; [|done].
  rewrite !bind_run.
  destruct (stage_analyze w query s1) as [[[c r]|e] s2]; [|done].
  rewrite !bind_run.
  destruct (stage_company w c s2) as [[[]|e] s3]; [|done].
  rewrite !bind_run.
  by destruct (stage_search w query c r s3) as [[[]|e] s4].
Qed.

Section PreInsight.

Context (w : World) (p : Event -> bool) (base : list Event).
Hypothesis p_http : forall url params resp, p (EvHttpGet url params resp) = true.
Hypothesis p_search : forall q c, p (EvSearchPeople q c) = true.
Hypothesis p_chat : forall req resp,
    is_insights_request req = false -> p (EvChat req resp) = true.

Lemma spec_pre_insight (query : string) :
  inv_spec (run_inv p base) (pre_insight w query) any.
Proof.
  unfold pre_insight.
  eapply spec_bind; [apply spec_stage_init|]; intros.
  eapply spec_bind; [by apply spec_stage_analyze|]; intros [c r] _.
  eapply spec_bind; [by apply spec_stage_company|]; intros.
  eapply spec_bind; [by apply spec_stage_search|]; intros.
  by apply spec_ret.
Qed.

End PreInsight.

Lemma stage_init_run (w : World) (st : St) :
  exists st1, stage_init w st = (Return tt, st1) /\ log st1 = log st.
Proof.
  unfold stage_init. rewrite bind_run. unfold _add_step, complete.
  cbv beta iota zeta. by eexists.
Qed.

Lemma stage_analyze_fallback (w : World) (query : string) (st : St) :
  chat_failed w (chat_completions_create w (length (log st)) (analysis_request query)) = true ->
  exists st1, stage_analyze w query st = (Return (VNone, VList [VStr query]), st1).
Proof.
  intros H. unfold stage_analyze. rewrite bind_run.
  unfold _add_step at 1. cbv beta iota zeta.
  rewrite bind_run, analyze_query_run. cbv zeta. cbn [log tick with_steps].
  unfold chat_failed in H.
  assert (Hbasic : forall s,
    exists st1,
      (lift (Py.get (basic_analysis query) "company" VNone)
       ≫= λ company_name,
         lift (Py.get (basic_analysis query) "roles" (VList []))
         ≫= λ roles,
           lift (Py.get (basic_analysis query) "technologies" (VList []))
           ≫= λ technologies,
             complete w (length (steps st)) true
               (VDict [("company", company_name); ("roles", roles);
                       ("technologies", technologies)]) None
             ≫= λ _, ret (company_name, roles)) s
      = (Return (VNone, VList [VStr query]), st1)).
  { intros s. by eexists. }
  destruct (chat_completions_create _ _ _) as [content|e].
  - destruct (loads w content); [done|]. cbv beta iota. apply Hbasic.
  - cbv beta iota. apply Hbasic.
Qed.

Lemma pre_insight_fallback (w : World) (query : string) (st : St) :
  chat_failed w (chat_completions_create w (length (log st)) (analysis_request query)) = true ->
  exists st4, pre_insight w query st = (Return (VNone, VList [VStr query]), st4).
Proof.
  intros H.
  destruct (stage_init_run w st) as (s1 & E1 & Hlog). rewrite <- Hlog in H.
  destruct (stage_analyze_fallback w query s1 H) as [s2 E2].
  pose proof (stage_search_run w query VNone [VStr query] s2) as (_ & Hret & _).
  destruct (stage_search w query VNone (VList [VStr query]) s2) as [r s4] eqn:E4.
  simpl in Hret; subst r. exists s4.
  unfold pre_insight. rewrite bind_run, E1. cbv beta iota.
  rewrite bind_run, E2. cbv beta iota.
  rewrite bind_run. unfold stage_company at 1. cbn [Py.truthy].
  unfold ret at 1. cbv beta iota. by rewrite bind_run, E4.
Qed.

(** Neither of the last two stages touches the profiles. *)
Lemma stage_insights_profiles (w : World) (c r : value) (st : St) :
  profiles (snd (stage_insights w c r st)) = profiles st.
Proof.
  unfold stage_insights. rewrite bind_run. unfold get_state at 1.
  destruct (profiles st) as [|f fs] eqn:Hps; [by rewrite <- Hps|].
  rewrite bind_run. unfold _add_step at 1. cbv beta iota zeta.
  rewrite bind_run, generate_insights_run.
  destruct (format_profiles w 1 _) as [texts|e]; [|by rewrite <- Hps].
  destruct (roles_context_of r) as [rc|e]; [|by rewrite <- Hps].
  cbv beta iota zeta. rewrite bind_run. unfold lift at 1.
  destruct (Py.len _) as [n|e]; by rewrite <- Hps.
Qed.

Lemma stage_summary_profiles (w : World) (query : string) (st : St) :
  profiles (snd (stage_summary w query st)) = profiles st.
Proof.
  rewrite stage_summary_run. cbv zeta. rewrite create_summary_run.
  unfold _add_step. cbn [snd profiles company_info insights log tick with_steps].
  destruct (format_profiles w 1 _) as [texts|e]; [|done].
  destruct (company_text_of w _) as [ct|e]; [|done].
  by destruct (Py.iter _) as [items|e].
Qed.

(** ** Runs that go through *)

Lemma research_success (w : World) (query : string) (st : St)
    (res : Results) (st' : St) :
  research_linkedin w query st = (Return res, st') ->
  res_error res = None ->
  res = success_results query st'
  /\ exists c r s4 s5,
      pre_insight w query (fresh_agent st) = (Return (c, r), s4)
      /\ stage_insights w c r s4 = (Return tt, s5)
      /\ stage_summary w query s5 = (Return tt, st').
Proof.
  rewrite research_linkedin_run, research_run.
  destruct (research_body w query (fresh_agent st)) as [[res'|e] s] eqn:Hbody.
  2: { rewrite research_handler_run. by intros [= <- <-]. }
  intros [= -> ->] _.
  rewrite research_body_split in Hbody.
  apply bind_return in Hbody as ([c r] & s4 & Hpre & Hbody).
  apply bind_return in Hbody as ([] & s5 & Hins & Hbody).
  apply bind_return in Hbody as ([] & s6 & Hsum & Hbody).
  unfold get_state in Hbody. injection Hbody as <- <-.
  split; [done|]. by exists c, r, s4, s5.
Qed.

(** A run without an error marker went through the summary stage: its last
    event is the summary request, whose prompt is made of what the agent
    holds at the end. *)
Lemma research_success_summary (w : World) (query : string) (st : St)
    (res : Results) (st' : St) :
  research_linkedin w query st = (Return res, st') ->
  res_error res = None ->
  exists texts company_text items resp,
    format_profiles w 1 (take 5 (profiles st')) = Return texts
    /\ company_text_of w (company_info st') = Return company_text
    /\ Py.iter (insights st') = Return items
    /\ last (log st')
       = Some (EvChat (summary_request
                         (summary_prompt query company_text texts
                            (insights_text_of w items))) resp)
    /\ res_summary res = Some (summary_reply resp)
    /\ exists earlier s,
        res_steps res = earlier ++ [s]
        /\ sd_description s = "Creating research summary"
        /\ sd_status s = completed.
Proof.
  intros Hrun Herr.
  destruct (research_success _ _ _ _ _ Hrun Herr) as (-> & c & r & s4 & s5 & _ & _ & Hsum).
  apply stage_summary_returned in Hsum
    as (texts & ct & items & Htexts & Hct & Hitems & Hlog & Hsummary & Hps & Hins & Hco
        & s & Hsteps & Hd & Hs).
  exists texts, ct, items. eexists.
  rewrite Hps, Hins, Hco. repeat (split; [done|]).
  split; [by rewrite Hlog, last_snoc|].
  split; [by cbn [res_summary success_results]; rewrite Hsummary|].
  exists (map to_dict (steps s5)), (to_dict s).
  cbn [res_steps success_results]. by rewrite Hsteps, map_app.
Qed.

Lemma format_no_profiles (w : World) : format_profiles w 1 (take 5 []) = Return [].
Proof. reflexivity. Qed.

(** When the analysis falls back and the searches find nobody, nothing can
    raise any more. *)
Lemma fallback_run_without_profiles (w : World) (query : string) (st : St) :
  chat_failed w (chat_completions_create w (length (log st)) (analysis_request query)) = true ->
  profiles (snd (research_linkedin w query st)) = [] ->
  exists res,
    fst (research_linkedin w query st) = Return res /\ res_error res = None.
Proof.
  intros Hfail. rewrite research_linkedin_run, research_run, research_body_split.
  rewrite bind_run.
  destruct (pre_insight_fallback w query (fresh_agent st) Hfail) as [s4 Hpre].
  assert (Hinv : run_inv (fun _ => true) (log st) s4).
  { assert (Hinv0 : run_inv (fun _ => true) (log st) (fresh_agent st)).
    { split; try done. exists []. by rewrite app_nil_r. }
    destruct (spec_pre_insight w (fun _ => true) (log st) ltac:(done) ltac:(done)
                ltac:(done) query _ Hinv0) as [H _].
    by rewrite Hpre in H. }
  rewrite Hpre. cbv beta iota. rewrite bind_run.
  pose proof (stage_insights_profiles w VNone (VList [VStr query]) s4) as Hps5.
  destruct (stage_insights w VNone (VList [VStr query]) s4) as [[[]|e] s5] eqn:Hins;
    cbn [snd] in Hps5.
  2: { rewrite research_handler_run. cbn [snd profiles tick with_steps].
       intros Hnone. rewrite Hps5 in Hnone.
       unfold stage_insights in Hins. rewrite bind_run in Hins.
       unfold get_state in Hins. rewrite Hnone in Hins. done. }
  rewrite bind_run.
  pose proof (stage_summary_profiles w query s5) as Hps6.
  destruct (stage_summary w query s5) as [[[]|e] s6] eqn:Hsum; cbn [snd] in Hps6.
  - unfold get_state. cbn [fst snd]. intros _. by eexists.
  - rewrite research_handler_run. cbn [snd profiles tick with_steps].
    intros Hnone. rewrite Hps6, Hps5 in Hnone.
    assert (s5 = s4) as ->.
    { unfold stage_insights in Hins. rewrite bind_run in Hins.
      unfold get_state in Hins. rewrite Hnone in Hins. by injection Hins. }
    destruct Hinv as [_ Hi Hc _].
    destruct (stage_summary_returns w query s4) as [s6' Hs6']; try done.
    { rewrite Hnone. by eexists. }
    congruence.
Qed.

(** ** Insight synthesis that fails *)

Lemma benign_http w url params resp : benign w (EvHttpGet url params resp) = true.
Proof. reflexivity. Qed.

Lemma benign_search w q c : benign w (EvSearchPeople q c) = true.
Proof. reflexivity. Qed.

Lemma benign_chat w req resp :
  is_insights_request req = false -> benign w (EvChat req resp) = true.
Proof. intros H. unfold benign, failed_insights_call. by rewrite H. Qed.

Lemma benign_no_failure (w : World) (st s : St) :
  run_inv (benign w) (log st) s ->
  existsb (failed_insights_call w) (events_since st s) = false.
Proof.
  intros [_ _ _ (evs & Hlog & Hall)]. unfold events_since.
  rewrite Hlog, drop_app_length. clear Hlog.
  induction evs as [|ev evs IH]; [done|]. simpl in *.
  apply andb_true_iff in Hall as [Hev Hall]. unfold benign in Hev.
  apply negb_true_iff in Hev. by rewrite Hev, IH.
Qed.

Lemma research_via_insights (w : World) (query : string) (st : St) :
  research w query st
  = match pre_insight w query st with
    | (Return (c, r), s4) =>
        let '(r5, s5) := stage_insights w c r s4 in
        research_tail w query r5 s5
    | (Raise e, s4) => research_handler w query e s4
    end.
Proof.
  rewrite research_run, research_body_split, bind_run.
  destruct (pre_insight w query st) as [[[c r]|e] s4]; [|done].
  rewrite bind_run.
  destruct (stage_insights w c r s4) as [[[]|e] s5]; [|done].
  unfold research_tail, try_except.
  by destruct ((stage_summary w query;; get_state (success_results query)) s5)
    as [[res|e] s6].
Qed.

Lemma research_tail_inv (w : World) (query : string) (p : Event -> bool)
    (base : list Event) (r : outcome unit) (s : St) :
  (forall req resp, is_insights_request req = false -> p (EvChat req resp) = true) ->
  run_inv p base s -> run_inv p base (snd (research_tail w query r s)).
Proof.
  intros Hp Hs.
  assert (Hspec : inv_spec (run_inv p base) (research_tail w query r) any).
  { destruct r as [[]|e]; cbn [research_tail].
    - apply spec_try_except.
      + eapply spec_bind; [by apply spec_stage_summary|]. intros.
        by apply (spec_get_state _ _ any).
      + intros e. eapply spec_weaken; [apply spec_research_handler|done].
    - eapply spec_weaken; [apply spec_research_handler|done]. }
  by destruct (Hspec s Hs).
Qed.

Lemma stage_insights_run (w : World) (c r : value) (st : St) :
  stage_insights w c r st
  = match profiles st with
    | [] => (Return tt, st)
    | _ :: _ =>
        let st1 := snd (_add_step w "Analyzing professional profiles"
                          (Some "Examining profiles to identify patterns and insights.") st) in
        match _generate_insights w (profiles st) c r st1 with
        | (Return found, s) =>
            match Py.len found with
            | Return n =>
                (Return tt,
                 with_insights found
                   (snd (complete w (length (steps st)) true
                           (VDict [("insights_generated", Py.of_nat n)]) None s)))
            | Raise e => (Raise e, s)
            end
        | (Raise e, s) => (Raise e, s)
        end
    end.
Proof.
  unfold stage_insights. rewrite bind_run. unfold get_state at 1.
  destruct (profiles st) as [|f fs]; [done|].
  rewrite bind_run. unfold _add_step at 1. cbv beta iota zeta. rewrite bind_run.
  cbn [snd].
  destruct (_generate_insights w (f :: fs) c r _) as [[found|e] s]; [|done].
  rewrite bind_run. unfold lift at 1.
  destruct (Py.len found) as [n|e]; [|done].
  rewrite bind_run. by unfold complete, modify.
Qed.

Lemma failed_reply_is_placeholder (w : World) (resp : outcome (option string)) :
  chat_failed w resp = true -> insights_reply w resp = insights_error.
Proof.
  unfold chat_failed, insights_reply. unfold_monad.
  destruct resp as [content|e]; [|done].
  by destruct (loads w content).
Qed.

Lemma format_profiles_take (w : World) (n i : nat) (ps : list value)
    (texts : list string) :
  format_profiles w i ps = Return texts ->
  format_profiles w i (take n ps) = Return (take n texts).
Proof.
  revert n i texts. induction ps as [|pf ps IH]; intros n i texts.
  - intros [= <-]. by destruct n.
  - destruct n as [|n]; [done|].
    cbn [format_profiles take]. unfold_monad.
    destruct (format_profile w i pf) as [text|e]; [|done].
    destruct (format_profiles w (S i) ps) as [texts'|e] eqn:Hrest; [|done].
    intros [= <-]. by rewrite (IH n (S i) texts').
Qed.

Lemma handler_benign (w : World) (query : string) (e : exn) (st s : St) :
  run_inv (benign w) (log st) s ->
  existsb (failed_insights_call w)
    (events_since st (snd (research_handler w query e s))) = false.
Proof.
  intros Hs. apply benign_no_failure.
  by destruct (spec_research_handler w (benign w) (log st) query e s Hs).
Qed.

Lemma tail_benign (w : World) (query : string) (r : outcome unit) (st s : St) :
  run_inv (benign w) (log st) s ->
  existsb (failed_insights_call w)
    (events_since st (snd (research_tail w query r s))) = false.
Proof.
  intros Hs. apply benign_no_failure, research_tail_inv; [apply benign_chat|done].
Qed.

(** A run in which the insights call failed went on with the placeholder
    insight and returned without an error marker. *)
Lemma insights_failure_absorbed (w : World) (query : string) (st : St) :
  existsb (failed_insights_call w)
    (events_since st (snd (research_linkedin w query st))) = true ->
  exists res st',
    research_linkedin w query st = (Return res, st')
    /\ res_error res = None
    /\ res_insights res = Some insights_error.
Proof.
  rewrite research_linkedin_run, research_via_insights.
  assert (Hinv0 : run_inv (benign w) (log st) (fresh_agent st)).
  { split; try done. exists []. by rewrite app_nil_r. }
  pose proof (spec_pre_insight w (benign w) (log st) (benign_http w)
                (benign_search w) (benign_chat w) query _ Hinv0) as [Hinv4 _].
  destruct (pre_insight w query (fresh_agent st)) as [[[c r]|e] s4]; cbn [snd] in Hinv4.
  2: { by rewrite handler_benign. }
  rewrite stage_insights_run.
  destruct (profiles s4) as [|f fs] eqn:Hps.
  { by rewrite tail_benign. }
  cbv zeta. rewrite generate_insights_run.
  pose proof (spec_add_step w (benign w) (log st) "Analyzing professional profiles"
                (Some "Examining profiles to identify patterns and insights.")
                s4 Hinv4) as [Hinv4' _].
  set (s4' := snd (_add_step w "Analyzing professional profiles"
                     (Some "Examining profiles to identify patterns and insights.") s4)) in *.
  assert (Hps' : profiles s4' = f :: fs) by done.
  assert (Hsteps' : exists s, steps s4' = steps s4 ++ [s]) by by eexists.
  clearbody s4'.
  destruct (format_profiles w 1 (f :: fs)) as [texts|e] eqn:Hfmt.
  2: { by rewrite tail_benign. }
  destruct (roles_context_of r) as [rc|e].
  2: { by rewrite tail_benign. }
  cbv zeta.
  set (req := insights_request _).
  set (resp := chat_completions_create w (length (log s4')) req).
  destruct (chat_failed w resp) eqn:Hfail.
  - rewrite failed_reply_is_placeholder by done.
    change (Py.len insights_error) with (@Return nat 1). cbv beta iota.
    destruct Hsteps' as [s Hsteps'].
    erewrite complete_last by (cbn [steps emit]; exact Hsteps').
    cbn [snd]. intros _.
    set (s5 := with_insights insights_error _).
    destruct (stage_summary_returns w query s5) as [s6 Hs6].
    { subst s5. cbn [profiles with_insights tick with_steps emit]. rewrite Hps'.
      eexists. by apply format_profiles_take. }
    { subst s5. cbn [company_info with_insights tick with_steps emit].
      by destruct Hinv4'. }
    { done. }
    unfold research_tail, try_except. rewrite bind_run, Hs6. unfold get_state.
    eexists _, _. split; [reflexivity|]. split; [done|].
    apply stage_summary_returned in Hs6
      as (_ & _ & _ & _ & _ & _ & _ & _ & _ & Hins & _).
    cbn [res_insights success_results]. by rewrite Hins.
  - assert (Hinv5 : run_inv (benign w) (log st) (emit (EvChat req resp) s4')).
    { apply inv_emit; [|done]. unfold benign, failed_insights_call.
      by rewrite Hfail, andb_false_r. }
    destruct (Py.len (insights_reply w resp)) as [n|e] eqn:Hlen.
    + rewrite tail_benign; [done|].
      destruct Hinv5 as [? ? ? ?]. split; try done.
      by eapply len_iterable.
    + by rewrite tail_benign.
Qed.

(** ** Summary composition *)

(** C4, as the code has it. A run that ends without an error marker has
    gone through the summary stage, whatever it found: the stage is the
    last step of the trace, completed, and its request is the last call of
    the run. The placeholders are in the prompt sent to the summary
    service: [No profiles found] when the agent holds no profile and
    [No insights available] when it holds no insight. The summary itself is
    the service's reply as it came, or the fixed text of [summary_error]
    when the call fails, so it need not repeat a placeholder. For the empty
    query, with the analysis falling back and no profile found, the run has
    no error marker and the record ends completed. *)
Theorem summary_stage_always_runs (w : World) (id : Z) (rq : ResearchQuery)
    (sys : Sys) :
  queries (db sys) !! id = Some rq ->
  exists res st',
    research_linkedin w (rq_query rq) (agent sys) = (Return res, st')
    /\ (res_error res = None ->
        exists texts company_text items resp,
          let prompt := summary_prompt (rq_query rq) company_text texts
                          (insights_text_of w items) in
          format_profiles w 1 (take 5 (profiles st')) = Return texts
          /\ Py.iter (insights st') = Return items
          /\ last (log st') = Some (EvChat (summary_request prompt) resp)
          /\ res_summary res = Some (summary_reply resp)
          /\ (exists earlier s,
                res_steps res = earlier ++ [s]
                /\ sd_description s = "Creating research summary"
                /\ sd_status s = completed)
          /\ (profiles st' = [] ->
              PyStr.contains "No profiles found" prompt = true
              /\ PyStr.contains no_profiles_section prompt = true)
          /\ (items = [] ->
              PyStr.contains "No insights available" prompt = true
              /\ PyStr.contains no_insights_section prompt = true)
          /\ (forall e, resp = Raise e ->
              res_summary res
              = Some (VStr "Unable to generate a summary due to an error."))
          /\ (forall text, resp = Return (Some text) ->
              res_summary res = Some (VStr text)))
    /\ (rq_query rq = "" ->
        chat_failed w (chat_completions_create w (length (log (agent sys)))
                         (analysis_request "")) = true ->
        profiles st' = [] ->
        res_error res = None
        /\ rq_status <$> queries (db (snd (run_research_task w id sys))) !! id
           = Some "completed").
Proof.
  intros Hq.
  destruct (research_linkedin_returns w (rq_query rq) (agent sys))
    as (res & st' & Hrun & Hok).
  exists res, st'. split; [done|]. split.
  - intros Herr.
    destruct (research_success_summary _ _ _ _ _ Hrun Herr)
      as (texts & ct & items & resp & Htexts & Hct & Hitems & Hlast & Hsum & Hstep).
    exists texts, ct, items, resp. cbv zeta.
    split; [exact Htexts|]. split; [exact Hitems|]. split; [exact Hlast|].
    split; [exact Hsum|]. split; [exact Hstep|].
    split; [|split; [|split]].
    + intros Hnone. rewrite Hnone in Htexts.
      assert (texts = []) as -> by (cbn in Htexts; congruence).
      destruct (summary_prompt_no_profiles (rq_query rq) ct (insights_text_of w items))
        as [Hsection Hphrase].
      split; [exact Hphrase | exact Hsection].
    + intros ->. change (insights_text_of w []) with "".
      destruct (summary_prompt_no_insights (rq_query rq) ct texts)
        as [Hsection Hphrase].
      split; [exact Hphrase | exact Hsection].
    + intros e ->. by rewrite Hsum.
    + intros text ->. by rewrite Hsum.
  - intros Hempty Hfail Hnone. rewrite Hempty in Hrun.
    destruct (fallback_run_without_profiles w "" (agent sys) Hfail) as (res' & Hres' & Herr).
    { by rewrite Hrun. }
    rewrite Hrun in Hres'. injection Hres' as <-. split; [done|].
    rewrite <- Hempty in Hrun.
    destruct (run_research_task_run w id rq sys res st' Hq Hrun Hok)
      as (rows & items & _ & _ & ->).
    rewrite Herr. cbn [snd db add_rows update_query queries].
    by rewrite !lookup_alter_eq, Hq.
Qed.

(** ** Insight synthesis *)

(** C7, as the code has it. When the insights call of a run fails, the
    failure is absorbed: the insights are the placeholder string, the run
    returns without an error marker and the record ends completed. The
    summary stored is what the summary service replied, or the fixed text of
    [summary_error] when that call fails too; it is not empty whenever the
    summary call fails or replies with a text that is not empty. *)
Theorem insight_failure_is_absorbed (w : World) (id : Z) (rq : ResearchQuery)
    (sys : Sys) :
  queries (db sys) !! id = Some rq ->
  existsb (failed_insights_call w)
    (events_since (agent sys)
       (snd (research_linkedin w (rq_query rq) (agent sys)))) = true ->
  exists res st' prompt resp,
    research_linkedin w (rq_query rq) (agent sys) = (Return res, st')
    /\ res_error res = None
    /\ res_insights res
       = Some (VList [VStr "Unable to generate insights due to an error."])
    /\ last (log st') = Some (EvChat (summary_request prompt) resp)
    /\ queries (db (snd (run_research_task w id sys))) !! id
       = Some {| rq_query := rq_query rq; rq_status := "completed";
                 rq_summary := summary_reply resp;
                 rq_updated_at := Some (clock w (ticks st')) |}
    /\ (forall e, resp = Raise e ->
        summary_reply resp = VStr "Unable to generate a summary due to an error.")
    /\ (forall text, resp = Return (Some text) -> summary_reply resp = VStr text).
Proof.
  intros Hq Hfail.
  destruct (insights_failure_absorbed w (rq_query rq) (agent sys) Hfail)
    as (res & st' & Hrun & Herr & Hins).
  destruct (research_success_summary _ _ _ _ _ Hrun Herr)
    as (texts & ct & items & resp & _ & _ & _ & Hlast & Hsum & _).
  destruct (research_linkedin_returns w (rq_query rq) (agent sys))
    as (res' & st'' & Hrun' & Hok).
  rewrite Hrun in Hrun'. injection Hrun' as <- <-.
  destruct (run_research_task_run w id rq sys res st' Hq Hrun Hok)
    as (rows & its & _ & _ & ->).
  eexists res, st', _, resp.
  split; [exact Hrun|]. split; [exact Herr|]. split; [exact Hins|].
  split; [exact Hlast|].
  split; [|split].
  - rewrite Herr. cbn [snd db add_rows update_query queries].
    by rewrite !lookup_alter_eq, Hq, Hsum.
  - by intros e ->.
  - by intros text ->.
Qed.

(** ** The task runner on a session that can fail *)

Lemma in_process_run {A} (m : SM Sys A) (s : Session.State) :
  Session.in_process m s
  = (fst (m (Session.live s)),
     {| Session.stored := Session.stored s; Session.live := snd (m (Session.live s)) |}).
Proof. unfold Session.in_process. by destruct (m (Session.live s)). Qed.

Lemma handler_run (f : Session.Faults) (id : Z) (e : exn) (s : Session.State) :
  Session.handler f id e s = (Return tt, handler_state f id e s).
Proof.
  unfold Session.handler, handler_state, try_except. rewrite bind_run.
  unfold Session.get. destruct (Session.handler_get_fails f) as [e1|]; [done|].
  unfold get_state at 1. cbv beta iota.
  destruct (queries (db (Session.live s)) !! id) as [rq|]; [|done].
  rewrite bind_run, in_process_run. unfold on_db, modify. cbn [fst snd].
  unfold Session.commit. destruct (Session.handler_commit_fails f) as [e2|]; [|done].
  cbn [Session.stored Session.live]. by destruct s as [d [d' a]].
Qed.

(** The task runner never raises. *)
Lemma session_never_raises (f : Session.Faults) (w : World) (id : Z)
    (s : Session.State) :
  fst (Session.run_research_task f w id s) = Return tt.
Proof.
  unfold Session.run_research_task, try_except.
  match goal with |- context [match ?m s with _ => _ end] => destruct (m s) as [[[]|e] s1] end.
  - done.
  - by rewrite handler_run.
Qed.

Lemma in_process_on_db (g : Db -> Db) (s : Session.State) :
  Session.in_process (on_db g) s
  = (Return tt,
     {| Session.stored := Session.stored s;
        Session.live := with_db (g (db (Session.live s))) (Session.live s) |}).
Proof. reflexivity. Qed.

Lemma in_process_on_agent {A} (m : M A) (s : Session.State) :
  Session.in_process (on_agent m) s
  = (fst (m (agent (Session.live s))),
     {| Session.stored := Session.stored s;
        Session.live := {| db := db (Session.live s);
                           agent := snd (m (agent (Session.live s))) |} |}).
Proof.
  unfold Session.in_process, on_agent. by destruct (m (agent (Session.live s))).
Qed.

Lemma session_run (f : Session.Faults) (w : World) (id : Z) (rq : ResearchQuery)
    (sys : Sys) (res : Results) (st' : St) :
  queries (db sys) !! id = Some rq ->
  research_linkedin w (rq_query rq) (agent sys) = (Return res, st') ->
  results_ok res ->
  Session.run_research_task f w id (Session.start sys)
  = (Return tt, session_end f w id sys res st').
Proof.
  intros Hq Hrun Hok.
  destruct (run_research_task_run w id rq sys res st' Hq Hrun Hok)
    as (rows & items & Hrows & Hitems & Hsys).
  unfold Session.run_research_task, session_end, try_except, Session.start.
  rewrite bind_run. unfold Session.get at 1. destruct (Session.get_fails f) as [e|].
  { unfold lift. by rewrite handler_run. }
  unfold get_state at 1. cbn [Session.live]. rewrite Hq. cbv beta iota.
  rewrite bind_run, in_process_on_db. cbv beta iota.
  unfold with_db; cbn [Session.stored Session.live db agent].
  rewrite bind_run. unfold Session.commit at 1.
  destruct (Session.commit_in_progress_fails f) as [e|].
  { rewrite handler_run. unfold with_db; cbn [Session.stored Session.live agent db].
    by destruct sys. }
  cbv beta iota. unfold with_db; cbn [Session.stored Session.live db agent].
  rewrite bind_run, in_process_on_agent.
  unfold with_db; cbn [Session.stored Session.live db agent]. rewrite Hrun. cbn [fst snd]. cbv beta iota.
  destruct (res_error res) as [message|] eqn:Herr.
  - rewrite bind_run, in_process_on_db. cbv beta iota.
    unfold with_db; cbn [Session.stored Session.live db agent].
    unfold Session.commit. destruct (Session.commit_failed_fails f) as [e|].
    + by rewrite handler_run.
    + done.
  - rewrite bind_run, in_process_on_agent. unfold now at 1 2.
    unfold with_db; cbn [fst snd Session.live Session.stored db agent]. cbv beta iota.
    rewrite bind_run, in_process_on_db. cbv beta iota.
    unfold with_db; cbn [fst snd Session.live Session.stored db agent].
    rewrite bind_run, in_process_run. cbn [Session.live Session.stored].
    set (sys2 := {| db := update_query id
                            (mark_completed (default (VStr "") (res_summary res))
                               (clock w (ticks st')))
                            (update_query id mark_in_progress (db sys));
                    agent := tick st' |}).
    destruct (save_results_run w id res sys2 Hok) as (rows' & items' & Hrows' & Hitems' & Hsave).
    rewrite Hsave. cbn [fst snd]. cbv beta iota.
    unfold Session.commit. destruct (Session.commit_results_fails f) as [e|].
    + rewrite handler_run. unfold with_db; cbn [Session.stored Session.live agent db].
      done.
    + rewrite Hsys. cbn [snd db].
      assert (rows' = rows) as -> by congruence.
      assert (items' = items) as -> by congruence.
      done.
Qed.

(** With no call that raises, the session stores what the first reading of
    [run_research_task] leaves in the tables. *)
Lemma session_reliable (w : World) (id : Z) (sys : Sys) :
  Session.run_research_task Session.reliable w id (Session.start sys)
  = (fst (run_research_task w id sys), Session.start (snd (run_research_task w id sys))).
Proof.
  destruct (queries (db sys) !! id) as [rq|] eqn:Hq.
  - destruct (research_linkedin_returns w (rq_query rq) (agent sys))
      as (res & st' & Hrun & Hok).
    rewrite (session_run _ w id rq sys res st' Hq Hrun Hok).
    destruct (run_research_task_run w id rq sys res st' Hq Hrun Hok)
      as (rows & items & _ & _ & Hsys).
    unfold session_end. cbn [Session.reliable Session.get_fails
      Session.commit_in_progress_fails Session.commit_failed_fails
      Session.commit_results_fails].
    rewrite Hsys. cbn [fst snd]. by destruct (res_error res).
  - assert (Hold : run_research_task w id sys = (Return tt, sys)).
    { unfold run_research_task, try_except. rewrite bind_run.
      unfold get_state at 1. by rewrite Hq. }
    rewrite Hold. cbn [fst snd].
    unfold Session.run_research_task, try_except. rewrite bind_run.
    unfold Session.get. cbn [Session.reliable Session.get_fails].
    unfold get_state at 1. cbn [Session.start Session.live]. by rewrite Hq.
Qed.

Lemma profile_row_of_fields (w : World) (id : Z) (d : list (string * value)) :
  profile_row_of w id (VDict d)
  = Return {| profile_research_id := id;
              profile_name := default (VStr "") (Py.lookup "name" d);
              profile_title := default (VStr "") (Py.lookup "title" d);
              profile_company := default (VStr "") (Py.lookup "company" d);
              profile_location := default (VStr "") (Py.lookup "location" d);
              profile_linkedin_url := default (VStr "") (Py.lookup "linkedin_url" d);
              profile_image_url := default (VStr "") (Py.lookup "image_url" d);
              profile_expertise :=
                match Py.lookup "expertise" d with
                | Some e => if Py.truthy e then Some (json_dumps w e) else None
                | None => None
                end |}.
Proof.
  unfold profile_row_of. unfold_monad. cbn [Py.get Py.contains Py.getitem].
  by destruct (Py.lookup "expertise" d).
Qed.

Lemma profile_rows_fields (w : World) (id : Z) (ps : list value)
    (rows : list LinkedInProfile) :
  traverse (profile_row_of w id) ps = Return rows ->
  Forall is_dict ps ->
  Forall2 (row_of_profile w id) ps rows.
Proof.
  revert rows. induction ps as [|pd ps IH]; intros rows.
  - intros [= <-] _. constructor.
  - cbn [traverse]. unfold_monad. intros Hrows Hps.
    apply Forall_cons in Hps as [Hpd Hps].
    destruct pd as [| | | | | |d]; try done.
    rewrite profile_row_of_fields in Hrows.
    destruct (traverse (profile_row_of w id) ps) as [rows'|]; [|done].
    injection Hrows as <-. constructor; [by exists d|by apply IH].
Qed.

(** C8. When no call to the session raises on the way, [run_research_task]
    marks the record failed, with a summary made from the error message,
    exactly when the result of the pipeline carries the top-level error
    marker, and stores no row then. Otherwise it marks the record
    completed, stores the summary and the time, and stores one row for each
    step, profile and insight returned, in their order: a step row has the
    fields of the step, its result as JSON text when it is a dict or a list,
    as its [str] when it is anything else but [None], and not at all when it
    is [None]; a profile row has the six texts of the profile, each empty
    when missing, and its expertise as JSON text when there is one; an
    insight row has the insight, the insights being what the loop over the
    value returned yields: the items of a list, the characters of a text,
    the keys of an object. *)
Theorem run_research_task_writes_back (f : Session.Faults) (w : World) (id : Z)
    (rq : ResearchQuery) (sys : Sys) :
  queries (db sys) !! id = Some rq ->
  Session.get_fails f = None ->
  Session.commit_in_progress_fails f = None ->
  Session.commit_failed_fails f = None ->
  Session.commit_results_fails f = None ->
  exists res st',
    research_linkedin w (rq_query rq) (agent sys) = (Return res, st')
    /\ fst (Session.run_research_task f w id (Session.start sys)) = Return tt
    /\ (let d' := Session.stored
                    (snd (Session.run_research_task f w id (Session.start sys))) in
        match res_error res with
        | Some message =>
            queries d' !! id
            = Some {| rq_query := rq_query rq; rq_status := "failed";
                      rq_summary := VStr ("Research failed: " ++ message);
                      rq_updated_at := rq_updated_at rq |}
            /\ step_rows d' = step_rows (db sys)
            /\ profile_rows d' = profile_rows (db sys)
            /\ insight_rows d' = insight_rows (db sys)
        | None =>
            queries d' !! id
            = Some {| rq_query := rq_query rq; rq_status := "completed";
                      rq_summary := default (VStr "") (res_summary res);
                      rq_updated_at := Some (clock w (ticks st')) |}
            /\ step_rows d'
               = (step_rows (db sys)
                  ++ map (fun step_data =>
                            {| step_research_id := id;
                               step_type := "analysis";
                               step_description := sd_description step_data;
                               step_reasoning := sd_reasoning step_data;
                               step_status := sd_status step_data;
                               step_confidence := sd_confidence step_data;
                               step_duration := sd_duration step_data;
                               step_result :=
                                 match sd_result step_data with
                                 | VNone => None
                                 | VDict _ | VList _ =>
                                     Some (json_dumps w (sd_result step_data))
                                 | other => Some (py_str w other)
                                 end |})
                       (res_steps res))%list
            /\ (exists found rows,
                  res_profiles res = Some found
                  /\ Forall2
                       (fun profile_data row =>
                          exists d,
                            profile_data = VDict d
                            /\ row
                               = {| profile_research_id := id;
                                    profile_name := default (VStr "") (Py.lookup "name" d);
                                    profile_title := default (VStr "") (Py.lookup "title" d);
                                    profile_company :=
                                      default (VStr "") (Py.lookup "company" d);
                                    profile_location :=
                                      default (VStr "") (Py.lookup "location" d);
                                    profile_linkedin_url :=
                                      default (VStr "") (Py.lookup "linkedin_url" d);
                                    profile_image_url :=
                                      default (VStr "") (Py.lookup "image_url" d);
                                    profile_expertise :=
                                      match Py.lookup "expertise" d with
                                      | Some e =>
                                          if Py.truthy e then Some (json_dumps w e)
                                          else None
                                      | None => None
                                      end |})
                       found rows
                  /\ profile_rows d' = (profile_rows (db sys) ++ rows)%list)
            /\ (exists found items,
                  res_insights res = Some found
                  /\ Py.iter found = Return items
                  /\ (forall l, found = VList l -> items = l)
                  /\ (forall text, found = VStr text ->
                        items = map VStr (PyStr.chars text))
                  /\ (forall d, found = VDict d ->
                        items = map (fun kv => VStr (fst kv)) d)
                  /\ insight_rows d'
                     = (insight_rows (db sys)
                        ++ map (fun insight =>
                                  {| insight_research_id := id; insight_text := insight |})
                             items)%list)
        end).
Proof.
  intros Hq Hg Hc1 Hc2 Hc3.
  destruct (research_linkedin_returns w (rq_query rq) (agent sys)) as (res & st' & Hrun & Hok).
  exists res, st'. split; [done|]. split; [apply session_never_raises|].
  rewrite (session_run f w id rq sys res st' Hq Hrun Hok).
  destruct (run_research_task_run w id rq sys res st' Hq Hrun Hok)
    as (rows & items & Hrows & Hitems & Hsys).
  unfold session_end. rewrite Hg, Hc1, Hc2, Hc3, Hsys. cbv zeta.
  destruct (res_error res) as [message|] eqn:Herr;
    cbn [snd Session.start Session.stored db].
  - unfold update_query, with_db; cbn [queries step_rows profile_rows insight_rows db].
    by rewrite !lookup_alter_eq, Hq.
  - unfold add_rows, update_query; cbn [queries step_rows profile_rows insight_rows].
    rewrite !lookup_alter_eq, Hq. split; [done|].
    destruct (research_success w _ _ _ _ Hrun Herr) as [Hres _].
    destruct Hok as [Hps Hins].
    split; [|split].
    + f_equal. apply map_ext. intros sd. unfold step_row_of, stored_result.
      by destruct (sd_result sd).
    + exists (profiles st'), rows. split; [by rewrite Hres|]. split; [|done].
      rewrite Hres in Hrows, Hps. cbn [res_profiles default] in Hrows, Hps.
      by apply (profile_rows_fields w id).
    + exists (insights st'), items. split; [by rewrite Hres|].
      rewrite Hres in Hitems. unfold success_results in Hitems.
      cbn [res_insights default] in Hitems.
      split; [done|].
      split; [intros l Hl; rewrite Hl in Hitems; by injection Hitems|].
      split; [intros text Hl; rewrite Hl in Hitems; by injection Hitems|].
      split; [intros d Hl; rewrite Hl in Hitems; by injection Hitems|done].
Qed.

(** * The claims on example runs *)

(** C2, on a run the code can make. The provider returns a person whose
    expertise is null; formatting that profile raises inside the insights
    stage, outside the [try] of [_generate_insights]. The handler adds its
    failed step and returns, and the step of the insights stage is still
    in progress in the trace returned. *)
Theorem research_leaves_step_in_progress :
  exists res st',
    research_linkedin Examples.null_expertise "engineers" Examples.initial
    = (Return res, st')
    /\ res_error res = Some "can only join an iterable"
    /\ map (fun s => (sd_description s, sd_status s, sd_end_time s)) (res_steps res)
       = [("Initializing LinkedIn research", completed, Some 1000%Z);
          ("Analyzing query", completed, Some 3000%Z);
          ("Searching for professionals", completed, Some 5000%Z);
          ("Analyzing professional profiles", in_progress, None);
          ("Error in research process", failed, Some 8000%Z)].
Proof. eexists _, _. split; [vm_compute; reflexivity|]. by vm_compute. Qed.

(** The profile found before the failure stays on the agent; the
    dictionary returned has no profiles and no insights entry. *)
Lemma research_failure_drops_profiles :
  exists res st',
    research_linkedin Examples.null_expertise "engineers" Examples.initial
    = (Return res, st')
    /\ res_error res = Some "can only join an iterable"
    /\ profiles st' = [VDict [("name", VStr "Ada Lovelace"); ("title", VStr "Engineer");
                              ("company", VStr ""); ("location", VStr "");
                              ("linkedin_url", VStr ""); ("image_url", VStr "");
                              ("expertise", VNone)]]
    /\ res_profiles res = None
    /\ res_insights res = None.
Proof. eexists _, _. split; [vm_compute; reflexivity|]. by vm_compute. Qed.

Lemma research_failure_is_reported_witness :
  exists res st2,
    research Examples.null_expertise "engineers" Examples.initial = (Return res, st2)
    /\ res_error res = Some "can only join an iterable".
Proof.
  edestruct (research_failure_is_reported Examples.null_expertise "engineers"
               Examples.initial) as (error_step & st2 & Hrun & _).
  { vm_compute. reflexivity. }
  eexists _, _. split; [exact Hrun | reflexivity].
Defined.

(** With both services down and the empty query, the run completes with no
    profile, and its summary is the fixed error text, in which the
    placeholder does not occur. *)
Lemma summary_lacks_placeholder :
  exists res st',
    research_linkedin Examples.offline "" Examples.initial = (Return res, st')
    /\ res_error res = None
    /\ profiles st' = []
    /\ res_summary res = Some (VStr "Unable to generate a summary due to an error.")
    /\ PyStr.contains "No profiles found"
         "Unable to generate a summary due to an error." = false.
Proof. eexists _, _. split; [vm_compute; reflexivity|]. by vm_compute. Qed.

Lemma summary_stage_always_runs_witness :
  rq_status <$> queries (db (snd (run_research_task Examples.offline 1
                                    (Examples.pending "")))) !! 1%Z
  = Some "completed".
Proof.
  edestruct (summary_stage_always_runs Examples.offline 1
               (Examples.pending_query "") (Examples.pending ""))
    as (res & st' & Hrun & _ & Hempty).
  { vm_compute. reflexivity. }
  apply Hempty.
  - reflexivity.
  - vm_compute. reflexivity.
  - vm_compute in Hrun. by injection Hrun as _ <-.
Defined.

Lemma analyze_query_falls_back_witness :
  fst (_analyze_query Examples.offline "engineers at Google" Examples.initial)
  = Return (VDict [("company", VNone); ("roles", VList [VStr "engineers at Google"]);
                   ("technologies", VList [])]).
Proof.
  apply (analyze_query_falls_back Examples.offline "engineers at Google"
           Examples.initial).
  vm_compute. reflexivity.
Defined.

Lemma get_company_info_returns_record_witness :
  fst (get_company_info Examples.offline (VStr "GOOGLE Inc") Examples.initial)
  = Return google_record
  /\ fst (get_company_info Examples.offline (VStr "Acme Robotics") Examples.initial)
     = Return (generic_company_info (VStr "Acme Robotics")).
Proof.
  destruct (get_company_info_returns_record "GOOGLE Inc") as (_ & Hfb & Hkey & _).
  destruct (get_company_info_returns_record "Acme Robotics") as (_ & Hfb' & _ & Hno & _).
  split.
  - rewrite Hfb by (vm_compute; reflexivity).
    destruct (Hkey "google") as (k & rec & before & after & _ & _ & _ & Hrec & _).
    + vm_compute. tauto.
    + vm_compute. reflexivity.
    + rewrite Hrec. vm_compute in Hrec. injection Hrec as <-. reflexivity.
  - rewrite Hfb' by (vm_compute; reflexivity).
    apply Hno. intros key Hkey'. cbn in Hkey'.
    destruct Hkey' as [<-|[<-|[<-|[<-|[<-|[]]]]]]; vm_compute; by split.
Defined.

Lemma fallback_matches_both_ways_witness :
  _get_fallback_company_info (VStr "soft") = Return microsoft_record.
Proof.
  apply (fallback_matches_both_ways "soft" "microsoft").
  - vm_compute. tauto.
  - right. vm_compute. reflexivity.
Defined.

(** With the provider up and the LLM service down, the insights call fails
    and the record still ends completed, with the fixed summary text. *)
Lemma insight_failure_is_absorbed_witness :
  exists rq,
    queries (db (snd (run_research_task Examples.llm_down 1
                        (Examples.pending "engineers")))) !! 1%Z = Some rq
    /\ rq_status rq = "completed"
    /\ rq_summary rq = VStr "Unable to generate a summary due to an error.".
Proof.
  edestruct (insight_failure_is_absorbed Examples.llm_down 1
               (Examples.pending_query "engineers") (Examples.pending "engineers"))
    as (res & st' & prompt & resp & Hrun & _ & _ & Hlast & Hrq & Hraise & _).
  { vm_compute. reflexivity. }
  { vm_compute. reflexivity. }
  eexists. split; [exact Hrq|]. split; [reflexivity|].
  cbn [rq_summary]. vm_compute in Hrun. injection Hrun as _ <-.
  vm_compute in Hlast. injection Hlast as _ <-. reflexivity.
Defined.

(** The insights call fails and the summary service replies with an empty
    text: the record ends completed and its summary is the empty string. *)
Lemma insight_failure_with_empty_summary :
  existsb (failed_insights_call Examples.empty_summary)
    (events_since Examples.initial
       (snd (research_linkedin Examples.empty_summary "engineers" Examples.initial)))
  = true
  /\ queries (db (snd (run_research_task Examples.empty_summary 1
                         (Examples.pending "engineers")))) !! 1%Z
     = Some {| rq_query := "engineers"; rq_status := "completed";
               rq_summary := VStr ""; rq_updated_at := Some 10000%Z |}.
Proof. split; by vm_compute. Qed.

Lemma run_research_task_writes_back_witness :
  (let d' := Session.stored
               (snd (Session.run_research_task Session.reliable Examples.llm_down 1
                       (Session.start (Examples.pending "engineers")))) in
   rq_status <$> queries d' !! 1%Z = Some "completed"
   /\ profile_rows d'
      = [{| profile_research_id := 1;
            profile_name := VStr "Ada Lovelace"; profile_title := VStr "Engineer";
            profile_company := VStr ""; profile_location := VStr "";
            profile_linkedin_url := VStr ""; profile_image_url := VStr "";
            profile_expertise := Some "{}" |}]
   /\ insight_rows d'
      = [{| insight_research_id := 1;
            insight_text := VStr "Unable to generate insights due to an error." |}]
   /\ map step_description (step_rows d')
      = ["Initializing LinkedIn research"; "Analyzing query";
         "Searching for professionals"; "Analyzing professional profiles";
         "Creating research summary"])
  /\ (let d' := Session.stored
                  (snd (Session.run_research_task Session.reliable
                          Examples.null_expertise 1
                          (Session.start (Examples.pending "engineers")))) in
      queries d' !! 1%Z
      = Some {| rq_query := "engineers"; rq_status := "failed";
                rq_summary := VStr "Research failed: can only join an iterable";
                rq_updated_at := None |}
      /\ step_rows d' = [] /\ profile_rows d' = [] /\ insight_rows d' = []).
Proof.
  split.
  - destruct (run_research_task_writes_back Session.reliable Examples.llm_down 1
                (Examples.pending_query "engineers") (Examples.pending "engineers"))
      as (res & st' & Hrun & _ & Hdb).
    { vm_compute. reflexivity. }
    { reflexivity. }
    { reflexivity. }
    { reflexivity. }
    { reflexivity. }
    vm_compute in Hrun. injection Hrun as <- <-.
    cbv zeta in Hdb. cbn [res_error] in Hdb. destruct Hdb as (Hrq & _).
    cbv zeta. split; [by rewrite Hrq|].
    vm_compute. split; [reflexivity|split; reflexivity].
  - destruct (run_research_task_writes_back Session.reliable Examples.null_expertise 1
                (Examples.pending_query "engineers") (Examples.pending "engineers"))
      as (res & st' & Hrun & _ & Hdb).
    { vm_compute. reflexivity. }
    { reflexivity. }
    { reflexivity. }
    { reflexivity. }
    { reflexivity. }
    vm_compute in Hrun. injection Hrun as <- <-.
    cbv zeta in Hdb. cbn [res_error] in Hdb. exact Hdb.
Defined.

(** * More properties: the client *)

(** X1. [search_people] never raises, whatever the query and the company
    are: it returns a list of dicts, makes exactly one request, whose
    search term is the query followed by [ at ] and the company when there
    is a company and the query alone otherwise, and changes nothing on the
    agent. *)
Theorem search_people_never_raises (w : World) (query company : value) (st : St) :
  let st' := snd (search_people w query company st) in
  exists found resp,
    fst (search_people w query company st) = Return found
    /\ Forall is_dict found
    /\ events_since st st'
       = [EvSearchPeople query company;
          EvHttpGet (base_url ++ "/people/search")
            [("search_term",
              if Py.truthy company
              then VStr (py_str w query ++ " at " ++ py_str w company)
              else query)] resp]
    /\ steps st' = steps st
    /\ profiles st' = profiles st
    /\ insights st' = insights st
    /\ company_info st' = company_info st
    /\ ticks st' = ticks st.
Proof.
  cbv zeta. rewrite search_people_run. cbv zeta. cbn [fst snd].
  eexists _, _. split; [reflexivity|]. split; [apply found_profiles_dicts|].
  split; [|done].
  unfold events_since. cbn [log emit].
  by rewrite <- app_assoc, drop_app_length.
Qed.

Lemma profile_of_item_dict (d : list (string * value)) :
  profile_of_item (VDict d) = Return (pick d profile_fields).
Proof. reflexivity. Qed.

Lemma traverse_profiles_all_dicts (items : list value) :
  forallb is_dictb items = true ->
  traverse profile_of_item items = Return (map normal_profile items).
Proof.
  induction items as [|item items IH]; [done|]. simpl.
  intros H. apply andb_true_iff in H as [Hitem Hitems].
  destruct item; try done. rewrite profile_of_item_dict.
  unfold_monad. by rewrite IH.
Qed.

Lemma traverse_profiles_bad_item (items : list value) :
  forallb is_dictb items = false ->
  exists e, traverse profile_of_item items = Raise e.
Proof.
  induction items as [|item items IH]; [done|]. simpl.
  intros H. apply andb_false_iff in H as [Hitem|Hitems].
  - destruct item; try done; by eexists.
  - destruct (IH Hitems) as [e He]. unfold_monad.
    destruct (profile_of_item item); [|by eexists].
    rewrite He. by eexists.
Qed.

Lemma has_items_list (body : list (string * value)) (item : value) (items : list value) :
  Py.lookup "items" body = Some (VList (item :: items)) ->
  has_items (VDict body) = Return true
  /\ Py.getitem (VDict body) "items" = Return (VList (item :: items)).
Proof.
  intros H. unfold has_items. cbn [Py.truthy Py.contains Py.getitem].
  destruct body as [|kv body]; [done|]. unfold_monad. by rewrite H.
Qed.

(** X2. When the provider answers 200 with an object whose [items] is a
    list that is not empty, [search_people] returns one profile for each
    item, in the order of the items, each with the seven keys of a profile
    and the default of every key the item lacks, if every item is an
    object; a single item that is not an object makes it return no profile
    at all. *)
Theorem search_people_all_or_nothing (w : World) (query company : value)
    (st : St) (r : HttpResponse) (body : list (string * value))
    (item : value) (items : list value) :
  search_request w query company st = Return r ->
  status_code r = 200%Z ->
  response_json r = Return (VDict body) ->
  Py.lookup "items" body = Some (VList (item :: items)) ->
  fst (search_people w query company st)
  = Return (if forallb is_dictb (item :: items)
            then map normal_profile (item :: items)
            else []).
Proof.
  intros Hr Hstatus Hjson Hitems.
  rewrite search_people_run. cbv zeta. cbn [fst]. f_equal.
  unfold found_profiles, parse_profiles. rewrite Hr. unfold_monad.
  rewrite Hstatus, Hjson. cbn [Z.eqb Pos.eqb].
  destruct (has_items_list body item items Hitems) as [-> ->].
  cbn [Py.iter].
  destruct (forallb is_dictb (item :: items)) eqn:Hall.
  - by rewrite traverse_profiles_all_dicts.
  - by destruct (traverse_profiles_bad_item _ Hall) as [e ->].
Qed.

(** X3. When the provider fails, answers with another status than 200, or
    with a body that does not parse or whose [items] is missing or empty,
    [search_people] returns the empty list. *)
Theorem search_people_empty_on_failure (w : World) (query company : value) (st : St) :
  provider_found (search_request w query company st) = false ->
  fst (search_people w query company st) = Return [].
Proof.
  intros H. rewrite search_people_run. cbv zeta. cbn [fst]. f_equal.
  unfold provider_found in H. unfold found_profiles, parse_profiles. unfold_monad.
  destruct (search_request w query company st) as [r|e]; [|done].
  destruct (status_code r =? 200)%Z; [|done].
  destruct (response_json r) as [data|e]; [|done].
  by destruct (has_items data) as [[]|e].
Qed.

(** X4. [get_company_info] does raise when the name it is given is not a
    string and the provider has nothing: the fallback lookup lowercases the
    name, also inside the [except] branch, and that raises again. *)
Theorem get_company_info_raises_without_string (w : World) (name : value) (st : St) :
  (forall s, name <> VStr s) ->
  provider_found (company_request w name st) = false ->
  fst (get_company_info w name st)
  = Raise (AttributeError ("'" ++ Py.type_name name
                           ++ "' object has no attribute 'lower'")).
Proof.
  intros Hname H. rewrite get_company_info_run. cbv zeta. cbn [fst].
  assert (Hfb : _get_fallback_company_info name = Raise (Py.no_attribute name "lower")).
  { destruct name; try done. by destruct (Hname s). }
  unfold provider_found in H. unfold_monad. rewrite Hfb.
  destruct (company_request w name st) as [r|e]; [|done].
  destruct (status_code r =? 200)%Z; [|done].
  destruct (response_json r) as [data|e]; [|done].
  by destruct (has_items data) as [[]|e].
Qed.

(** X5. When the provider answers 200 with an object whose [items] is a
    list that begins with an object, [get_company_info] returns the record
    made from that first item alone: its eight keys, the name defaulting to
    the name asked for and every other missing key to its placeholder. *)
Theorem get_company_info_maps_first_item (w : World) (name : value) (st : St)
    (r : HttpResponse) (body d : list (string * value)) (rest : list value) :
  company_request w name st = Return r ->
  status_code r = 200%Z ->
  response_json r = Return (VDict body) ->
  Py.lookup "items" body = Some (VList (VDict d :: rest)) ->
  fst (get_company_info w name st) = Return (pick d (company_fields name)).
Proof.
  intros Hr Hstatus Hjson Hitems.
  rewrite get_company_info_run. cbv zeta. cbn [fst].
  rewrite Hr. unfold_monad. rewrite Hstatus, Hjson. cbn [Z.eqb Pos.eqb].
  by destruct (has_items_list body (VDict d) rest Hitems) as [-> ->].
Qed.

Lemma ascii_text_outside (c : ascii) (s : string) :
  is_ascii c = false -> exists t, ascii_text (String c s) = String outside t.
Proof.
  revert c. induction s as [|d s IH]; intros c Hc.
  - exists "". simpl. by rewrite Hc.
  - cbn [ascii_text]. rewrite Hc. destruct (is_ascii d) eqn:Hd.
    + by eexists.
    + destruct (IH d Hd) as [t Ht]. exists t. rewrite <- Ht. cbn [ascii_text]. by rewrite Hd.
Qed.

Lemma prefix_outside (k : string) (c d : ascii) (s t : string) :
  all_ascii (String c k) = true -> is_ascii d = false ->
  String.prefix (String c k) (String d s) = false.
Proof.
  simpl. intros Hk Hd. apply andb_true_iff in Hk as [Hc _].
  destruct (ascii_dec c d) as [->|]; [congruence|done].
Qed.

Lemma prefix_ascii_text (k s : string) :
  all_ascii k = true -> String.prefix k (ascii_text s) = String.prefix k s.
Proof.
  revert s. induction k as [|c k IH]; intros s Hk.
  - by destruct s, (ascii_text _).
  - destruct s as [|d s]; [done|].
    destruct (is_ascii d) eqn:Hd.
    + cbn [ascii_text]. rewrite Hd. cbn [String.prefix].
      apply andb_true_iff in Hk as [_ Hk]. by rewrite IH.
    + destruct (ascii_text_outside d s Hd) as [t ->].
      rewrite (prefix_outside k c d s s Hk Hd).
      apply (prefix_outside k c outside t t Hk). reflexivity.
Qed.

Lemma contains_empty (h : string) : PyStr.contains "" h = true.
Proof. by destruct h. Qed.

Lemma contains_ascii_text (k s : string) :
  all_ascii k = true -> PyStr.contains k (ascii_text s) = PyStr.contains k s.
Proof.
  intros Hk. destruct k as [|c k]; [by rewrite !contains_empty|].
  induction s as [|d s IH]; [done|].
  cbn [PyStr.contains]. rewrite <- IH, <- (prefix_ascii_text _ (String d s)) by done.
  cbn [ascii_text]. destruct (is_ascii d) eqn:Hd; [done|].
  destruct s as [|e s].
  - cbn [ascii_text PyStr.contains]. by rewrite orb_diag.
  - destruct (is_ascii e) eqn:He.
    + done.
    + destruct (ascii_text_outside e s He) as [t Ht]. rewrite Ht.
      rewrite (prefix_outside k c outside t t Hk) by reflexivity. done.
Qed.

Lemma ascii_text_ascii (s : string) : all_ascii s = true -> ascii_text s = s.
Proof.
  induction s as [|c s IH]; [done|]. cbn [all_ascii ascii_text].
  intros H. apply andb_true_iff in H as [-> Hs]. by rewrite IH.
Qed.

Lemma ascii_text_not_ascii (s : string) :
  all_ascii s = false -> all_ascii (ascii_text s) = false.
Proof.
  induction s as [|c s IH]; [done|]. cbn [all_ascii]. intros H.
  destruct (is_ascii c) eqn:Hc.
  - cbn [ascii_text]. rewrite Hc. cbn [all_ascii]. rewrite Hc. by apply IH.
  - by destruct (ascii_text_outside c s Hc) as [t ->].
Qed.

Lemma prefix_all_ascii (n h : string) :
  String.prefix n h = true -> all_ascii h = true -> all_ascii n = true.
Proof.
  revert h. induction n as [|c n IH]; intros h; [done|].
  destruct h as [|d h]; [done|]. cbn [String.prefix all_ascii].
  destruct (ascii_dec c d) as [->|]; [|done].
  intros Hp H. apply andb_true_iff in H as [-> Hh]. by apply (IH h).
Qed.

Lemma contains_all_ascii (n h : string) :
  PyStr.contains n h = true -> all_ascii h = true -> all_ascii n = true.
Proof.
  induction h as [|d h IH]; cbn [PyStr.contains]; intros Hc Hh.
  - rewrite orb_false_r in Hc. by apply (prefix_all_ascii n "").
  - apply orb_true_iff in Hc as [Hp|Hc]; [by apply (prefix_all_ascii n (String d h))|].
    apply IH; [done|]. cbn [all_ascii] in Hh. by apply andb_true_iff in Hh as [_ ?].
Qed.

Lemma contained_ascii_text (k s : string) :
  all_ascii k = true -> PyStr.contains (ascii_text s) k = PyStr.contains s k.
Proof.
  intros Hk. destruct (all_ascii s) eqn:Hs; [by rewrite ascii_text_ascii|].
  pose proof (ascii_text_not_ascii s Hs) as Ht.
  destruct (PyStr.contains (ascii_text s) k) eqn:H1.
  { pose proof (contains_all_ascii _ _ H1 Hk). congruence. }
  destruct (PyStr.contains s k) eqn:H2; [|done].
  pose proof (contains_all_ascii _ _ H2 Hk). congruence.
Qed.

Lemma matches_ascii_text (l key : string) :
  all_ascii key = true ->
  company_matches (ascii_text l) key = company_matches l key.
Proof.
  intros Hk. unfold company_matches.
  by rewrite contains_ascii_text, contained_ascii_text.
Qed.

Lemma find_ext_in {A} (f g : A -> bool) (l : list A) :
  (forall x, In x l -> f x = g x) -> find f l = find g l.
Proof.
  induction l as [|a l IH]; [done|]. intros H. simpl.
  rewrite (H a) by (by left). destruct (g a); [done|].
  apply IH. intros x Hx. apply H. by right.
Qed.

Lemma companies_ascii (kv : string * value) :
  In kv companies -> all_ascii (fst kv) = true.
Proof.
  unfold companies. simpl. intros [<-|[<-|[<-|[<-|[<-|[]]]]]]; reflexivity.
Qed.

Lemma first_match_ascii_text (l : string) :
  first_match (ascii_text l) = first_match l.
Proof.
  unfold first_match. apply find_ext_in. intros kv Hkv.
  apply matches_ascii_text. by apply companies_ascii.
Qed.

(** X6. The fallback lookup does not see the case of a name, nor anything
    of it but the ASCII text of its lowercase form: two names with the same
    lowercase form, or whose lowercase forms have the same ASCII text, match
    the same key, and when they match they get the same record. So
    [GOOGLE Inc] gets the Google record, the name spelt with the Kelvin
    sign for its last letter gets the Meta record as the name facebook
    does, and a capital or a small accented letter before [Apple] makes no
    difference. *)
Theorem fallback_ignores_case (n1 n2 : string) :
  (PyStr.lower n1 = PyStr.lower n2
   \/ ascii_text (PyStr.lower n1) = ascii_text (PyStr.lower n2)) ->
  first_match (PyStr.lower n1) = first_match (PyStr.lower n2)
  /\ (forall k rec,
        first_match (PyStr.lower n1) = Some (k, rec) ->
        _get_fallback_company_info (VStr n1) = Return rec
        /\ _get_fallback_company_info (VStr n2) = Return rec)
  /\ _get_fallback_company_info (VStr "GOOGLE Inc") = Return google_record
  /\ _get_fallback_company_info (VStr ("FACEBOO" ++ PyStr.kelvin))
     = _get_fallback_company_info (VStr "facebook")
  /\ _get_fallback_company_info (VStr (MoreExamples.E_acute ++ "Apple"))
     = _get_fallback_company_info (VStr (MoreExamples.e_acute ++ "APPLE")).
Proof.
  intros H.
  assert (Hm : first_match (PyStr.lower n1) = first_match (PyStr.lower n2)).
  { destruct H as [H|H]; [by rewrite H|].
    by rewrite <- (first_match_ascii_text (PyStr.lower n1)), H, first_match_ascii_text. }
  split; [done|]. split; [|repeat split; reflexivity].
  intros k rec Hk.
  rewrite !fallback_unfold, <- Hm, Hk. done.
Qed.

Lemma table_record_keys (k : string) (rec : value) :
  In (k, rec) companies -> exists d, rec = VDict d /\ map fst d = record_keys.
Proof.
  unfold companies; simpl.
  intros [H|[H|[H|[H|[H|[]]]]]]; inversion H; subst; by eexists.
Qed.

(** X7. Whatever the provider does, the record [get_company_info] returns
    for a name has the seven keys of a company record, in the same order,
    followed by [employees] only when the record comes from the provider:
    no caller meets a record that lacks one of them. *)
Theorem company_record_keys (w : World) (name : string) (st : St) (rec : value) :
  fst (get_company_info w (VStr name) st) = Return rec ->
  exists d,
    rec = VDict d
    /\ (map fst d = record_keys \/ map fst d = record_keys ++ ["employees"]).
Proof.
  rewrite get_company_info_run. cbv zeta. cbn [fst].
  assert (Hfb : forall v, _get_fallback_company_info (VStr name) = Return v ->
                exists d, v = VDict d /\ map fst d = record_keys).
  { intros v. rewrite fallback_unfold. intros [= <-].
    destruct (first_match _) as [[k r]|] eqn:Hfind; [|by eexists].
    unfold first_match in Hfind. apply find_some in Hfind as [Hin _].
    by eapply table_record_keys. }
  assert (Hfb' : forall v, _get_fallback_company_info (VStr name) = Return v ->
                 exists d, v = VDict d
                   /\ (map fst d = record_keys \/ map fst d = record_keys ++ ["employees"])).
  { intros v Hv. destruct (Hfb v Hv) as (d & -> & Hd). eauto. }
  unfold_monad.
  destruct (company_request w (VStr name) st) as [r|e]; [|apply Hfb'].
  destruct (status_code r =? 200)%Z.
  2: { destruct (_get_fallback_company_info (VStr name)) eqn:E; [|done].
       intros [= <-]. by apply Hfb'. }
  destruct (response_json r) as [data|e]; [|apply Hfb'].
  destruct (has_items data) as [[]|e]; [| |apply Hfb'].
  - destruct (Py.getitem data "items") as [items|e]; [|apply Hfb'].
    destruct (Py.getitem0 items) as [item|e]; [|apply Hfb'].
    destruct (company_of_item item (VStr name)) as [v|e] eqn:Hitem; [|apply Hfb'].
    intros [= <-]. destruct item; try done.
    injection Hitem as <-. eexists. split; [reflexivity|]. by right.
  - destruct (_get_fallback_company_info (VStr name)) eqn:E; [|done].
    intros [= <-]. by apply Hfb'.
Qed.

(** * More properties: the agent *)

(** X8. A step handed out by [_add_step] stays the caller's: [_add_step]
    puts the new step, in progress, after the steps there are and leaves
    those alone, and [complete] on a step changes that step only, keeping
    its description, reasoning and start time, whatever was added since. *)
Theorem complete_touches_one_step (w : World) (h : nat) (ok : bool)
    (res : value) (conf : option Q) (st : St) (s : ResearchStep)
    (d : string) (r : option string) :
  steps st !! h = Some s ->
  (let st' := snd (complete w h ok res conf st) in
   steps st' !! h
   = Some {| description := description s; reasoning := reasoning s;
             status := if ok then completed else failed; result := res;
             start_time := start_time s;
             end_time := Some (clock w (ticks st)); confidence := conf |}
   /\ length (steps st') = length (steps st)
   /\ (forall i, i <> h -> steps st' !! i = steps st !! i)
   /\ log st' = log st /\ profiles st' = profiles st)
  /\ (let st' := snd (_add_step w d r st) in
      fst (_add_step w d r st) = Return (length (steps st))
      /\ steps st' !! length (steps st)
         = Some {| description := d; reasoning := r; status := in_progress;
                   result := VNone; start_time := clock w (ticks st);
                   end_time := None; confidence := None |}
      /\ (forall i, i < length (steps st) -> steps st' !! i = steps st !! i)
      /\ length (steps st') = S (length (steps st))).
Proof.
  intros Hs. split; cbv zeta.
  - unfold complete. cbn [snd steps log profiles tick with_steps].
    split; [by rewrite list_lookup_alter_eq, Hs|].
    split; [by rewrite length_alter|].
    split; [|done]. intros i Hi. by rewrite list_lookup_alter_ne.
  - unfold _add_step. cbn [fst snd steps tick with_steps].
    split; [done|]. split.
    + by rewrite lookup_app_r, Nat.sub_diag by lia.
    + split; [|rewrite length_app; simpl; lia].
      intros i Hi. by rewrite lookup_app_l.
Qed.

(** X9. [research_linkedin] never raises. What it returns echoes the query,
    has at least one step, and is of one of two shapes: company, profiles,
    insights and summary with no error marker, or the error marker with
    none of the four. *)
Theorem research_result_shape (w : World) (query : string) (st : St) :
  exists res,
    fst (research_linkedin w query st) = Return res
    /\ res_query res = query
    /\ res_steps res
       = map to_dict (steps (snd (research_linkedin w query st)))
    /\ res_steps res <> []
    /\ ((res_error res = None
         /\ is_Some (res_company res) /\ is_Some (res_profiles res)
         /\ is_Some (res_insights res) /\ is_Some (res_summary res))
        \/ (is_Some (res_error res)
            /\ res_company res = None /\ res_profiles res = None
            /\ res_insights res = None /\ res_summary res = None)).
Proof.
  rewrite research_linkedin_run, research_run.
  destruct (research_body w query (fresh_agent st)) as [[res|e] s1] eqn:Hbody.
  - rewrite research_body_split in Hbody.
    apply bind_return in Hbody as ([c r] & s4 & _ & Hbody).
    apply bind_return in Hbody as ([] & s5 & _ & Hbody).
    apply bind_return in Hbody as ([] & s6 & Hsum & Hbody).
    unfold get_state in Hbody. injection Hbody as <- <-.
    apply stage_summary_returned in Hsum
      as (_ & _ & _ & _ & _ & _ & _ & _ & _ & _ & _ & s & Hsteps & _).
    eexists. split; [reflexivity|]. cbn [fst snd success_results res_query
      res_steps res_error res_company res_profiles res_insights res_summary].
    split; [done|]. split; [done|]. split.
    + rewrite Hsteps, map_app. by destruct (map to_dict (steps s5)).
    + left. by repeat split.
  - rewrite research_handler_run. cbv zeta. eexists. split; [reflexivity|].
    cbn [fst snd error_results res_query res_steps res_error res_company
      res_profiles res_insights res_summary steps tick with_steps].
    split; [done|]. split; [done|]. split.
    + rewrite map_app. by destruct (map to_dict (steps s1)).
    + right. by repeat split.
Qed.

(** X10. A reply of the analysis call that parses, but not to a JSON
    object, is not absorbed: [research] raises on its [get], no request is
    made to the provider, and the run returns the error marker with the
    analysis step still in progress. *)
Theorem analysis_not_an_object_fails_the_run (w : World) (query : string)
    (st : St) (content : option string) (v : value) :
  chat_completions_create w (length (log st)) (analysis_request query) = Return content ->
  loads w content = Return v ->
  is_dictb v = false ->
  let st' := snd (research_linkedin w query st) in
  exists res,
    fst (research_linkedin w query st) = Return res
    /\ res_error res
       = Some ("'" ++ Py.type_name v ++ "' object has no attribute 'get'")%string
    /\ events_since st st' = [EvChat (analysis_request query) (Return content)]
    /\ map (fun s => (sd_description s, sd_status s)) (res_steps res)
       = [("Initializing LinkedIn research", completed);
          ("Analyzing query", in_progress);
          ("Error in research process", failed)].
Proof.
  intros Hchat Hloads Hv. cbv zeta.
  rewrite research_linkedin_run, research_run.
  assert (Hbody : exists s1,
             research_body w query (fresh_agent st)
             = (Raise (Py.no_attribute v "get"), s1)
             /\ log s1 = log st ++ [EvChat (analysis_request query) (Return content)]
             /\ map (fun s => (description s, status s)) (steps s1)
                = [("Initializing LinkedIn research", completed);
                   ("Analyzing query", in_progress)]).
  { unfold research_body. rewrite bind_run.
    unfold stage_init. rewrite bind_run. unfold _add_step at 1, complete at 1.
    cbv beta iota zeta. rewrite bind_run.
    unfold stage_analyze. rewrite bind_run. unfold _add_step at 1.
    cbv beta iota zeta. rewrite bind_run, analyze_query_run. cbv zeta.
    cbn [log tick with_steps fresh_agent]. rewrite Hchat, Hloads.
    cbv beta iota. rewrite bind_run. unfold lift at 1.
    destruct v; try done; eexists; (split; [reflexivity|]); by split. }
  destruct Hbody as (s1 & -> & Hlog & Hsteps).
  rewrite research_handler_run. cbv zeta. eexists. split; [reflexivity|].
  cbn [fst snd error_results res_error res_steps steps log tick with_steps].
  split; [done|]. split.
  - unfold events_since. cbn [log tick with_steps].
    by rewrite Hlog, drop_app_length.
  - rewrite map_map, map_app.
    rewrite (map_ext _ (fun s => (description s, status s))) by done.
    by rewrite Hsteps.
Qed.

(** X11. The summary is made from the first five profiles only: the
    profiles after the fifth neither reach the prompt nor can make
    [_create_summary] raise. *)
Theorem summary_uses_first_five_profiles (w : World) (query : string)
    (st : St) (others : list value) :
  take 5 others = take 5 (profiles st) ->
  fst (_create_summary w query (with_profiles others st))
  = fst (_create_summary w query st)
  /\ events_since st (snd (_create_summary w query (with_profiles others st)))
     = events_since st (snd (_create_summary w query st)).
Proof.
  intros Htake. rewrite !create_summary_run.
  cbn [profiles company_info insights log with_profiles]. rewrite Htake.
  destruct (format_profiles w 1 (take 5 (profiles st))) as [texts|e]; [|done].
  destruct (company_text_of w (company_info st)) as [ct|e]; [|done].
  by destruct (Py.iter (insights st)) as [items|e].
Qed.

(** * More properties: the task runner *)

(** X12. [run_research_task] on an id the database does not have does
    nothing: no record changes, no service is called, nothing is raised. *)
Theorem run_research_task_unknown_id (w : World) (id : Z) (sys : Sys) :
  queries (db sys) !! id = None ->
  run_research_task w id sys = (Return tt, sys).
Proof.
  intros Hq. unfold run_research_task, try_except. rewrite bind_run.
  unfold get_state at 1. by rewrite Hq.
Qed.

Lemma handler_state_start (f : Session.Faults) (id : Z) (e : exn) (sys : Sys)
    (rq : ResearchQuery) :
  queries (db sys) !! id = Some rq ->
  handler_state f id e (Session.start sys)
  = match Session.handler_get_fails f, Session.handler_commit_fails f with
    | None, None =>
        Session.start (with_db (update_query id (mark_failed (exn_str e)) (db sys)) sys)
    | _, _ => Session.start sys
    end.
Proof.
  intros Hq. unfold handler_state. cbn [Session.start Session.live Session.stored].
  rewrite Hq. destruct (Session.handler_get_fails f); [done|].
  destruct (Session.handler_commit_fails f); [|done].
  unfold Session.start, with_db. by destruct sys.
Qed.

Lemma lookup_update_query (id : Z) (g : ResearchQuery -> ResearchQuery) (d : Db)
    (rq : ResearchQuery) :
  queries d !! id = Some rq -> queries (update_query id g d) !! id = Some (g rq).
Proof. intros H. unfold update_query. cbn [queries]. by rewrite lookup_alter_eq, H. Qed.

Lemma lookup_update_query_ne (id other : Z) (g : ResearchQuery -> ResearchQuery) (d : Db) :
  other <> id -> queries (update_query id g d) !! other = queries d !! other.
Proof. intros H. unfold update_query. cbn [queries]. by rewrite lookup_alter_ne by congruence. Qed.

Ltac session_leaf Hq :=
  unfold Session.start, with_db, add_rows;
  cbn [Session.stored snd db queries step_rows profile_rows insight_rows];
  split; [intros other Hother; by rewrite ?lookup_update_query_ne by done|];
  split; [eexists; split; [repeat (apply lookup_update_query); exact Hq|];
          cbn [rq_query rq_status mark_failed mark_in_progress mark_completed];
          split; [reflexivity|];
          repeat split; intros; try congruence; try tauto; auto|];
  try (exists (@nil StepRow), (@nil LinkedInProfile), (@nil Insight);
       by rewrite !app_nil_r).

(** X13. [run_research_task] never raises, whichever calls to the session
    raise, and it keeps to its record: the other queries stay as they are
    stored, the text of the query is kept, and rows are only added. The
    record ends completed or failed when no call of the [try] raises, and
    also when one does and the two calls of the handler go through. When
    the first commit goes through, the commit that ends the [try] raises
    and a call of the handler raises too, the record stays in progress:
    the error is swallowed. *)
Theorem run_research_task_keeps_to_its_record (f : Session.Faults) (w : World)
    (id : Z) (rq : ResearchQuery) (sys : Sys) :
  queries (db sys) !! id = Some rq ->
  let d' := Session.stored
              (snd (Session.run_research_task f w id (Session.start sys))) in
  (forall s, fst (Session.run_research_task f w id s) = Return tt)
  /\ (forall other, other <> id -> queries d' !! other = queries (db sys) !! other)
  /\ (exists rq',
        queries d' !! id = Some rq'
        /\ rq_query rq' = rq_query rq
        /\ (Session.get_fails f = None ->
            Session.commit_in_progress_fails f = None ->
            Session.commit_failed_fails f = None ->
            Session.commit_results_fails f = None ->
            rq_status rq' = "completed" \/ rq_status rq' = "failed")
        /\ (Session.handler_get_fails f = None ->
            Session.handler_commit_fails f = None ->
            rq_status rq' = "completed" \/ rq_status rq' = "failed")
        /\ (Session.get_fails f = None ->
            Session.commit_in_progress_fails f = None ->
            Session.commit_failed_fails f <> None ->
            Session.commit_results_fails f <> None ->
            Session.handler_get_fails f <> None
            \/ Session.handler_commit_fails f <> None ->
            rq_status rq' = "in_progress"))
  /\ (exists ss ps ins,
        step_rows d' = (step_rows (db sys) ++ ss)%list
        /\ profile_rows d' = (profile_rows (db sys) ++ ps)%list
        /\ insight_rows d' = (insight_rows (db sys) ++ ins)%list).
Proof.
  intros Hq. cbv zeta. split; [intros s; apply session_never_raises|].
  destruct (research_linkedin_returns w (rq_query rq) (agent sys)) as (res & st' & Hrun & Hok).
  pose proof (session_run f w id rq sys res st' Hq Hrun Hok) as Hend.
  destruct (run_research_task_run w id rq sys res st' Hq Hrun Hok)
    as (rows & items & Hrows & Hitems & Hsys).
  pose proof (lookup_update_query id mark_in_progress _ _ Hq) as Hq1.
  unfold session_end in Hend. rewrite Hsys in Hend. clear Hsys.
  unfold with_db in Hend. cbn [db agent snd] in Hend.
  destruct (Session.get_fails f) as [e1|] eqn:Hg.
  { rewrite (handler_state_start f id _ sys rq Hq) in Hend.
    destruct (Session.handler_get_fails f) eqn:Hhg; [rewrite Hend; session_leaf Hq|].
    destruct (Session.handler_commit_fails f) eqn:Hhc; rewrite Hend; session_leaf Hq. }
  destruct (Session.commit_in_progress_fails f) as [e2|] eqn:Hc1.
  { rewrite (handler_state_start f id _ sys rq Hq) in Hend.
    destruct (Session.handler_get_fails f) eqn:Hhg; [rewrite Hend; session_leaf Hq|].
    destruct (Session.handler_commit_fails f) eqn:Hhc; rewrite Hend; session_leaf Hq. }
  destruct (res_error res) as [message|] eqn:Herr.
  - destruct (Session.commit_failed_fails f) as [e3|] eqn:Hc2;
      [|rewrite Hend; session_leaf Hq].
    rewrite (handler_state_start f id _ {| db := _; agent := _ |} _ Hq1) in Hend.
    destruct (Session.handler_get_fails f) eqn:Hhg; [rewrite Hend; session_leaf Hq|].
    destruct (Session.handler_commit_fails f) eqn:Hhc; rewrite Hend; session_leaf Hq.
  - destruct (Session.commit_results_fails f) as [e3|] eqn:Hc3.
    + rewrite (handler_state_start f id _ {| db := _; agent := _ |} _ Hq1) in Hend.
      destruct (Session.handler_get_fails f) eqn:Hhg; [rewrite Hend; session_leaf Hq|].
      destruct (Session.handler_commit_fails f) eqn:Hhc; rewrite Hend; session_leaf Hq.
    + rewrite Hend. session_leaf Hq.
      cbn [step_rows profile_rows insight_rows update_query].
      by eexists _, _, _.
Qed.

Lemma dict_get_ok (d : list (string * value)) (k : string) (dflt : value) :
  Py.get (VDict d) k dflt = Return (default dflt (Py.lookup k d)).
Proof. unfold Py.get. by destruct (Py.lookup k d). Qed.

(** X14. The expertise of a profile survives the database when JSON text
    does: a profile whose expertise is there and truthy is stored as its
    JSON text, which the status endpoint parses back to the same value; a
    profile whose expertise is missing or falsy comes back with the empty
    list. *)
Theorem expertise_round_trip (w : World) (id : Z) (d : list (string * value)) :
  exists row,
    profile_row_of w id (VDict d) = Return row
    /\ (forall e,
          Py.lookup "expertise" d = Some e -> Py.truthy e = true ->
          json_dumps w e <> "" -> json_loads w (json_dumps w e) = Return e ->
          api_profile_expertise w (profile_expertise row) = e)
    /\ ((Py.lookup "expertise" d = None
         \/ exists e, Py.lookup "expertise" d = Some e /\ Py.truthy e = false) ->
        profile_expertise row = None
        /\ api_profile_expertise w (profile_expertise row) = VList []).
Proof.
  unfold profile_row_of. unfold_monad. rewrite !dict_get_ok.
  cbn [Py.contains Py.getitem].
  destruct (Py.lookup "expertise" d) as [e|] eqn:He.
  - eexists. split; [reflexivity|]. cbn [profile_expertise]. split.
    + intros e' [= <-] Ht Hne Hrt. rewrite Ht. unfold api_profile_expertise.
      apply String.eqb_neq in Hne. by rewrite Hne, Hrt.
    + intros [|(e' & [= <-] & Hf)]; [done|]. by rewrite Hf.
  - eexists. split; [reflexivity|]. cbn [profile_expertise]. split; [done|].
    by intros _.
Qed.

(** * More properties: the trace of a run *)

Lemma stage_init_trace (w : World) (st st' : St) :
  stage_init w st = (Return tt, st') ->
  exists s, step_added st st' s "Initializing LinkedIn research".
Proof.
  unfold stage_init. rewrite bind_run. unfold _add_step at 1. cbv beta iota zeta.
  erewrite complete_last by (cbn [steps tick with_steps]; reflexivity).
  intros [= <-]. eexists. by split.
Qed.

Lemma stage_analyze_trace (w : World) (query : string) (st st' : St)
    (a : value * value) :
  stage_analyze w query st = (Return a, st') ->
  exists s, step_added st st' s "Analyzing query".
Proof.
  unfold stage_analyze. rewrite bind_run. unfold _add_step at 1. cbv beta iota zeta.
  rewrite bind_run, analyze_query_run. cbv beta iota zeta.
  rewrite bind_run. unfold lift at 1.
  destruct (Py.get _ "company" VNone) as [c|e]; [|done].
  rewrite bind_run. unfold lift at 1.
  destruct (Py.get _ "roles" _) as [r|e]; [|done].
  rewrite bind_run. unfold lift at 1.
  destruct (Py.get _ "technologies" _) as [t|e]; [|done].
  rewrite bind_run.
  erewrite complete_last by (cbn [steps tick with_steps emit]; reflexivity).
  unfold ret. intros [= <- <-]. eexists. by split.
Qed.

Lemma stage_company_trace (w : World) (c : value) (st st' : St) :
  stage_company w c st = (Return tt, st') ->
  (Py.truthy c = false /\ steps st' = steps st)
  \/ (Py.truthy c = true
      /\ exists s, step_added st st' s ("Researching company: " ++ py_str w c)).
Proof.
  unfold stage_company. destruct (Py.truthy c); [|intros [= <-]; by left].
  rewrite bind_run. unfold _add_step at 1. cbv beta iota zeta.
  rewrite bind_run, get_company_info_run. cbv beta iota zeta.
  match goal with |- context [match ?o with Return v => Return v | Raise _ => _ end] =>
    destruct o as [info|e] end.
  - destruct (Py.truthy info).
    + rewrite bind_run.
      erewrite complete_last by (cbn [steps tick with_steps emit]; reflexivity).
      intros [= <-]. right. split; [done|]. eexists. by split.
    + erewrite complete_last by (cbn [steps tick with_steps emit]; reflexivity).
      intros [= <-]. right. split; [done|]. eexists. by split.
  - destruct (_get_fallback_company_info c) as [info|e']; [|done].
    destruct (Py.truthy info).
    + rewrite bind_run.
      erewrite complete_last by (cbn [steps tick with_steps emit]; reflexivity).
      intros [= <-]. right. split; [done|]. eexists. by split.
    + erewrite complete_last by (cbn [steps tick with_steps emit]; reflexivity).
      intros [= <-]. right. split; [done|]. eexists. by split.
Qed.

(** What a search stage that returns has done: the steps it added and the
    profiles it left. *)
Lemma stage_search_outcome (w : World) (query : string) (c r : value)
    (st st' : St) :
  stage_search w query c r st = (Return tt, st') ->
  (exists new,
      steps st' = steps st ++ new
      /\ forallb finishedb new = true
      /\ (map description new = ["Searching for professionals"]
          \/ map description new
             = ["Searching for professionals"; "Attempting broader search"]))
  /\ profiles st'
     = default (profiles st)
         (find nonempty (map found_profiles (http_responses (events_since st st')))).
Proof.
  unfold stage_search. rewrite bind_run. unfold _add_step at 1. cbv beta iota zeta.
  rewrite bind_run. unfold lift at 1.
  destruct (if Py.truthy r then Py.getitem0 r else Return (VStr query)) as [term|e];
    [|done].
  rewrite bind_run.
  set (st1 := tick (with_steps _ st)).
  assert (Hst1 : steps st1 = steps st ++ [ResearchStep_init "Searching for professionals"
            (Some "Finding relevant professionals based on query criteria.") (clock w (ticks st))])
    by done.
  assert (Hlog1 : log st1 = log st) by done.
  assert (Hps1 : profiles st1 = profiles st) by done.
  clearbody st1.
  assert (Hcall : (if Py.truthy c then search_people w term c
                   else search_people w term VNone) st1
                  = search_people w term (if Py.truthy c then c else VNone) st1)
    by by destruct (Py.truthy c).
  rewrite Hcall, search_people_run. cbv beta iota zeta.
  set (org := if Py.truthy c then c else VNone).
  set (resp1 := search_request w term org st1).
  destruct (found_profiles resp1) as [|p ps] eqn:Hfound.
  - rewrite !bind_run.
    erewrite complete_last by (cbn [steps emit]; exact Hst1).
    cbv beta iota. unfold _add_step at 1. cbv beta iota zeta.
    rewrite !bind_run, !search_people_run. cbv beta iota zeta.
    match goal with |- context [found_profiles ?resp] =>
      set (resp2 := resp) end.
    destruct (found_profiles resp2) as [|q qs] eqn:Hfound2.
    all: rewrite ?bind_run.
    all: erewrite complete_last by (cbn [steps emit tick with_steps]; reflexivity).
    all: intros [= <-]; unfold events_since.
    all: cbn [fst snd steps log profiles tick with_steps emit with_profiles modify].
    all: rewrite Hlog1, <- !app_assoc, !drop_app_length.
    all: cbn [app http_responses map find]; rewrite Hfound, Hfound2.
    all: cbn [nonempty default from_option id].
    all: split; [|done].
    all: eexists; split; [reflexivity|].
    all: split; [done|by right].
  - rewrite !bind_run.
    erewrite complete_last by (cbn [steps emit]; exact Hst1).
    intros [= <-]. unfold events_since.
    cbn [fst snd steps log profiles tick with_steps emit with_profiles modify].
    rewrite Hlog1, <- !app_assoc, !drop_app_length.
    cbn [app http_responses map find]. rewrite Hfound.
    cbn [nonempty default from_option id]. split; [|done].
    eexists. split; [reflexivity|]. split; [done|by left].
Qed.

Lemma stage_insights_trace (w : World) (c r : value) (st st' : St) :
  stage_insights w c r st = (Return tt, st') ->
  (profiles st = [] /\ steps st' = steps st)
  \/ (profiles st <> []
      /\ exists s, step_added st st' s "Analyzing professional profiles").
Proof.
  rewrite stage_insights_run.
  destruct (profiles st) as [|p ps] eqn:Hps; [intros [= <-]; by left|].
  cbv zeta. rewrite generate_insights_run.
  destruct (format_profiles w 1 _) as [texts|e]; [|done].
  destruct (roles_context_of r) as [rc|e]; [|done].
  cbv beta iota zeta.
  match goal with |- context [Py.len ?v] => destruct (Py.len v) as [n|e] end; [|done].
  erewrite complete_last
    by (unfold _add_step; cbn [steps emit snd tick with_steps]; reflexivity).
  intros [= <-]. right. split; [done|]. eexists. by split.
Qed.

Lemma stage_summary_trace (w : World) (query : string) (st st' : St) :
  stage_summary w query st = (Return tt, st') ->
  exists s, step_added st st' s "Creating research summary".
Proof.
  rewrite stage_summary_run. cbv zeta. rewrite create_summary_run.
  unfold _add_step. cbn [snd profiles company_info insights log tick with_steps].
  destruct (format_profiles w 1 _) as [texts|e]; [|done].
  destruct (company_text_of w _) as [ct|e]; [|done].
  destruct (Py.iter _) as [items|e]; [|done].
  cbv zeta.
  erewrite complete_last by (cbn [steps emit tick with_steps]; reflexivity).
  intros [= <-]. eexists. by split.
Qed.

(** X15. Of the searches of the Search stage the agent keeps the profiles
    of the first one that found any, whole and alone: the broader search
    never adds to what the primary search found, and when neither finds
    anybody the profiles of the agent are what they were. *)
Theorem search_stage_keeps_first_result (w : World) (query : string)
    (c r : value) (st st' : St) :
  stage_search w query c r st = (Return tt, st') ->
  profiles st'
  = default (profiles st)
      (find nonempty (map found_profiles (http_responses (events_since st st')))).
Proof. intros H. by apply stage_search_outcome in H as [_ H]. Qed.

(** X16. The trace of a run that returns without an error marker: the
    initialization and the analysis, one step for the company when the
    analysis named one, the search and at most one broader search, one step
    for the insights when profiles were found, and the summary last; four
    to seven steps, each of them completed or failed with its end time. *)
Theorem successful_trace_shape (w : World) (query : string) (st : St)
    (res : Results) (st' : St) :
  research_linkedin w query st = (Return res, st') ->
  res_error res = None ->
  exists company_steps broader insight_steps,
    map sd_description (res_steps res)
    = ["Initializing LinkedIn research"; "Analyzing query"]
      ++ company_steps ++ ["Searching for professionals"] ++ broader
      ++ insight_steps ++ ["Creating research summary"]
    /\ length company_steps <= 1
    /\ (broader = [] \/ broader = ["Attempting broader search"])
    /\ (insight_steps = [] /\ profiles st' = []
        \/ insight_steps = ["Analyzing professional profiles"] /\ profiles st' <> [])
    /\ 4 <= length (res_steps res) <= 7
    /\ Forall (fun s => sd_status s <> in_progress /\ is_Some (sd_end_time s))
         (res_steps res).
Proof.
  intros Hrun Herr.
  destruct (research_success _ _ _ _ _ Hrun Herr)
    as (-> & c & r & s4 & s5 & Hpre & Hins & Hsum).
  unfold pre_insight in Hpre.
  apply bind_return in Hpre as ([] & s1 & Hinit & Hpre).
  apply bind_return in Hpre as ([c' r'] & s2 & Han & Hpre).
  apply bind_return in Hpre as ([] & s3 & Hco & Hpre).
  apply bind_return in Hpre as ([] & s4' & Hse & Hpre).
  unfold ret in Hpre. injection Hpre as -> -> ->.
  apply stage_init_trace in Hinit as (i1 & Hs1 & Hf1 & Hd1).
  apply stage_analyze_trace in Han as (i2 & Hs2 & Hf2 & Hd2).
  pose proof (stage_insights_profiles w c r s4) as Hp5. rewrite Hins in Hp5.
  pose proof (stage_summary_profiles w query s5) as Hp6. rewrite Hsum in Hp6.
  cbn [snd] in Hp5, Hp6.
  apply stage_search_outcome in Hse as ((new & Hs4 & Hf4 & Hd4) & _).
  apply stage_summary_trace in Hsum as (i6 & Hs6 & Hf6 & Hd6).
  assert (Hco' : exists cs, steps s3 = steps s2 ++ cs /\ forallb finishedb cs = true
                            /\ length cs <= 1).
  { apply stage_company_trace in Hco as [[_ Hco]|[_ (s & Hco & Hf & _)]].
    - exists []. rewrite app_nil_r. repeat split; [done|simpl; lia].
    - exists [s]. simpl. rewrite Hf. repeat split; [done|lia]. }
  destruct Hco' as (cs & Hs3 & Hf3 & Hl3).
  assert (Hins' : exists is_, steps s5 = steps s4 ++ is_ /\ forallb finishedb is_ = true
            /\ (is_ = [] /\ profiles s4 = []
                \/ map description is_ = ["Analyzing professional profiles"]
                   /\ profiles s4 <> [])).
  { apply stage_insights_trace in Hins as [[Hn Hins]|[Hn (s & Hins & Hf & Hd)]].
    - exists []. rewrite app_nil_r. split; [done|]. split; [done|]. by left.
    - exists [s]. simpl. rewrite Hf, Hd. split; [done|]. split; [done|]. by right. }
  destruct Hins' as (is_ & Hs5 & Hf5 & Hi5).
  assert (Hfresh : steps (fresh_agent st) = []) by done.
  assert (Hall : steps st' = [i1; i2] ++ cs ++ new ++ is_ ++ [i6]).
  { rewrite Hs6, Hs5, Hs4, Hs3, Hs2, Hs1, Hfresh. by rewrite <- !app_assoc. }
  cbn [res_steps success_results]. rewrite Hall.
  exists (map description cs), (tail (map description new)), (map description is_).
  assert (Hdesc : forall l, map sd_description (map to_dict l) = map description l).
  { intros l. rewrite map_map. by apply map_ext. }
  split.
  { rewrite Hdesc, !map_app. cbn [map app]. rewrite Hd1, Hd2, Hd6.
    by destruct Hd4 as [-> | ->]. }
  split; [by rewrite length_map|].
  split; [destruct Hd4 as [-> | ->]; [by left|by right]|].
  split.
  { rewrite Hp6, Hp5. destruct Hi5 as [[-> Hn]|[-> Hn]]; [by left|by right]. }
  split.
  { rewrite length_map, !length_app. cbn [length].
    assert (length new = 1 \/ length new = 2) as Hn.
    { destruct Hd4 as [Hd4|Hd4]; apply (f_equal length) in Hd4;
        rewrite length_map in Hd4; simpl in Hd4; lia. }
    assert (length is_ <= 1).
    { destruct Hi5 as [[-> _]|[Hi _]]; [simpl; lia|].
      apply (f_equal length) in Hi. rewrite length_map in Hi. simpl in Hi. lia. }
    lia. }
  apply Forall_map.
  assert (Hfin : forallb finishedb ([i1; i2] ++ cs ++ new ++ is_ ++ [i6]) = true).
  { rewrite !forallb_app. cbn [forallb app].
    by rewrite Hf1, Hf2, Hf3, Hf4, Hf5, Hf6. }
  apply Forall_forall. intros s Hs.
  rewrite forallb_forall in Hfin. specialize (Hfin s).
  assert (finishedb s = true) as Hfs.
  { apply Hfin. by apply list_elem_of_In. }
  unfold finishedb in Hfs. cbn [to_dict sd_status sd_end_time].
  destruct (status s), (end_time s); try done; by split.
Qed.

(** * More properties: the calls of a run *)

Lemma count_events_app (kind : Event -> bool) (evs1 evs2 : list Event) :
  count_events kind (evs1 ++ evs2) = count_events kind evs1 + count_events kind evs2.
Proof. unfold count_events. by rewrite List.filter_app, length_app. Qed.

Lemma budget_silent {A} (m : M A) :
  (forall st, log (snd (m st)) = log st) -> within_budget 0 0 0 m.
Proof.
  intros H st. exists []. rewrite H, app_nil_r. split; [done|]. cbn. lia.
Qed.

Lemma budget_weaken {A} (c h s c' h' s' : nat) (m : M A) :
  within_budget c h s m -> c <= c' -> h <= h' -> s <= s' ->
  within_budget c' h' s' m.
Proof.
  intros Hm Hc Hh Hs st. destruct (Hm st) as (evs & Hlog & ? & ? & ?).
  exists evs. split; [done|lia].
Qed.

Lemma budget_bind {A B} (c1 h1 s1 c2 h2 s2 : nat) (m : M A) (k : A -> M B) :
  within_budget c1 h1 s1 m -> (forall a, within_budget c2 h2 s2 (k a)) ->
  within_budget (c1 + c2) (h1 + h2) (s1 + s2) (m ≫= k).
Proof.
  intros Hm Hk st. rewrite bind_run.
  destruct (Hm st) as (evs1 & Hlog1 & ? & ? & ?).
  destruct (m st) as [[a|e] st1]; cbn [snd] in *.
  - destruct (Hk a st1) as (evs2 & Hlog2 & ? & ? & ?).
    exists (evs1 ++ evs2). rewrite Hlog2, Hlog1, app_assoc, !count_events_app.
    split; [done|lia].
  - exists evs1. split; [done|lia].
Qed.

Lemma budget_try_except {A} (c1 h1 s1 c2 h2 s2 : nat) (m : M A) (k : exn -> M A) :
  within_budget c1 h1 s1 m -> (forall e, within_budget c2 h2 s2 (k e)) ->
  within_budget (c1 + c2) (h1 + h2) (s1 + s2) (try_except m k).
Proof.
  intros Hm Hk st. unfold try_except.
  destruct (Hm st) as (evs1 & Hlog1 & ? & ? & ?).
  destruct (m st) as [[a|e] st1]; cbn [snd] in *.
  - exists evs1. split; [done|lia].
  - destruct (Hk e st1) as (evs2 & Hlog2 & ? & ? & ?).
    exists (evs1 ++ evs2). rewrite Hlog2, Hlog1, app_assoc, !count_events_app.
    split; [done|lia].
Qed.

Lemma budget_add_step (w : World) (d : string) (r : option string) :
  within_budget 0 0 0 (_add_step w d r).
Proof. by apply budget_silent. Qed.

Lemma budget_complete (w : World) (h : nat) (ok : bool) (res : value) (c : option Q) :
  within_budget 0 0 0 (complete w h ok res c).
Proof. by apply budget_silent. Qed.

Lemma budget_analyze_query (w : World) (query : string) :
  within_budget 1 0 0 (_analyze_query w query).
Proof.
  intros st. rewrite analyze_query_run. cbv zeta. eexists [_].
  split; [reflexivity|]. cbn. lia.
Qed.

Lemma budget_get_company_info (w : World) (name : value) :
  within_budget 0 1 0 (get_company_info w name).
Proof.
  intros st. rewrite get_company_info_run. cbv zeta. eexists [_].
  split; [reflexivity|]. cbn. lia.
Qed.

Lemma budget_search_people (w : World) (query company : value) :
  within_budget 0 1 1 (search_people w query company).
Proof.
  intros st. rewrite search_people_run. cbv zeta. eexists [_; _].
  split; [by cbn [snd log emit]; rewrite <- app_assoc|]. cbn. lia.
Qed.

Lemma budget_generate_insights (w : World) (ps : list value) (c r : value) :
  within_budget 1 0 0 (_generate_insights w ps c r).
Proof.
  intros st. rewrite generate_insights_run.
  destruct (format_profiles w 1 ps); [|exists []; rewrite app_nil_r; split; [done|cbn; lia]].
  destruct (roles_context_of r); [|exists []; rewrite app_nil_r; split; [done|cbn; lia]].
  cbv zeta. eexists [_]. split; [reflexivity|]. cbn. lia.
Qed.

Lemma budget_create_summary (w : World) (query : string) :
  within_budget 1 0 0 (_create_summary w query).
Proof.
  intros st. rewrite create_summary_run.
  destruct (format_profiles w 1 _); [|exists []; rewrite app_nil_r; split; [done|cbn; lia]].
  destruct (company_text_of w _); [|exists []; rewrite app_nil_r; split; [done|cbn; lia]].
  destruct (Py.iter _); [|exists []; rewrite app_nil_r; split; [done|cbn; lia]].
  cbv zeta. eexists [_]. split; [reflexivity|]. cbn. lia.
Qed.

Ltac budget_silent_step :=
  first [ apply budget_add_step | apply budget_complete
        | by apply budget_silent ].

Lemma budget_stage_init (w : World) : within_budget 0 0 0 (stage_init w).
Proof.
  unfold stage_init.
  apply (budget_bind 0 0 0 0 0 0); [budget_silent_step|]. intros.
  budget_silent_step.
Qed.

Lemma budget_stage_analyze (w : World) (query : string) :
  within_budget 1 0 0 (stage_analyze w query).
Proof.
  unfold stage_analyze.
  apply (budget_bind 0 0 0 1 0 0); [budget_silent_step|]. intros.
  apply (budget_bind 1 0 0 0 0 0); [apply budget_analyze_query|]. intros.
  apply (budget_bind 0 0 0 0 0 0); [budget_silent_step|]. intros.
  apply (budget_bind 0 0 0 0 0 0); [budget_silent_step|]. intros.
  apply (budget_bind 0 0 0 0 0 0); [budget_silent_step|]. intros.
  apply (budget_bind 0 0 0 0 0 0); [budget_silent_step|]. intros.
  budget_silent_step.
Qed.

Lemma budget_stage_company (w : World) (c : value) :
  within_budget 0 1 0 (stage_company w c).
Proof.
  unfold stage_company.
  destruct (Py.truthy c); [|by apply (budget_weaken 0 0 0); [budget_silent_step|lia..]].
  apply (budget_bind 0 0 0 0 1 0); [budget_silent_step|]. intros.
  apply (budget_bind 0 1 0 0 0 0); [apply budget_get_company_info|]. intros info.
  destruct (Py.truthy info); [|budget_silent_step].
  apply (budget_bind 0 0 0 0 0 0); [budget_silent_step|]. intros.
  budget_silent_step.
Qed.

Lemma budget_stage_search (w : World) (query : string) (c r : value) :
  within_budget 0 2 2 (stage_search w query c r).
Proof.
  unfold stage_search.
  apply (budget_bind 0 0 0 0 2 2); [budget_silent_step|]. intros.
  apply (budget_bind 0 0 0 0 2 2); [budget_silent_step|]. intros term.
  apply (budget_bind 0 1 1 0 1 1).
  { destruct (Py.truthy c); apply budget_search_people. }
  intros found. destruct found as [|p ps].
  - apply (budget_bind 0 0 0 0 1 1); [budget_silent_step|]. intros.
    apply (budget_bind 0 0 0 0 1 1); [budget_silent_step|]. intros.
    apply (budget_bind 0 1 1 0 0 0); [apply budget_search_people|].
    intros found. destruct found as [|p ps]; [budget_silent_step|].
    apply (budget_bind 0 0 0 0 0 0); [budget_silent_step|]. intros.
    budget_silent_step.
  - apply (budget_weaken 0 0 0); [|lia..].
    apply (budget_bind 0 0 0 0 0 0); [budget_silent_step|]. intros.
    budget_silent_step.
Qed.

Lemma budget_stage_insights (w : World) (c r : value) :
  within_budget 1 0 0 (stage_insights w c r).
Proof.
  unfold stage_insights.
  apply (budget_bind 0 0 0 1 0 0); [budget_silent_step|]. intros ps.
  destruct ps as [|p ps]; [by apply (budget_weaken 0 0 0); [budget_silent_step|lia..]|].
  apply (budget_bind 0 0 0 1 0 0); [budget_silent_step|]. intros.
  apply (budget_bind 1 0 0 0 0 0); [apply budget_generate_insights|]. intros.
  apply (budget_bind 0 0 0 0 0 0); [budget_silent_step|]. intros.
  apply (budget_bind 0 0 0 0 0 0); [budget_silent_step|]. intros.
  budget_silent_step.
Qed.

Lemma budget_stage_summary (w : World) (query : string) :
  within_budget 1 0 0 (stage_summary w query).
Proof.
  unfold stage_summary.
  apply (budget_bind 0 0 0 1 0 0); [budget_silent_step|]. intros.
  apply (budget_bind 1 0 0 0 0 0); [apply budget_create_summary|]. intros.
  apply (budget_bind 0 0 0 0 0 0); [budget_silent_step|]. intros.
  budget_silent_step.
Qed.

Lemma budget_research (w : World) (query : string) :
  within_budget 3 3 2 (research w query).
Proof.
  unfold research.
  apply (budget_try_except 3 3 2 0 0 0).
  - unfold research_body.
    apply (budget_bind 0 0 0 3 3 2); [apply budget_stage_init|]. intros.
    apply (budget_bind 1 0 0 2 3 2); [apply budget_stage_analyze|]. intros [c r].
    apply (budget_bind 0 1 0 2 2 2); [apply budget_stage_company|]. intros.
    apply (budget_bind 0 2 2 2 0 0); [apply budget_stage_search|]. intros.
    apply (budget_bind 1 0 0 1 0 0); [apply budget_stage_insights|]. intros.
    apply (budget_bind 1 0 0 0 0 0); [apply budget_stage_summary|]. intros.
    budget_silent_step.
  - intros e. unfold research_handler.
    apply (budget_bind 0 0 0 0 0 0); [budget_silent_step|]. intros.
    apply (budget_bind 0 0 0 0 0 0); [budget_silent_step|]. intros.
    budget_silent_step.
Qed.

(** X17. A run only adds to the log of calls, and it is bounded: at most
    three calls to the LLM service (analysis, insights, summary), at most
    three requests to the provider (the company and two searches) and at
    most two entries into [search_people], whatever the services answer
    and whether the run fails or not. *)
Theorem research_call_budget (w : World) (query : string) (st : St) :
  let st' := snd (research_linkedin w query st) in
  log st' = log st ++ events_since st st'
  /\ count_events is_chat (events_since st st') <= 3
  /\ count_events is_http (events_since st st') <= 3
  /\ count_events is_search (events_since st st') <= 2.
Proof.
  cbv zeta. rewrite research_linkedin_run.
  destruct (budget_research w query (fresh_agent st)) as (evs & Hlog & ? & ? & ?).
  cbn [log fresh_agent] in Hlog. unfold events_since.
  by rewrite Hlog, drop_app_length.
Qed.

Lemma research_tail_profiles (w : World) (query : string) (r : outcome unit) (s : St) :
  profiles (snd (research_tail w query r s)) = profiles s.
Proof.
  destruct r as [[]|e]; cbn [research_tail].
  - unfold try_except. rewrite bind_run.
    pose proof (stage_summary_profiles w query s) as Hp.
    destruct (stage_summary w query s) as [[[]|e] s6]; cbn [snd] in Hp.
    + by unfold get_state.
    + by rewrite research_handler_run.
  - by rewrite research_handler_run.
Qed.

(** X18. The insights are asked for only when somebody was found: a run
    that ends with no profile on the agent has made no insights request. *)
Theorem no_profiles_no_insights_call (w : World) (query : string) (st : St) :
  let st' := snd (research_linkedin w query st) in
  profiles st' = [] ->
  existsb is_insights_event (events_since st st') = false.
Proof.
  cbv zeta. rewrite research_linkedin_run, research_via_insights.
  set (p := fun ev => negb (is_insights_event ev)).
  assert (Hchat : forall req resp, is_insights_request req = false -> p (EvChat req resp) = true).
  { intros req resp H. unfold p. cbn. by rewrite H. }
  assert (Hfinal : forall s, run_inv p (log st) s ->
                   existsb is_insights_event (events_since st s) = false).
  { intros s [_ _ _ (evs & Hlog & Hall)]. unfold events_since.
    rewrite Hlog, drop_app_length. clear Hlog.
    induction evs as [|ev evs IH]; [done|]. simpl in *.
    apply andb_true_iff in Hall as [Hev Hall]. unfold p in Hev.
    apply negb_true_iff in Hev. by rewrite Hev, IH. }
  assert (Hinv0 : run_inv p (log st) (fresh_agent st)).
  { split; try done. exists []. by rewrite app_nil_r. }
  pose proof (spec_pre_insight w p (log st) ltac:(done) ltac:(done) Hchat
                query _ Hinv0) as [Hinv4 _].
  destruct (pre_insight w query (fresh_agent st)) as [[[c r]|e] s4]; cbn [snd] in Hinv4.
  2: { intros _. apply Hfinal.
       by destruct (spec_research_handler w p (log st) query e s4 Hinv4). }
  pose proof (stage_insights_profiles w c r s4) as Hp5.
  rewrite stage_insights_run in *.
  destruct (profiles s4) as [|f fs] eqn:Hps.
  - intros _. apply Hfinal. by apply research_tail_inv.
  - cbv zeta in *.
    destruct (_generate_insights w (f :: fs) c r _) as [[found|e] s] eqn:Hgen.
    + destruct (Py.len found) as [n|e]; cbn [snd] in Hp5;
        rewrite research_tail_profiles; intros Hnone; congruence.
    + cbn [snd] in Hp5. rewrite research_tail_profiles. intros Hnone. congruence.
Qed.

(** X19. An insights reply that parses is not checked: when it is an
    object whose [insights] is a number, a boolean or null, that value is
    taken for the insights, its [len] raises in [research], and the stage
    raises instead of falling back to the placeholder. *)
Theorem insights_without_length_raise (w : World) (c r : value) (st : St)
    (p : value) (ps : list value) (texts : list string) (rc : string)
    (content : option string) (d : list (string * value)) (v : value) :
  profiles st = p :: ps ->
  format_profiles w 1 (p :: ps) = Return texts ->
  roles_context_of r = Return rc ->
  chat_completions_create w (length (log st))
    (insights_request (insights_prompt (PyStr.join PyStr.nl texts)
                         (company_context_of w c) rc)) = Return content ->
  loads w content = Return (VDict d) ->
  Py.lookup "insights" d = Some v ->
  iterable v = False ->
  fst (stage_insights w c r st)
  = Raise (TypeError ("object of type '" ++ Py.type_name v ++ "' has no len()"))
  /\ insights (snd (stage_insights w c r st)) = insights st
  /\ exists s, last (steps (snd (stage_insights w c r st))) = Some s
               /\ description s = "Analyzing professional profiles"
               /\ status s = in_progress.
Proof.
  intros Hps Hfmt Hrc Hchat Hloads Hv Hiter.
  rewrite stage_insights_run, Hps. cbv zeta. rewrite generate_insights_run.
  rewrite Hfmt, Hrc. cbv zeta. unfold _add_step. cbn [snd log tick with_steps].
  rewrite Hchat. unfold insights_reply. unfold_monad. rewrite Hloads.
  unfold extract_insights. unfold_monad. cbn [Py.contains Py.getitem]. rewrite Hv.
  destruct v; try (by exfalso; rewrite <- Hiter).
  all: cbn [Py.len fst snd insights steps emit tick with_steps].
  all: split; [done|]; split; [done|].
  all: rewrite last_snoc; by eexists.
Qed.

(** * More properties: the people of the fallback *)

Lemma find_app_none {A} (f : A -> bool) (l1 l2 : list A) :
  (forall x, In x l1 -> f x = false) -> find f (l1 ++ l2) = find f l2.
Proof.
  induction l1 as [|a l1 IH]; [done|]. intros H. simpl.
  rewrite (H a) by (by left). apply IH. intros x Hx. apply H. by right.
Qed.

(** X20. [_get_fallback_people] with a company returns three profiles that
    all carry that company and one expertise list, the list of the first
    role key that matches the lowercased role in either direction, or the
    default list when none does; their names and titles are made of the
    role in title case, whatever text that is. Without a company it returns
    the same two fixed profiles whatever the role is. A role that is not a
    string makes it raise in both cases. *)
Theorem fallback_people_shape (str_title : string -> string) (role : string)
    (company : value) :
  (Py.truthy company = true ->
   exists p1 p2 p3,
     _get_fallback_people str_title (VStr role) company = Return [p1; p2; p3]
     /\ Forall (fun p =>
                  Py.get p "company" VNone = Return company
                  /\ Py.get p "expertise" VNone
                     = Return (strs (matched_expertise (PyStr.lower role)))
                  /\ Py.get p "location" VNone = Return (VStr "United States"))
          [p1; p2; p3]
     /\ map (fun p => Py.get p "name" VNone) [p1; p2; p3]
        = [Return (VStr ("Senior " ++ str_title role ++ " Professional"));
           Return (VStr (str_title role ++ " Leader"));
           Return (VStr (str_title role ++ " Manager"))]
     /\ map (fun p => Py.get p "title" VNone) [p1; p2; p3]
        = [Return (VStr ("Senior " ++ str_title role));
           Return (VStr (str_title role ++ " Team Lead"));
           Return (VStr (str_title role ++ " Manager"))]
     /\ (forall key skills before after,
           role_expertise = (before ++ (key, skills) :: after)%list ->
           (PyStr.contains key (PyStr.lower role)
            || PyStr.contains (PyStr.lower role) key) = true ->
           Forall (fun kv =>
                     PyStr.contains (fst kv) (PyStr.lower role) = false
                     /\ PyStr.contains (PyStr.lower role) (fst kv) = false) before ->
           matched_expertise (PyStr.lower role) = skills)
     /\ ((forall key, In key (map fst role_expertise) ->
            PyStr.contains key (PyStr.lower role) = false
            /\ PyStr.contains (PyStr.lower role) key = false) ->
         matched_expertise (PyStr.lower role) = default_expertise))
  /\ (Py.truthy company = false ->
      forall other : string,
        _get_fallback_people str_title (VStr role) company = Return generic_profiles
        /\ _get_fallback_people str_title (VStr other) company
           = _get_fallback_people str_title (VStr role) company)
  /\ (forall v : value, (forall s, v <> VStr s) ->
        _get_fallback_people str_title v company = Raise (Py.no_attribute v "lower")).
Proof.
  split; [|split].
  - intros Hc. unfold _get_fallback_people. cbn [Py.lower py_title].
    unfold_monad. rewrite Hc. eexists _, _, _. split; [reflexivity|].
    split; [by repeat constructor|]. split; [done|]. split; [done|]. split.
    + intros key skills before after Heq Hkey Hbefore. unfold matched_expertise.
      rewrite Heq. rewrite find_app_none.
      * cbn [find fst]. unfold company_matches at 1. by rewrite Hkey.
      * intros kv Hkv. rewrite Forall_forall in Hbefore.
        destruct (Hbefore kv) as [H1 H2]; [by apply list_elem_of_In|].
        unfold company_matches. by rewrite H1, H2.
    + intros Hnone. unfold matched_expertise.
      destruct (find _ role_expertise) as [[k skills]|] eqn:Hfind; [|done].
      apply find_some in Hfind as [Hin Hk]. cbn [fst] in Hk.
      destruct (Hnone k) as [H1 H2]; [apply in_map_iff; by exists (k, skills)|].
      unfold company_matches in Hk. by rewrite H1, H2 in Hk.
  - intros Hc other. unfold _get_fallback_people. cbn [Py.lower].
    unfold_monad. by rewrite Hc.
  - intros v Hv. destruct v; try done. by destruct (Hv s).
Qed.

(** * The further properties on example runs *)

Lemma search_people_all_or_nothing_witness :
  fst (search_people Examples.llm_down (VStr "engineers") VNone Examples.initial)
  = Return [MoreExamples.ada_profile].
Proof.
  pose proof (search_people_all_or_nothing Examples.llm_down (VStr "engineers")
                VNone Examples.initial
                {| status_code := 200;
                   response_json :=
                     Return (VDict [("items",
                                     VList [Examples.ada (VList [VStr "Mathematics"])])]);
                   response_text := "" |}
                [("items", VList [Examples.ada (VList [VStr "Mathematics"])])]
                (Examples.ada (VList [VStr "Mathematics"])) []) as H.
  rewrite H; reflexivity.
Defined.

Lemma search_people_empty_on_failure_witness :
  fst (search_people Examples.offline (VStr "engineers") (VStr "Acme") Examples.initial)
  = Return [].
Proof.
  apply (search_people_empty_on_failure Examples.offline). vm_compute. reflexivity.
Defined.

Lemma get_company_info_raises_without_string_witness :
  fst (get_company_info Examples.offline (VInt 5) Examples.initial)
  = Raise (AttributeError "'int' object has no attribute 'lower'").
Proof.
  apply (get_company_info_raises_without_string Examples.offline (VInt 5)).
  - intros s. discriminate.
  - vm_compute. reflexivity.
Defined.

Lemma get_company_info_maps_first_item_witness :
  fst (get_company_info Examples.llm_down (VStr "Analytical Engines") Examples.initial)
  = Return (VDict [("name", VStr "Ada Lovelace"); ("industry", VStr "Unknown");
                   ("location", VStr "Unknown");
                   ("description", VStr "No description available");
                   ("website", VStr ""); ("linkedin_url", VStr "");
                   ("logo_url", VStr ""); ("employees", VDict [])]).
Proof.
  pose proof (get_company_info_maps_first_item Examples.llm_down
                (VStr "Analytical Engines") Examples.initial
                {| status_code := 200;
                   response_json :=
                     Return (VDict [("items",
                                     VList [Examples.ada (VList [VStr "Mathematics"])])]);
                   response_text := "" |}
                [("items", VList [Examples.ada (VList [VStr "Mathematics"])])]
                [("name", VStr "Ada Lovelace"); ("title", VStr "Engineer");
                 ("expertise", VList [VStr "Mathematics"])] []) as H.
  rewrite H; reflexivity.
Defined.

Lemma fallback_ignores_case_witness :
  _get_fallback_company_info (VStr (MoreExamples.E_acute ++ "Apple"))
  = Return apple_record
  /\ _get_fallback_company_info (VStr (MoreExamples.e_acute ++ "APPLE"))
     = Return apple_record.
Proof.
  destruct (fallback_ignores_case (MoreExamples.E_acute ++ "Apple")
              (MoreExamples.e_acute ++ "APPLE")) as (_ & Hrec & _).
  - right. vm_compute. reflexivity.
  - apply (Hrec "apple"). vm_compute. reflexivity.
Defined.

Lemma company_record_keys_witness :
  exists d,
    generic_company_info (VStr "Acme Robotics") = VDict d
    /\ (map fst d = record_keys \/ map fst d = record_keys ++ ["employees"]).
Proof.
  apply (company_record_keys Examples.offline "Acme Robotics" Examples.initial).
  vm_compute. reflexivity.
Defined.

Lemma complete_touches_one_step_witness :
  status <$> steps (snd (complete Examples.offline 0 false VNone None
                           (snd (_add_step Examples.offline "Searching" None
                                   Examples.initial)))) !! 0
  = Some failed.
Proof.
  edestruct (complete_touches_one_step Examples.offline 0 false VNone None
               (snd (_add_step Examples.offline "Searching" None Examples.initial))
               (ResearchStep_init "Searching" None 0) "" None) as [(Hstep & _) _].
  { vm_compute. reflexivity. }
  cbv zeta in Hstep. by rewrite Hstep.
Defined.

Lemma analysis_not_an_object_fails_the_run_witness :
  exists res,
    fst (research_linkedin MoreExamples.array_reply "engineers" Examples.initial)
    = Return res
    /\ res_error res = Some "'list' object has no attribute 'get'".
Proof.
  edestruct (analysis_not_an_object_fails_the_run MoreExamples.array_reply
               "engineers" Examples.initial) as (res & Hres & Herr & _).
  - vm_compute. reflexivity.
  - vm_compute. reflexivity.
  - reflexivity.
  - exists res. by split.
Defined.

Lemma summary_uses_first_five_profiles_witness :
  fst (_create_summary Examples.offline "engineers"
         (with_profiles (repeat MoreExamples.ada_profile 5 ++ [VNone])
            (with_profiles (repeat MoreExamples.ada_profile 5) Examples.initial)))
  = Return summary_error.
Proof.
  edestruct (summary_uses_first_five_profiles Examples.offline "engineers"
               (with_profiles (repeat MoreExamples.ada_profile 5) Examples.initial)
               (repeat MoreExamples.ada_profile 5 ++ [VNone])) as [Hfst _].
  { reflexivity. }
  rewrite Hfst. vm_compute. reflexivity.
Defined.

Lemma run_research_task_unknown_id_witness :
  run_research_task Examples.offline 2 (Examples.pending "engineers")
  = (Return tt, Examples.pending "engineers").
Proof.
  apply run_research_task_unknown_id. vm_compute. reflexivity.
Defined.

Lemma run_research_task_keeps_to_its_record_witness :
  rq_status <$> queries (Session.stored
                           (snd (Session.run_research_task MoreExamples.locked
                                   Examples.llm_down 1
                                   (Session.start (Examples.pending "engineers")))))
                !! 1%Z
  = Some "in_progress"
  /\ rq_status <$> queries (Session.stored
                              (snd (Session.run_research_task MoreExamples.results_refused
                                      Examples.llm_down 1
                                      (Session.start (Examples.pending "engineers")))))
                   !! 1%Z
     = Some "failed".
Proof.
  destruct (run_research_task_keeps_to_its_record MoreExamples.locked Examples.llm_down 1
              (Examples.pending_query "engineers") (Examples.pending "engineers"))
    as (_ & _ & (rq1 & Hrq1 & _ & _ & _ & Hstays) & _).
  { vm_compute. reflexivity. }
  destruct (run_research_task_keeps_to_its_record MoreExamples.results_refused
              Examples.llm_down 1
              (Examples.pending_query "engineers") (Examples.pending "engineers"))
    as (_ & _ & (rq2 & Hrq2 & _ & _ & Hflips & _) & _).
  { vm_compute. reflexivity. }
  rewrite Hrq1, Hrq2. cbn [fmap option_fmap option_map]. split.
  - f_equal. apply Hstays.
    + reflexivity.
    + reflexivity.
    + discriminate.
    + discriminate.
    + left. discriminate.
  - destruct Hflips as [Hc|Hf].
    + reflexivity.
    + reflexivity.
    + vm_compute in Hrq2. injection Hrq2 as <-. discriminate Hc.
    + by rewrite Hf.
Defined.

Lemma expertise_round_trip_witness :
  exists row,
    profile_row_of MoreExamples.one_text_json 1
      MoreExamples.ada_profile = Return row
    /\ api_profile_expertise MoreExamples.one_text_json (profile_expertise row)
       = VList [VStr "Mathematics"].
Proof.
  destruct (expertise_round_trip MoreExamples.one_text_json 1
              [("name", VStr "Ada Lovelace"); ("title", VStr "Engineer");
               ("company", VStr ""); ("location", VStr "");
               ("linkedin_url", VStr ""); ("image_url", VStr "");
               ("expertise", VList [VStr "Mathematics"])])
    as (row & Hrow & Hsome & _).
  exists row. split; [exact Hrow|].
  apply Hsome; [reflexivity|reflexivity|discriminate|reflexivity].
Defined.

Lemma search_stage_keeps_first_result_witness :
  profiles (snd (stage_search Examples.llm_down "engineers" VNone
                   (VList [VStr "engineer"]) Examples.initial))
  = [MoreExamples.ada_profile].
Proof.
  erewrite (search_stage_keeps_first_result Examples.llm_down "engineers" VNone
              (VList [VStr "engineer"]) Examples.initial).
  - vm_compute. reflexivity.
  - vm_compute. reflexivity.
Defined.

Lemma successful_trace_shape_witness :
  exists res st',
    research_linkedin Examples.offline "engineers" Examples.initial = (Return res, st')
    /\ 4 <= length (res_steps res) <= 7.
Proof.
  edestruct (successful_trace_shape Examples.offline "engineers" Examples.initial)
    as (cs & br & is_ & _ & _ & _ & _ & Hlen & _).
  - vm_compute. reflexivity.
  - reflexivity.
  - eexists _, _. split; [vm_compute; reflexivity|]. exact Hlen.
Defined.

Lemma no_profiles_no_insights_call_witness :
  existsb is_insights_event
    (events_since Examples.initial
       (snd (research_linkedin Examples.offline "engineers" Examples.initial)))
  = false.
Proof.
  apply (no_profiles_no_insights_call Examples.offline "engineers" Examples.initial).
  vm_compute. reflexivity.
Defined.

Lemma insights_without_length_raise_witness :
  fst (stage_insights MoreExamples.number_insights VNone (VList [])
         MoreExamples.with_ada)
  = Raise (TypeError "object of type 'int' has no len()").
Proof.
  edestruct (insights_without_length_raise MoreExamples.number_insights VNone
               (VList []) MoreExamples.with_ada) as (Hraise & _).
  - reflexivity.
  - vm_compute. reflexivity.
  - reflexivity.
  - reflexivity.
  - reflexivity.
  - reflexivity.
  - reflexivity.
  - exact Hraise.
Defined.

Lemma fallback_people_shape_witness :
  exists p2 p3,
    _get_fallback_people PyTitle.title (VStr "data scientist") (VStr "Acme")
    = Return [company_profile "Senior Data Scientist Professional"
                "Senior Data Scientist" (VStr "Acme")
                (strs ["Machine Learning"; "Data Analysis"; "Statistics"; "Python";
                       "Data Visualization"]);
              p2; p3].
Proof.
  destruct (fallback_people_shape PyTitle.title "data scientist" (VStr "Acme"))
    as (Hco & _ & _).
  destruct Hco as (p1 & p2 & p3 & Hrun & _); [reflexivity|].
  exists p2, p3. rewrite Hrun. vm_compute in Hrun. by injection Hrun as <- <- <-.
Defined.
